(** * Task execution and worktree-merge orchestration of the Auto-Claude web server

    A shallow embedding of the request handlers and callbacks of
    [auto-claude-ui/src/web/server.ts] that supervise worker processes,
    reconcile the on-disk plan artifact, republish structured logs and merge a
    task's worktree branch, followed by the properties established about them.

    The two registries ([runningTasks], [logWatchers]) are finite maps keyed by
    task id.  Everything outside the server process (git, the file system, the
    clock, the process table) is reached through an interface record [Sys]
    over an abstract world, so that every statement holds for all behaviours
    of those collaborators.  Every observable action of a handler (a broadcast,
    a [kill], a git invocation, a write of the plan artifact) is appended to an
    ordered effect trace. *)

From Stdlib Require Import String Ascii List Bool ZArith Lia.
From stdpp Require Import gmap strings list pretty.

(** ** JavaScript string helpers *)

Module Js.

(** A string is truthy when it is not empty. *)
Definition truthy_s (s : string) : bool := negb (String.eqb s "").

(** An optional string field ([undefined] when absent) is truthy when it
    is present and not empty. *)
Definition truthy (o : option string) : bool :=
  match o with
  | Some s => truthy_s s
  | None => false
  end.

(** [a || b] on optional strings. *)
Definition or_else (a : option string) (b : string) : string :=
  match a with
  | Some s => if truthy_s s then s else b
  | None => b
  end.

(** [o === lit]. *)
Definition is_str (o : option string) (lit : string) : bool :=
  match o with
  | Some s => String.eqb s lit
  | None => false
  end.

(** [hay.includes(needle)]. *)
Fixpoint includes (hay needle : string) : bool :=
  if String.prefix needle hay then true
  else match hay with
       | EmptyString => false
       | String _ rest => includes rest needle
       end.

(** [hay.startsWith(p)] is [String.prefix p hay]. *)
Definition startsWith (hay p : string) : bool := String.prefix p hay.

(** Strings are read as the UTF-8 bytes of the JavaScript text.  The white
    space and line terminators that [trim] strips: the six ASCII ones, the
    no-break space U+00A0 (two bytes) and the three-byte U+1680,
    U+2000..U+200A, U+2028, U+2029, U+202F, U+205F, U+3000 and U+FEFF. *)
Definition is_space (c : ascii) : bool :=
  match nat_of_ascii c with
  | 9 | 10 | 11 | 12 | 13 | 32 => true
  | _ => false
  end.

Definition is_space2 (a b : ascii) : bool :=
  Ascii.eqb a "194"%char && Ascii.eqb b "160"%char.

Definition is_space3 (a b c : ascii) : bool :=
  (Ascii.eqb a "225"%char && Ascii.eqb b "154"%char && Ascii.eqb c "128"%char)
  || (Ascii.eqb a "226"%char && Ascii.eqb b "128"%char
      && existsb (Ascii.eqb c)
           ["128"; "129"; "130"; "131"; "132"; "133"; "134"; "135"; "136"; "137"; "138";
            "168"; "169"; "175"]%char)
  || (Ascii.eqb a "226"%char && Ascii.eqb b "129"%char && Ascii.eqb c "159"%char)
  || (Ascii.eqb a "227"%char && Ascii.eqb b "128"%char && Ascii.eqb c "128"%char)
  || (Ascii.eqb a "239"%char && Ascii.eqb b "187"%char && Ascii.eqb c "191"%char).

Fixpoint trimStart (s : string) : string :=
  match s with
  | EmptyString => EmptyString
  | String a rest =>
      if is_space a then trimStart rest
      else match rest with
           | String b rest2 =>
               if is_space2 a b then trimStart rest2
               else match rest2 with
                    | String c rest3 => if is_space3 a b c then trimStart rest3 else s
                    | EmptyString => s
                    end
           | EmptyString => s
           end
  end.

(** The text is cut where nothing but white space follows. *)
Fixpoint trimEnd (s : string) : string :=
  match s with
  | EmptyString => EmptyString
  | String c rest =>
      if String.eqb (trimStart s) EmptyString then EmptyString
      else String c (trimEnd rest)
  end.

(** [s.trim()]. *)
Definition trim (s : string) : string := trimEnd (trimStart s).

(** [s.slice(n)]. *)
Fixpoint slice_from (n : nat) (s : string) : string :=
  match n, s with
  | O, _ => s
  | S _, EmptyString => EmptyString
  | S k, String _ rest => slice_from k rest
  end.

(** [s.slice(0, n)]. *)
Definition slice_to (n : nat) (s : string) : string := String.substring 0 n s.

(** [s.split('\n')], written with an accumulator for the current line. *)
Fixpoint split_acc (cur : string) (s : string) : list string :=
  match s with
  | EmptyString => [cur]
  | String c rest =>
      if Ascii.eqb c "010"%char then cur :: split_acc EmptyString rest
      else split_acc (cur +:+ String c EmptyString) rest
  end.

Definition split_lines (s : string) : list string := split_acc EmptyString s.

(** [s.split(sep)] for a one-character separator. *)
Fixpoint split_on (sep : ascii) (cur : string) (s : string) : list string :=
  match s with
  | EmptyString => [cur]
  | String c rest =>
      if Ascii.eqb c sep then cur :: split_on sep EmptyString rest
      else split_on sep (cur +:+ String c EmptyString) rest
  end.

(** [normalizeString] of Node's [path] module on the segments of a path;
    [kept] holds the segments of the result, the last one first.  Empty
    segments and [.] are skipped; [..] removes the segment before it, and
    is kept only in a relative path that has nothing left to remove. *)
Fixpoint keep_segments (allowAboveRoot : bool) (kept segs : list string) : list string :=
  match segs with
  | [] => kept
  | seg :: rest =>
      if String.eqb seg "" || String.eqb seg "." then keep_segments allowAboveRoot kept rest
      else if String.eqb seg ".." then
        match kept with
        | last :: before =>
            if String.eqb last ".." then
              keep_segments allowAboveRoot
                (if allowAboveRoot then ".." :: kept else kept) rest
            else keep_segments allowAboveRoot before rest
        | [] =>
            keep_segments allowAboveRoot (if allowAboveRoot then [".."] else []) rest
        end
      else keep_segments allowAboveRoot (seg :: kept) rest
  end.

Fixpoint ends_with_slash (s : string) : bool :=
  match s with
  | EmptyString => false
  | String c EmptyString => Ascii.eqb c "/"%char
  | String _ rest => ends_with_slash rest
  end.

(** [path.posix.normalize]. *)
Definition normalize (path : string) : string :=
  match path with
  | EmptyString => "."
  | String c _ =>
      let isAbsolute := Ascii.eqb c "/"%char in
      let trailingSeparator := ends_with_slash path in
      let body :=
        String.concat "/"
          (rev (keep_segments (negb isAbsolute) [] (split_on "/"%char EmptyString path))) in
      if String.eqb body "" then
        if isAbsolute then "/" else if trailingSeparator then "./" else "."
      else
        let body := if trailingSeparator then body +:+ "/" else body in
        if isAbsolute then "/" +:+ body else body
  end.

(** [path.join]: the non-empty arguments joined with [/], normalised. *)
Definition path_join (segs : list string) : string :=
  match List.filter (fun seg => negb (String.eqb seg "")) segs with
  | [] => "."
  | parts => normalize (String.concat "/" parts)
  end.

End Js.

(** ** The plan artifact ([implementation_plan.json]) *)

Record Subtask := mkSubtask {
  sub_id : string;
  sub_description : string;
  sub_status : option string
}.

(** A phase lists its work items under [subtasks] or under [chunks]. *)
Record Phase := mkPhase {
  phase_subtasks : option (list Subtask);
  phase_chunks : option (list Subtask)
}.

Record QaSignoff := mkQa {
  qa_status : option string
}.

Record Plan := mkPlan {
  plan_status : option string;
  plan_planStatus : option string;
  plan_updated_at : option string;
  plan_parent_branch : option string;
  plan_merged_at : option string;
  plan_phases : option (list Phase);
  plan_qa_signoff : option QaSignoff;
  plan_feature : option string;
  plan_description : option string
}.

(** What [existsSync(planPath)] followed by [JSON.parse(readFileSync(planPath))]
    gives: no file, a file that does not parse, or the parsed document. *)
Inductive PlanRead :=
| Missing
| Unparseable
| Parsed (p : Plan).

(** An entry of the [subtasks] array sent to the client; its status has
    already been defaulted to ['pending']. *)
Record TaskSubtask := mkTaskSubtask {
  ts_id : string;
  ts_title : string;
  ts_description : string;
  ts_status : string
}.

(** ** Status derivation of the task listing ([GET /api/tasks]) *)

Module Listing.

(** [phase.subtasks || phase.chunks || []]: an array is truthy even when it
    is empty. *)
Definition phase_items (ph : Phase) : list Subtask :=
  match phase_subtasks ph with
  | Some items => items
  | None => match phase_chunks ph with
            | Some items => items
            | None => []
            end
  end.

Definition to_task_subtask (s : Subtask) : TaskSubtask :=
  {| ts_id := sub_id s;
     ts_title := sub_description s;
     ts_description := sub_description s;
     ts_status := Js.or_else (sub_status s) "pending" |}.

(** [plan.phases.flatMap(...)], or the initial [[]] without phases. *)
Definition extract_subtasks (plan : Plan) : list TaskSubtask :=
  match plan_phases plan with
  | Some phases => flat_map (fun ph => map to_task_subtask (phase_items ph)) phases
  | None => []
  end.

Definition count_status (lit : string) (l : list TaskSubtask) : nat :=
  List.length (List.filter (fun s => String.eqb (ts_status s) lit) l).

Definition qa_approved (plan : Plan) : bool :=
  match plan_qa_signoff plan with
  | Some q => Js.is_str (qa_status q) "approved"
  | None => false
  end.

(** The pair (status, reviewReason) the handler holds at each point. *)
Definition Verdict : Type := string * option string.

(** Lines 890-912: status from subtask progress. *)
Definition from_subtasks (plan : Plan) (allSubtasks : list TaskSubtask)
    (v : Verdict) : Verdict :=
  if 0 <? List.length allSubtasks then
    let completed := count_status "completed" allSubtasks in
    let inProgress := count_status "in_progress" allSubtasks in
    let failed := count_status "failed" allSubtasks in
    if completed =? List.length allSubtasks then
      if qa_approved plan then ("human_review", Some "completed")
      else ("ai_review", snd v)
    else if 0 <? failed then ("human_review", Some "errors")
    else if (0 <? inProgress) || (0 <? completed) then ("in_progress", snd v)
    else v
  else v.

(** Lines 914-927: the QA report, when [qa_report.md] exists. *)
Definition from_qa_report (qaReport : option string)
    (allSubtasks : list TaskSubtask) (v : Verdict) : Verdict :=
  match qaReport with
  | None => v
  | Some qaContent =>
      if Js.includes qaContent "REJECTED" || Js.includes qaContent "FAILED" then
        ("human_review", Some "qa_rejected")
      else if Js.includes qaContent "PASSED" || Js.includes qaContent "APPROVED" then
        if (0 <? List.length allSubtasks)
           && forallb (fun s => String.eqb (ts_status s) "completed") allSubtasks
        then ("human_review", Some "completed")
        else v
      else v
  end.

(** Lines 929-938: the explicit status stored in the plan. *)
Definition from_plan_status (plan : Plan) (v : Verdict) : Verdict :=
  if Js.is_str (plan_status plan) "done" || Js.is_str (plan_status plan) "completed"
  then ("done", snd v)
  else if Js.is_str (plan_status plan) "planning" || Js.is_str (plan_status plan) "coding"
  then ("in_progress", snd v)
  else if Js.is_str (plan_status plan) "human_review" then ("human_review", snd v)
  else if Js.is_str (plan_status plan) "ai_review" then ("ai_review", snd v)
  else v.

(** The status and review reason before the in-memory override: ['pending']
    without a readable plan. *)
Definition derive (pr : PlanRead) (qaReport : option string) : Verdict :=
  match pr with
  | Parsed plan =>
      let subtasks := extract_subtasks plan in
      from_plan_status plan
        (from_qa_report qaReport subtasks
           (from_subtasks plan subtasks ("pending", None)))
  | _ => ("pending", None)
  end.

(** Line 953: [runningTasks.has(specName) ? 'in_progress' : status]. *)
Definition effectiveStatus {H : Type} (runningTasks : gmap string H)
    (specName : string) (status : string) : string :=
  match runningTasks !! specName with
  | Some _ => "in_progress"
  | None => status
  end.

(** The (status, reviewReason) fields of the listed task. *)
Definition listed {H : Type} (runningTasks : gmap string H) (specName : string)
    (pr : PlanRead) (qaReport : option string) : Verdict :=
  let v := derive pr qaReport in
  (effectiveStatus runningTasks specName (fst v), snd v).

End Listing.

(** ** The structured log artifact ([task_logs.json]) *)

Record PhaseLog := mkPhaseLog {
  pl_status : option string;
  pl_entries : option (list string)
}.

Record LogPhases := mkLogPhases {
  planning : option PhaseLog;
  coding : option PhaseLog;
  validation : option PhaseLog
}.

Record TaskLogs := mkTaskLogs {
  spec_id : option string;
  created_at : option string;
  updated_at : option string;
  phases : option LogPhases
}.

(** A parsed JSON value as the log code tells them apart: a falsy value
    ([null], [false], [0], the empty string) or a truthy one, read through its
    optional fields. *)
Inductive LogsJson :=
| LFalsy
| LObj (l : TaskLogs).

(** ** Merging the primary and the worktree logs ([GET /api/tasks/:id/logs]) *)

Module Logs.

(** [p?.entries?.length > 0 || p?.status !== 'pending'] for the phase [p]
    of the worktree copy. *)
Definition worktree_wins (p : option PhaseLog) : bool :=
  match p with
  | Some pl =>
      match pl_entries pl with
      | Some es => (0 <? List.length es) || negb (Js.is_str (pl_status pl) "pending")
      | None => negb (Js.is_str (pl_status pl) "pending")
      end
  | None => true
  end.

(** [w > m ? w : m] on two optional timestamps; a comparison with
    [undefined] is false. *)
Definition later (w m : option string) : option string :=
  match w, m with
  | Some a, Some b => if String.ltb b a then w else m
  | _, _ => m
  end.

(** [a || b] on two optional phases; a phase object is truthy. *)
Definition first_phase (a b : option PhaseLog) : option PhaseLog :=
  match a with
  | Some _ => a
  | None => b
  end.

(** Lines 4552-4565.  [None] is the [TypeError] raised by
    [worktreeLogs.phases.coding] when the worktree copy has no [phases]:
    the test before it is true for a missing phase. *)
Definition merge_both (mainLogs worktreeLogs : TaskLogs) : option TaskLogs :=
  match phases worktreeLogs with
  | None => None
  | Some wp =>
      let mplanning := match phases mainLogs with Some mp => planning mp | None => None end in
      let mcoding := match phases mainLogs with Some mp => coding mp | None => None end in
      let mvalidation := match phases mainLogs with Some mp => validation mp | None => None end in
      Some {| spec_id := spec_id mainLogs;
              created_at := created_at mainLogs;
              updated_at := later (updated_at worktreeLogs) (updated_at mainLogs);
              phases := Some
                {| planning := first_phase mplanning (planning wp);
                   coding := if worktree_wins (coding wp) then coding wp else mcoding;
                   validation :=
                     if worktree_wins (validation wp) then validation wp else mvalidation |} |}
  end.

Inductive Merged :=
| NoLogs
| Logs (l : TaskLogs)
| TypeError.

(** Lines 4546-4567, on the two results of [loadTaskLogs]. *)
Definition merge (mainLogs worktreeLogs : option TaskLogs) : Merged :=
  match worktreeLogs with
  | Some w =>
      match mainLogs with
      | None => Logs w
      | Some m => match merge_both m w with
                  | Some l => Logs l
                  | None => TypeError
                  end
      end
  | None => match mainLogs with
            | Some m => Logs m
            | None => NoLogs
            end
  end.

End Logs.

(** ** Events, effects and the server state *)

(** The topics published through [broadcast]. *)
Inductive Event :=
| TaskStatusChange (taskId status : string)
| TaskExit (taskId : string) (code : option Z)
| TaskLog (taskId log : string)
| TaskExecutionProgress (taskId phase status : string)
| TaskLogsChanged (specId : string) (logs : TaskLogs).

(** The git invocations of the handlers, one constructor per command line. *)
Inductive GitCmd :=
| RevParseHead                          (* git rev-parse --abbrev-ref HEAD *)
| RevParseVerifyMain                    (* git rev-parse --verify main *)
| Checkout (branch : string)            (* git checkout <branch> *)
| LogRange (base branch : string)       (* git log <base>..<branch> --oneline *)
| MergeAbort                            (* git merge --abort *)
| StatusNoWorktrees                     (* git status --porcelain -- . ":(exclude).worktrees" *)
| StashPush                             (* git stash push -m ... -- . ":(exclude).worktrees" *)
| LsFilesTracked (dir : string)         (* git ls-files --error-unmatch <dir> || echo untracked *)
| GitMerge (branch : string)            (* git merge <branch> --no-edit *)
| StatusPorcelain                       (* git status --porcelain *)
| GitRm (file : string)                 (* git rm <file> *)
| CheckoutTheirs (file : string)        (* git checkout --theirs <file> *)
| GitAdd (file : string)                (* git add <file> *)
| SubmodulePaths                        (* git config --file .gitmodules --get-regexp path | cut ... *)
| CheckoutHead (path : string)          (* git checkout HEAD -- <path> *)
| GitAddAll                             (* git add -A *)
| Commit (message : string)             (* git commit -m <message> *)
| MergeContinue                         (* git merge --continue *)
| StashPop                              (* git stash pop *)
| StashDrop.                            (* git stash drop *)

(** [execSync] returns the command's output or throws an [Error] with a
    message. *)
Inductive ExecResult :=
| ExecOk (stdout : string)
| ExecErr (message : string).

(** Everything a handler does that is visible outside it, in order. *)
Inductive Effect :=
| Broadcast (e : Event)
| Spawn (child : nat) (command : string) (args : list string) (cwd : string)
| Kill (child : nat)
| SetInterval (timer : nat)
| ClearInterval (timer : nat)
| Exec (cwd : string) (c : GitCmd)
| WritePlan (path : string) (p : Plan)
| WriteFile (path : string) (content : string)
| Unlink (path : string)
| RmRecursive (path : string)
| ConsoleError (message : string).

Record Project := mkProject {
  project_id : string;
  project_path : string
}.

(** The collaborators of the server over a world [W]: git, the file system,
    the project store, the clock and the process table. *)
Record Sys (W : Type) := mkSys {
  execSync : string -> GitCmd -> W -> ExecResult * W;
  readPlan : string -> W -> PlanRead;
  writePlan : string -> Plan -> W -> W;
  (** [existsSync(p)] and [readFileSync(p)] together: [None] when the file
      is absent or cannot be read. *)
  readFile : string -> W -> option string;
  writeFile : string -> string -> W -> W;
  existsSync : string -> W -> bool;
  unlinkSync : string -> W -> W;
  rmSync : string -> W -> W;
  (** The contents of the [*.log] files of a directory, in listing order. *)
  legacyLogs : string -> W -> list string;
  (** [JSON.parse] on a log file: [None] when it throws. *)
  parseLogs : string -> option LogsJson;
  (** [new Date().toISOString()]. *)
  now : W -> string;
  (** [loadStore().projects.find(p => p.id === projectId)]. *)
  findProject : string -> W -> option Project;
  getAutoBuildPath : W -> option string;
  (** [spawn(command, args, {cwd})]: the pid, absent when the launch failed. *)
  spawn : string -> list string -> string -> W -> option nat * W;
  (** [child.kill()] on the process with that pid. *)
  kill : option nat -> W -> W
}.

Arguments execSync {W}.
Arguments readPlan {W}.
Arguments writePlan {W}.
Arguments readFile {W}.
Arguments writeFile {W}.
Arguments existsSync {W}.
Arguments unlinkSync {W}.
Arguments rmSync {W}.
Arguments legacyLogs {W}.
Arguments parseLogs {W}.
Arguments now {W}.
Arguments findProject {W}.
Arguments getAutoBuildPath {W}.
Arguments spawn {W}.
Arguments kill {W}.

(** A [ChildProcess] object: its identity in the server and its pid. *)
Record ChildProcess := mkChild {
  child_id : nat;
  child_pid : option nat
}.

Record RunningTask := mkRunningTask {
  rt_taskId : string;
  rt_process : ChildProcess;
  rt_projectPath : string
}.

(** A [LogWatcher] entry together with the three variables its timer
    callback closes over ([var_*]); the [lw_last*] fields are the copies
    taken when the entry is stored. *)
Record LogWatcher := mkLogWatcher {
  lw_specId : string;
  lw_projectPath : string;
  lw_lastContent : string;
  lw_lastWorktreeContent : string;
  lw_interval : nat;
  var_lastContent : string;
  var_lastWorktreeContent : string;
  var_lastPlanStatus : string
}.

Record Server (W : Type) := mkServer {
  world : W;
  runningTasks : gmap string RunningTask;
  logWatchers : gmap string LogWatcher;
  trace : list Effect;
  (** The next fresh identity for a child process or a timer. *)
  fresh : nat
}.

Arguments mkServer {W}.
Arguments world {W}.
Arguments runningTasks {W}.
Arguments logWatchers {W}.
Arguments trace {W}.
Arguments fresh {W}.

(** The server as it boots: both registries empty. *)
Definition initialServer {W} (w : W) : Server W :=
  mkServer w ∅ ∅ [] 0.

(** The JSON body of a response with its HTTP status. *)
Record Response := mkResponse {
  http_status : nat;
  success : bool;
  error : option string;
  message : option string
}.

Definition ok_response : Response :=
  {| http_status := 200; success := true; error := None; message := None |}.

Definition error_response (code : nat) (e : string) : Response :=
  {| http_status := code; success := false; error := Some e; message := None |}.

(** ** Paths of the artifacts of a task *)

Definition specDirOf (projectPath taskId : string) : string :=
  Js.path_join [projectPath; ".auto-claude"; "specs"; taskId].

Definition worktreeSpecDirOf (projectPath taskId : string) : string :=
  Js.path_join [projectPath; ".worktrees"; taskId; ".auto-claude"; "specs"; taskId].

Definition planPathOf (projectPath taskId : string) : string :=
  Js.path_join [specDirOf projectPath taskId; "implementation_plan.json"].

Definition worktreePlanPathOf (projectPath taskId : string) : string :=
  Js.path_join [worktreeSpecDirOf projectPath taskId; "implementation_plan.json"].

Definition logFileOf (dir : string) : string := Js.path_join [dir; "task_logs.json"].

(** ** Field updates *)

Definition set_world {W} (w : W) (s : Server W) : Server W :=
  mkServer w (runningTasks s) (logWatchers s) (trace s) (fresh s).

Definition set_runningTasks {W} (m : gmap string RunningTask) (s : Server W) : Server W :=
  mkServer (world s) m (logWatchers s) (trace s) (fresh s).

Definition set_logWatchers {W} (m : gmap string LogWatcher) (s : Server W) : Server W :=
  mkServer (world s) (runningTasks s) m (trace s) (fresh s).

Definition emit {W} (e : Effect) (s : Server W) : Server W :=
  mkServer (world s) (runningTasks s) (logWatchers s) (trace s ++ [e]) (fresh s).

Definition bump {W} (s : Server W) : Server W :=
  mkServer (world s) (runningTasks s) (logWatchers s) (trace s) (S (fresh s)).

(** [broadcast(event, data)]: the message goes to the clients connected at
    that moment. *)
Definition broadcast {W} (ev : Event) (s : Server W) : Server W := emit (Broadcast ev) s.

Definition set_plan_status (status planStatus updated : string) (p : Plan) : Plan :=
  {| plan_status := Some status;
     plan_planStatus := Some planStatus;
     plan_updated_at := Some updated;
     plan_parent_branch := plan_parent_branch p;
     plan_merged_at := plan_merged_at p;
     plan_phases := plan_phases p;
     plan_qa_signoff := plan_qa_signoff p;
     plan_feature := plan_feature p;
     plan_description := plan_description p |}.

Definition set_parent_branch (b : string) (p : Plan) : Plan :=
  {| plan_status := plan_status p;
     plan_planStatus := plan_planStatus p;
     plan_updated_at := plan_updated_at p;
     plan_parent_branch := Some b;
     plan_merged_at := plan_merged_at p;
     plan_phases := plan_phases p;
     plan_qa_signoff := plan_qa_signoff p;
     plan_feature := plan_feature p;
     plan_description := plan_description p |}.

Definition set_done (merged : string) (p : Plan) : Plan :=
  {| plan_status := Some "done";
     plan_planStatus := plan_planStatus p;
     plan_updated_at := plan_updated_at p;
     plan_parent_branch := plan_parent_branch p;
     plan_merged_at := Some merged;
     plan_phases := plan_phases p;
     plan_qa_signoff := plan_qa_signoff p;
     plan_feature := plan_feature p;
     plan_description := plan_description p |}.

(** ** The process supervisor and the log watcher *)

Section Supervisor.
Context {W : Type} (sys : Sys W).

(** [writeFileSync(planPath, JSON.stringify(plan, null, 2))]. *)
Definition savePlan (path : string) (p : Plan) (s : Server W) : Server W :=
  emit (WritePlan path p) (set_world (writePlan sys path p (world s)) s).

(** [stopLogWatching] (lines 598-604). *)
Definition stopLogWatching (specId : string) (s : Server W) : Server W :=
  match logWatchers s !! specId with
  | Some watcher =>
      set_logWatchers (delete specId (logWatchers s))
        (emit (ClearInterval (lw_interval watcher)) s)
  | None => s
  end.

(** The plan file the watcher looks at: the worktree copy when it exists. *)
Definition watchedPlan (specId projectPath : string) (w : W) : PlanRead :=
  match readPlan sys (worktreePlanPathOf projectPath specId) w with
  | Missing => readPlan sys (planPathOf projectPath specId) w
  | r => r
  end.

(** [startLogWatching] (lines 504-596), up to the registration of the
    timer; the timer callback is [tick]. *)
Definition startLogWatching (specId projectPath : string) (s0 : Server W) : Server W :=
  let s := stopLogWatching specId s0 in
  let lastContent :=
    default "" (readFile sys (logFileOf (specDirOf projectPath specId)) (world s)) in
  let lastWorktreeContent :=
    default "" (readFile sys (logFileOf (worktreeSpecDirOf projectPath specId)) (world s)) in
  let lastPlanStatus :=
    match watchedPlan specId projectPath (world s) with
    | Parsed plan => Js.or_else (plan_status plan) ""
    | _ => ""
    end in
  let interval := fresh s in
  set_logWatchers
    (<[specId := {| lw_specId := specId;
                    lw_projectPath := projectPath;
                    lw_lastContent := lastContent;
                    lw_lastWorktreeContent := lastWorktreeContent;
                    lw_interval := interval;
                    var_lastContent := lastContent;
                    var_lastWorktreeContent := lastWorktreeContent;
                    var_lastPlanStatus := lastPlanStatus |}]> (logWatchers s))
    (bump (emit (SetInterval interval) s)).

(** The value [newLogs] holds after [newLogs = JSON.parse(content)]: the
    assignment does not happen when the parse throws. *)
Definition assignParsed (content : string) (newLogs : option TaskLogs) : option TaskLogs :=
  match parseLogs sys content with
  | Some (LObj l) => Some l
  | Some LFalsy => None
  | None => newLogs
  end.

(** One check of a log file in the timer callback (lines 547-556 and
    559-568) on the triple (last content, changed, newLogs). *)
Definition checkLogFile (file : string) (w : W)
    (st : string * bool * option TaskLogs) : string * bool * option TaskLogs :=
  let '(last, changed, newLogs) := st in
  match readFile sys file w with
  | Some content =>
      if String.eqb content last then st
      else (content, true, assignParsed content newLogs)
  | None => st
  end.

(** What one run of the timer callback publishes about the logs (lines
    543-572). *)
Definition tickLogs (specId projectPath : string) (w : W) (lastContent lastWorktreeContent : string)
    : string * string * option Event :=
  let '(lastContent', changed1, newLogs1) :=
    checkLogFile (logFileOf (specDirOf projectPath specId)) w (lastContent, false, None) in
  let '(lastWorktreeContent', changed, newLogs) :=
    checkLogFile (logFileOf (worktreeSpecDirOf projectPath specId)) w
      (lastWorktreeContent, changed1, newLogs1) in
  (lastContent', lastWorktreeContent',
   match newLogs with
   | Some logs => if changed then Some (TaskLogsChanged specId logs) else None
   | None => None
   end).

(** What one run of the timer callback publishes about the plan status
    (lines 574-586). *)
Definition tickStatus (specId projectPath : string) (w : W) (lastPlanStatus : string)
    : string * option Event :=
  match watchedPlan specId projectPath w with
  | Parsed plan =>
      let currentStatus := Js.or_else (plan_status plan) "" in
      if Js.truthy_s currentStatus && negb (String.eqb currentStatus lastPlanStatus)
      then (currentStatus, Some (TaskStatusChange specId currentStatus))
      else (lastPlanStatus, None)
  | _ => (lastPlanStatus, None)
  end.

Definition publish (oe : option Event) (s : Server W) : Server W :=
  match oe with
  | Some ev => broadcast ev s
  | None => s
  end.

(** The callback of timer [timer], registered for [specId]; a cleared
    timer does not fire. *)
Definition tick (specId : string) (timer : nat) (s : Server W) : Server W :=
  match logWatchers s !! specId with
  | Some watcher =>
      if lw_interval watcher =? timer then
        let '(lc, lwc, logsEvent) :=
          tickLogs specId (lw_projectPath watcher) (world s)
            (var_lastContent watcher) (var_lastWorktreeContent watcher) in
        let '(lps, statusEvent) :=
          tickStatus specId (lw_projectPath watcher) (world s) (var_lastPlanStatus watcher) in
        set_logWatchers
          (<[specId := {| lw_specId := lw_specId watcher;
                          lw_projectPath := lw_projectPath watcher;
                          lw_lastContent := lw_lastContent watcher;
                          lw_lastWorktreeContent := lw_lastWorktreeContent watcher;
                          lw_interval := lw_interval watcher;
                          var_lastContent := lc;
                          var_lastWorktreeContent := lwc;
                          var_lastPlanStatus := lps |}]> (logWatchers s))
          (publish statusEvent (publish logsEvent s))
      else s
  | None => s
  end.

(** [loadTaskLogs(dir)] (lines 4530-4540): [null] for a missing file, a
    parse error or a falsy document. *)
Definition loadTaskLogs (dir : string) (w : W) : option TaskLogs :=
  match readFile sys (logFileOf dir) w with
  | Some content =>
      match parseLogs sys content with
      | Some (LObj l) => Some l
      | _ => None
      end
  | None => None
  end.

Inductive LogsReply :=
| ReplyNotFound
| ReplyLogs (l : TaskLogs)
| ReplyRaw (raw : string)
| ReplyTypeError.

(** [GET /api/tasks/:id/logs] (lines 4516-4584). *)
Definition getLogs (specId projectId : string) (w : W) : LogsReply :=
  match findProject sys projectId w with
  | None => ReplyNotFound
  | Some project =>
      let mainLogs := loadTaskLogs (specDirOf (project_path project) specId) w in
      let worktreeLogs := loadTaskLogs (worktreeSpecDirOf (project_path project) specId) w in
      match Logs.merge mainLogs worktreeLogs with
      | Logs.Logs l => ReplyLogs l
      | Logs.TypeError => ReplyTypeError
      | Logs.NoLogs =>
          ReplyRaw (String.concat (String (ascii_of_nat 10) EmptyString)
                      (legacyLogs sys (Js.path_join [specDirOf (project_path project) specId; "logs"]) w))
      end
  end.

(** Lines 1481-1485: kill the existing task if running. *)
Definition killExisting (taskId : string) (s : Server W) : Server W :=
  match runningTasks s !! taskId with
  | Some old =>
      set_runningTasks (delete taskId (runningTasks s))
        (emit (Kill (child_id (rt_process old)))
           (set_world (kill sys (child_pid (rt_process old)) (world s)) s))
  | None => s
  end.

(** Lines 1487-1498: the command line of the worker. *)
Definition workerArgs (autoBuildPath taskId : string) (force : bool) : list string :=
  [Js.path_join [autoBuildPath; "run.py"]; "--spec"; taskId; "--auto-continue"]
  ++ (if force then ["--force"] else []).

Definition pythonPathOf (autoBuildPath : string) : string :=
  Js.path_join [autoBuildPath; ".venv"; "bin"; "python"].

(** Lines 1510-1523: spawn the worker and register its handle. *)
Definition spawnAndRegister (taskId projectPath autoBuildPath : string) (force : bool)
    (s : Server W) : Server W :=
  let args := workerArgs autoBuildPath taskId force in
  let '(pid, w') := spawn sys (pythonPathOf autoBuildPath) args projectPath (world s) in
  let child := {| child_id := fresh s; child_pid := pid |} in
  set_runningTasks
    (<[taskId := {| rt_taskId := taskId; rt_process := child; rt_projectPath := projectPath |}]>
       (runningTasks s))
    (bump (emit (Spawn (fresh s) (pythonPathOf autoBuildPath) args projectPath) (set_world w' s))).

(** Lines 1525-1536: the branch checked out in the project, [''] when git
    fails. *)
Definition detectParentBranch (projectPath : string) (s : Server W) : string * Server W :=
  let '(r, w') := execSync sys projectPath RevParseHead (world s) in
  let s' := emit (Exec projectPath RevParseHead) (set_world w' s) in
  match r with
  | ExecOk out => (Js.trim out, s')
  | ExecErr e => ("", emit (ConsoleError "[Task Start] Failed to detect parent branch:") s')
  end.

(** Lines 1546-1550: first start wins. *)
Definition recordParentBranch (parentBranch : string) (p : Plan) : Plan :=
  if negb (Js.truthy (plan_parent_branch p)) && Js.truthy_s parentBranch
  then set_parent_branch parentBranch p
  else p.

(** Lines 1538-1556: persist [in_progress] into the plan artifact. *)
Definition persistInProgress (taskId projectPath parentBranch : string) (s : Server W) : Server W :=
  let planPath := planPathOf projectPath taskId in
  match readPlan sys planPath (world s) with
  | Missing => s
  | Unparseable =>
      emit (ConsoleError "[Task Start] Failed to update implementation_plan.json:") s
  | Parsed plan =>
      savePlan planPath
        (recordParentBranch parentBranch
           (set_plan_status "in_progress" "in_progress" (now sys (world s)) plan)) s
  end.

(** [POST /api/tasks/:id/start] (lines 1465-1625), up to the response; the
    stream and exit listeners it installs are [onSpawnError] and [onExit]. *)
Definition start (taskId projectId : string) (force : bool) (s : Server W)
    : Response * Server W :=
  match findProject sys projectId (world s) with
  | None => (error_response 404 "Project not found", s)
  | Some project =>
      match getAutoBuildPath sys (world s) with
      | None => (error_response 500 "auto-claude not found", s)
      | Some autoBuildPath =>
          let s1 := killExisting taskId s in
          let s2 := spawnAndRegister taskId (project_path project) autoBuildPath force s1 in
          let '(parentBranch, s3) := detectParentBranch (project_path project) s2 in
          let s4 := persistInProgress taskId (project_path project) parentBranch s3 in
          let s5 := broadcast (TaskStatusChange taskId "in_progress") s4 in
          let s6 := startLogWatching taskId (project_path project) s5 in
          (ok_response, s6)
      end
  end.

(** [child.on('error', ...)] (lines 1515-1517): the launch failure is
    written to the console. *)
Definition onSpawnError (taskId : string) (err : string) (s : Server W) : Server W :=
  emit (ConsoleError ("[Task Start] Spawn error: " +:+ err)) s.

(** Line 1603. *)
Definition finalStatusOf (code : option Z) : string :=
  match code with
  | Some 0%Z => "human_review"
  | _ => "backlog"
  end.

(** Lines 1605-1618: persist the final status into the plan artifact. *)
Definition persistFinalStatus (taskId projectPath finalStatus : string) (s : Server W) : Server W :=
  let exitPlanPath := planPathOf projectPath taskId in
  match readPlan sys exitPlanPath (world s) with
  | Missing => s
  | Unparseable =>
      emit (ConsoleError "[Task exit] Failed to update implementation_plan.json:") s
  | Parsed exitPlan =>
      savePlan exitPlanPath
        (set_plan_status finalStatus
           (if String.eqb finalStatus "human_review" then "review" else "pending")
           (now sys (world s)) exitPlan) s
  end.

(** [child.on('exit', ...)] (lines 1596-1622) of a worker started for
    [taskId] in [projectPath]. *)
Definition onExit (taskId projectPath : string) (code : option Z) (s : Server W) : Server W :=
  let s1 := set_runningTasks (delete taskId (runningTasks s)) s in
  let s2 := stopLogWatching taskId s1 in
  let s3 := broadcast (TaskExit taskId code) s2 in
  let finalStatus := finalStatusOf code in
  let s4 := persistFinalStatus taskId projectPath finalStatus s3 in
  broadcast (TaskStatusChange taskId finalStatus) s4.

(** [POST /api/tasks/:id/stop] (lines 1627-1640). *)
Definition stop (taskId : string) (s : Server W) : Response * Server W :=
  match runningTasks s !! taskId with
  | Some task =>
      let s1 := emit (Kill (child_id (rt_process task)))
                  (set_world (kill sys (child_pid (rt_process task)) (world s)) s) in
      let s2 := set_runningTasks (delete taskId (runningTasks s1)) s1 in
      let s3 := stopLogWatching taskId s2 in
      (ok_response, broadcast (TaskStatusChange taskId "stopped") s3)
  | None => (ok_response, s)
  end.

(** A start request as it arrives. *)
Record StartRequest := mkStartRequest {
  sr_taskId : string;
  sr_projectId : string;
  sr_force : bool
}.

(** A sequence of start requests handled one after the other. *)
Definition startAll (reqs : list StartRequest) (s : Server W) : Server W :=
  fold_left (fun st r => snd (start (sr_taskId r) (sr_projectId r) (sr_force r) st)) reqs s.

End Supervisor.

(** ** The merge engine ([POST /api/tasks/:id/worktree/merge]) *)

Module Merge.

(** The state a merge request works on: the world, the effects so far and
    the handler's variable [hasStash], which outlives a thrown error. *)
Record Frame (W : Type) := mkFrame {
  fr_world : W;
  fr_trace : list Effect;
  hasStash : bool
}.

Arguments mkFrame {W}.
Arguments fr_world {W}.
Arguments fr_trace {W}.
Arguments hasStash {W}.

(** A block of the handler either completes with a value or throws. *)
Inductive Outcome (A : Type) :=
| Normal (a : A)
| Thrown (message : string).

Arguments Normal {A}.
Arguments Thrown {A}.

Definition M (W A : Type) : Type := Frame W -> Outcome A * Frame W.

Definition ret {W A} (a : A) : M W A := fun f => (Normal a, f).

Definition bind {W A B} (m : M W A) (k : A -> M W B) : M W B :=
  fun f => match m f with
           | (Normal a, f') => k a f'
           | (Thrown e, f') => (Thrown e, f')
           end.

Definition throw {W A} (e : string) : M W A := fun f => (Thrown e, f).

(** [try { m } catch (e) { h e }]. *)
Definition try_catch {W A} (m : M W A) (h : string -> M W A) : M W A :=
  fun f => match m f with
           | (Normal a, f') => (Normal a, f')
           | (Thrown e, f') => h e f'
           end.

Notation "'let*' x ':=' m 'in' k" := (bind m (fun x => k))
  (at level 10, x name, m at level 100, k at level 200).
Notation "m ;; k" := (bind m (fun _ => k))
  (at level 100, k at level 200, right associativity).

(** [try { m } catch {}]. *)
Definition attempt {W} (m : M W unit) : M W unit := try_catch m (fun _ => ret tt).

(** [for (const x of l) body(x)]. *)
Fixpoint forEach {W A} (l : list A) (body : A -> M W unit) : M W unit :=
  match l with
  | [] => ret tt
  | x :: rest => body x ;; forEach rest body
  end.

Definition when_ {W} (b : bool) (m : M W unit) : M W unit := if b then m else ret tt.

Definition record {W} (e : Effect) : M W unit :=
  fun f => (Normal tt, mkFrame (fr_world f) (fr_trace f ++ [e]) (hasStash f)).

Definition getWorld {W} : M W W := fun f => (Normal (fr_world f), f).

Definition getHasStash {W} : M W bool := fun f => (Normal (hasStash f), f).

Definition setHasStash {W} (b : bool) : M W unit :=
  fun f => (Normal tt, mkFrame (fr_world f) (fr_trace f) b).

Definition changeWorld {W} (g : W -> W) : M W unit :=
  fun f => (Normal tt, mkFrame (g (fr_world f)) (fr_trace f) (hasStash f)).

Section Engine.
Context {W : Type} (sys : Sys W).
Variable projectPath : string.
Variable taskId : string.

(** [execSync(cmd, { cwd: project.path })]. *)
Definition exec (c : GitCmd) : M W string :=
  fun f =>
    let '(r, w') := execSync sys projectPath c (fr_world f) in
    let f' := mkFrame w' (fr_trace f ++ [Exec projectPath c]) (hasStash f) in
    match r with
    | ExecOk out => (Normal out, f')
    | ExecErr e => (Thrown e, f')
    end.

Definition exec_ (c : GitCmd) : M W unit := exec c ;; ret tt.

Definition branchName : string := "auto-claude/" +:+ taskId.

Definition planPath : string := planPathOf projectPath taskId.

(** [plan.parent_branch] when the plan can be read and the field is truthy. *)
Definition recordedParent (w : W) : option string :=
  match readPlan sys planPath w with
  | Parsed plan =>
      if Js.truthy (plan_parent_branch plan) then plan_parent_branch plan else None
  | _ => None
  end.

(** Lines 3015-3038: the branch to merge into. *)
Definition resolveBaseBranch (targetBranch : option string) : M W string :=
  if Js.truthy targetBranch then ret (Js.or_else targetBranch "")
  else
    let* w := getWorld in
    match recordedParent w with
    | Some parent => ret parent
    | None => try_catch (exec RevParseVerifyMain ;; ret "main") (fun _ => ret "master")
    end.

(** Lines 3040-3049: check out the base branch unless it is current. *)
Definition checkoutBase (baseBranch : string) : M W unit :=
  let* out := exec RevParseHead in
  when_ (negb (String.eqb (Js.trim out) baseBranch)) (exec_ (Checkout baseBranch)).

(** Lines 3051-3062: no commit of the feature branch is missing from the
    base branch; [false] when git fails. *)
Definition checkAlreadyMerged (baseBranch : string) : M W bool :=
  try_catch
    (let* unmergedCommits := exec (LogRange baseBranch branchName) in
     ret (String.eqb (Js.trim unmergedCommits) ""))
    (fun _ => ret false).

Definition storePlan (p : Plan) : M W unit :=
  changeWorld (writePlan sys planPath p) ;; record (WritePlan planPath p).

(** Lines 3066-3075: mark the plan done, keeping an earlier [merged_at]. *)
Definition persistAlreadyMerged : M W unit :=
  let* w := getWorld in
  match readPlan sys planPath w with
  | Parsed plan => storePlan (set_done (Js.or_else (plan_merged_at plan) (now sys w)) plan)
  | _ => ret tt
  end.

(** Lines 3238-3247: mark the plan done with a new [merged_at]. *)
Definition persistMerged : M W unit :=
  let* w := getWorld in
  match readPlan sys planPath w with
  | Parsed plan => storePlan (set_done (now sys w) plan)
  | _ => ret tt
  end.

(** Lines 3093-3105: stash uncommitted changes outside the worktrees. *)
Definition stashChanges : M W unit :=
  attempt
    (let* status := exec StatusNoWorktrees in
     when_ (0 <? String.length (Js.trim status)) (exec_ StashPush ;; setHasStash true)).

(** Lines 3107-3115: keep [.worktrees] out of version control.  An ignore
    file that exists and cannot be read makes [readFileSync] throw into the
    empty [catch]: nothing is written. *)
Definition ensureGitignore : M W unit :=
  let gitignorePath := Js.path_join [projectPath; ".gitignore"] in
  let addEntry (gitignore : string) : M W unit :=
    when_ (negb (Js.includes gitignore ".worktrees"))
      (let content := gitignore +:+ String (ascii_of_nat 10) ".worktrees/"
                        +:+ String (ascii_of_nat 10) EmptyString in
       changeWorld (writeFile sys gitignorePath content) ;;
       record (WriteFile gitignorePath content)) in
  let* w := getWorld in
  if existsSync sys gitignorePath w then
    match readFile sys gitignorePath w with
    | Some gitignore => addEntry gitignore
    | None => ret tt
    end
  else addEntry "".

Definition filesToClean : list string := [".claude_settings.json"; ".auto-claude-status"].

(** Lines 3117-3127: remove transient files that would conflict. *)
Definition cleanTransient : M W unit :=
  forEach filesToClean (fun file =>
    let filePath := Js.path_join [projectPath; file] in
    let* w := getWorld in
    when_ (existsSync sys filePath w)
      (changeWorld (unlinkSync sys filePath) ;; record (Unlink filePath))).

(** Lines 3129-3139: remove an untracked local copy of the spec directory. *)
Definition removeUntrackedSpecDir : M W unit :=
  let localSpecDir := specDirOf projectPath taskId in
  attempt
    (let* isTracked := exec (LsFilesTracked localSpecDir) in
     let* w := getWorld in
     when_ (String.eqb (Js.trim isTracked) "untracked" && existsSync sys localSpecDir w)
       (changeWorld (rmSync sys localSpecDir) ;; record (RmRecursive localSpecDir))).

(** Line 3150: [/^(UU|DU|UD|AA) /.test(line)]. *)
Definition isConflictLine (line : string) : bool :=
  Js.startsWith line "UU " || Js.startsWith line "DU "
  || Js.startsWith line "UD " || Js.startsWith line "AA ".

(** Line 3151 and 3166: [line.slice(3).trim()]. *)
Definition conflictFile (line : string) : string := Js.trim (Js.slice_from 3 line).

Definition conflictLinesOf (status : string) : list string :=
  List.filter isConflictLine (Js.split_lines status).

Definition autoResolvableFiles : list string := [".auto-claude-status"; ".claude_settings.json"].

Definition isAutoResolvable (f : string) : bool :=
  existsb (String.eqb f) autoResolvableFiles.

(** Line 3158. *)
Definition canAutoResolve (conflictFiles : list string) : bool :=
  (0 <? List.length conflictFiles) && forallb isAutoResolvable conflictFiles.

(** Line 3154. *)
Definition hasSubmoduleConflict (mergeErrorMessage : string) : bool :=
  Js.includes mergeErrorMessage "submodule"
  || Js.includes mergeErrorMessage "CONFLICT (submodule)".

(** Lines 3164-3180: resolve one conflicting path. *)
Definition resolveLine (line : string) : M W unit :=
  let conflictType := Js.slice_to 2 line in
  let file := conflictFile line in
  attempt
    (if String.eqb conflictType "DU" then exec_ (GitRm file)
     else if String.eqb conflictType "UD" then exec_ (GitRm file)
     else (exec_ (CheckoutTheirs file) ;; exec_ (GitAdd file))).

(** [.trim().split('\n').filter(Boolean)]. *)
Definition nonEmptyLines (out : string) : list string :=
  List.filter Js.truthy_s (Js.split_lines (Js.trim out)).

(** Lines 3183-3204: keep the base branch's submodule references. *)
Definition resolveSubmodules : M W unit :=
  try_catch
    (let* out := exec SubmodulePaths in
     forEach (nonEmptyLines out) (fun submodule =>
       attempt (exec_ (CheckoutHead submodule) ;; exec_ (GitAdd submodule))))
    (fun _ => attempt (exec_ GitAddAll)).

(** Lines 3144-3221: the handler of a failed [git merge]. *)
Definition onMergeError (mergeErrorMessage : string) : M W unit :=
  let* status := exec StatusPorcelain in
  let conflictLines := conflictLinesOf status in
  let conflictFiles := map conflictFile conflictLines in
  if canAutoResolve conflictFiles || hasSubmoduleConflict mergeErrorMessage then
    forEach conflictLines resolveLine ;;
    when_ (hasSubmoduleConflict mergeErrorMessage) resolveSubmodules ;;
    attempt (exec_ (Commit ("Merge " +:+ branchName)))
  else if List.length conflictFiles =? 0 then
    try_catch (exec_ MergeContinue) (fun _ => throw mergeErrorMessage)
  else throw mergeErrorMessage.

(** Lines 3141-3222: perform the merge. *)
Definition performMerge : M W unit :=
  try_catch (exec_ (GitMerge branchName)) onMergeError.

(** Lines 3224-3236: pop the stash, dropping it when the pop fails. *)
Definition restoreStash : M W unit :=
  let* stashed := getHasStash in
  when_ stashed (try_catch (exec_ StashPop) (fun _ => attempt (exec_ StashDrop))).

Definition merged_response (msg : string) : Response :=
  {| http_status := 200; success := true; error := None; message := Some msg |}.

Definition failed_response (e : string) : Response :=
  {| http_status := 200; success := false; error := Some e; message := None |}.

(** Lines 3012-3062: resolve and check out the base branch, then tell
    whether the feature branch is already merged. *)
Definition prepare (targetBranch : option string) : M W bool :=
  let* baseBranch := resolveBaseBranch targetBranch in
  checkoutBase baseBranch ;;
  checkAlreadyMerged baseBranch.

(** Lines 3064-3083: the feature branch is already merged. *)
Definition finishAlreadyMerged : M W Response :=
  persistAlreadyMerged ;;
  ret (merged_response "Branch already merged").

(** Lines 3085-3139: defensive reset, safety snapshot and housekeeping. *)
Definition housekeeping : M W unit :=
  attempt (exec_ MergeAbort) ;;
  stashChanges ;;
  ensureGitignore ;;
  cleanTransient ;;
  removeUntrackedSpecDir.

(** Lines 3141-3255: merge, restore the snapshot, persist and answer. *)
Definition conclude : M W Response :=
  performMerge ;;
  restoreStash ;;
  persistMerged ;;
  ret (merged_response "Merge completed successfully").

(** Lines 3012-3255: the body of the handler's [try]. *)
Definition mergeBody (targetBranch : option string) : M W Response :=
  let* alreadyMerged := prepare targetBranch in
  if (alreadyMerged : bool) then finishAlreadyMerged
  else (housekeeping ;; conclude).

(** Lines 3256-3268: the handler's [catch]. *)
Definition mergeCatch (e : string) : M W Response :=
  record (ConsoleError "[Merge] Error:") ;;
  let* stashed := getHasStash in
  when_ stashed (attempt (exec_ StashPop)) ;;
  ret (failed_response e).

(** The request once the project is known, from [hasStash = false]. *)
Definition mergeIn (targetBranch : option string) : M W Response :=
  try_catch (mergeBody targetBranch) mergeCatch.

End Engine.

(** The response of a completed block; a handler's outermost [catch]
    leaves nothing thrown. *)
Definition responseOf (o : Outcome Response) : Response :=
  match o with
  | Normal r => r
  | Thrown e => error_response 500 e
  end.

(** [POST /api/tasks/:id/worktree/merge] (lines 3000-3269). *)
Definition merge {W} (sys : Sys W) (taskId projectId : string) (targetBranch : option string)
    (s : Server W) : Response * Server W :=
  match findProject sys projectId (world s) with
  | None => (error_response 404 "Project not found", s)
  | Some project =>
      let '(o, f) := mergeIn sys (project_path project) taskId targetBranch
                       (mkFrame (world s) (trace s) false) in
      (responseOf o,
       mkServer (fr_world f) (runningTasks s) (logWatchers s) (fr_trace f) (fresh s))
  end.

End Merge.

(** ** A small concrete world

    Plan files and text files are association lists by path, git answers
    every command from a fixed table, and a log file parses when its content
    is in a table of known documents. *)

Module Sample.

Record World := mkWorld {
  w_plans : list (string * PlanRead);
  w_files : list (string * string)
}.

Record Config := mkConfig {
  cfg_git : GitCmd -> ExecResult;
  cfg_projects : list Project;
  cfg_autoBuild : option string;
  cfg_launch : option nat;
  cfg_json : list (string * LogsJson);
  cfg_clock : string
}.

Fixpoint assoc {A} (key : string) (l : list (string * A)) : option A :=
  match l with
  | [] => None
  | (k, v) :: rest => if String.eqb k key then Some v else assoc key rest
  end.

Definition plan_at (path : string) (w : World) : PlanRead :=
  default Missing (assoc path (w_plans w)).

Definition put_plan (path : string) (p : Plan) (w : World) : World :=
  mkWorld ((path, Parsed p) :: w_plans w) (w_files w).

Definition put_file (path content : string) (w : World) : World :=
  mkWorld (w_plans w) ((path, content) :: w_files w).

Definition sys (c : Config) : Sys World :=
  {| execSync := fun _ cmd w => (cfg_git c cmd, w);
     readPlan := plan_at;
     writePlan := put_plan;
     readFile := fun path w => assoc path (w_files w);
     writeFile := put_file;
     existsSync := fun path w => bool_decide (is_Some (assoc path (w_files w)));
     unlinkSync := fun _ w => w;
     rmSync := fun _ w => w;
     legacyLogs := fun _ _ => [];
     parseLogs := fun content => assoc content (cfg_json c);
     now := fun _ => cfg_clock c;
     findProject := fun pid _ =>
       List.find (fun p => String.eqb (project_id p) pid) (cfg_projects c);
     getAutoBuildPath := fun _ => cfg_autoBuild c;
     spawn := fun _ _ _ w => (cfg_launch c, w);
     kill := fun _ w => w |}.

Definition demo : Project := {| project_id := "p1"; project_path := "/repo" |}.

Definition subtask (status : string) : Subtask :=
  {| sub_id := "1-1"; sub_description := "work"; sub_status := Some status |}.

(** A plan with one phase of chunks in the given states. *)
Definition plan_of (status : option string) (qa : option string) (chunks : list string) : Plan :=
  {| plan_status := status;
     plan_planStatus := None;
     plan_updated_at := None;
     plan_parent_branch := None;
     plan_merged_at := None;
     plan_phases := Some [ {| phase_subtasks := None;
                              phase_chunks := Some (map subtask chunks) |} ];
     plan_qa_signoff := match qa with
                        | Some q => Some {| qa_status := Some q |}
                        | None => None
                        end;
     plan_feature := None;
     plan_description := None |}.

Definition phase_log (status : string) (entries : list string) : option PhaseLog :=
  Some {| pl_status := Some status; pl_entries := Some entries |}.

(** The log of the primary directory: planning done, coding not started. *)
Definition main_logs : TaskLogs :=
  {| spec_id := Some "001";
     created_at := Some "2025-01-01T00:00:00Z";
     updated_at := Some "2025-01-01T00:10:00Z";
     phases := Some {| planning := phase_log "completed" ["plan written"];
                       coding := phase_log "pending" [];
                       validation := phase_log "pending" [] |} |}.

(** The log of the worktree mirror: its own planning section, coding active. *)
Definition worktree_logs : TaskLogs :=
  {| spec_id := Some "001";
     created_at := Some "2025-01-01T00:05:00Z";
     updated_at := Some "2025-01-01T00:20:00Z";
     phases := Some {| planning := phase_log "pending" [];
                       coding := phase_log "active" ["edit a.ts"];
                       validation := phase_log "pending" [] |} |}.

(** A git in which every command succeeds with empty output. *)
Definition quiet_git (c : GitCmd) : ExecResult := ExecOk "".

Definition base_config : Config :=
  {| cfg_git := quiet_git;
     cfg_projects := [demo];
     cfg_autoBuild := Some "/opt/auto-claude";
     cfg_launch := Some 4242;
     cfg_json := [("MAIN", LObj main_logs); ("WORKTREE", LObj worktree_logs)];
     cfg_clock := "2025-01-02T00:00:00Z" |}.

Definition empty_world : World := mkWorld [] [].

(** A world with both log files. *)
Definition both_logs : World :=
  put_file (logFileOf (specDirOf "/repo" "001")) "MAIN"
    (put_file (logFileOf (worktreeSpecDirOf "/repo" "001")) "WORKTREE" empty_world).

(** A world whose task 001 has a plan artifact, in progress. *)
Definition with_plan : World :=
  put_plan (planPathOf "/repo" "001")
    (plan_of (Some "in_progress") None ["completed"; "pending"]) empty_world.

(** An installation whose interpreter cannot be launched. *)
Definition failing_launch : Config :=
  {| cfg_git := quiet_git;
     cfg_projects := [demo];
     cfg_autoBuild := Some "/opt/auto-claude";
     cfg_launch := None;
     cfg_json := [];
     cfg_clock := "2025-01-02T00:00:00Z" |}.

(** A repository whose checked-out branch is develop. *)
Definition on_develop : Config :=
  {| cfg_git := fun c => match c with
                         | RevParseHead => ExecOk "develop"
                         | _ => ExecOk ""
                         end;
     cfg_projects := [demo];
     cfg_autoBuild := Some "/opt/auto-claude";
     cfg_launch := Some 4242;
     cfg_json := [];
     cfg_clock := "2025-01-02T00:00:00Z" |}.

(** A repository with uncommitted changes in which the feature branch has
    an unmerged commit and merging it conflicts, [git status] printing
    [status]. *)
Definition conflicted (status : string) : Config :=
  {| cfg_git := fun c => match c with
                         | LogRange _ _ => ExecOk "abc123 work"
                         | StatusNoWorktrees => ExecOk " M notes.txt"
                         | GitMerge _ => ExecErr "CONFLICT (content): Merge conflict"
                         | StatusPorcelain => ExecOk status
                         | _ => ExecOk ""
                         end;
     cfg_projects := [demo];
     cfg_autoBuild := Some "/opt/auto-claude";
     cfg_launch := Some 4242;
     cfg_json := [];
     cfg_clock := "2025-01-02T00:00:00Z" |}.

End Sample.

(** ** Observations on effect traces *)

Module Obs.

(** The effects a handler added when it took the server from [s] to [s']. *)
Definition since {W} (s s' : Server W) : list Effect :=
  drop (List.length (trace s)) (trace s').

Definition is_write_plan (e : Effect) : bool :=
  match e with
  | WritePlan _ _ => true
  | _ => false
  end.

Definition is_spawn (e : Effect) : bool :=
  match e with
  | Spawn _ _ _ _ => true
  | _ => false
  end.

Definition is_process_effect (e : Effect) : bool :=
  match e with
  | Spawn _ _ _ _ | Kill _ => true
  | _ => false
  end.

Definition is_exit_event (taskId : string) (e : Effect) : bool :=
  match e with
  | Broadcast (TaskExit t _) => String.eqb t taskId
  | _ => false
  end.

(** A status update driven by an exit: the write of the plan artifact or
    the [statusChange] event. *)
Definition is_status_update (taskId : string) (e : Effect) : bool :=
  match e with
  | WritePlan _ _ => true
  | Broadcast (TaskStatusChange t _) => String.eqb t taskId
  | _ => false
  end.

(** The position of the first effect satisfying [P]. *)
Fixpoint position (P : Effect -> bool) (tr : list Effect) : option nat :=
  match tr with
  | [] => None
  | e :: rest => if P e then Some 0 else option_map S (position P rest)
  end.

(** Some effect satisfying [P] occurs, and the first one comes before
    every effect satisfying [Q]. *)
Definition happens_before (P Q : Effect -> bool) (tr : list Effect) : bool :=
  match position P tr, position Q tr with
  | Some i, Some j => i <? j
  | Some _, None => true
  | None, _ => false
  end.

(** The child [c] was spawned for task [tid]: the task id is the third
    argument of the worker's command line. *)
Definition spawned_for (c : nat) (tid : string) (tr : list Effect) : Prop :=
  exists cmd args cwd, In (Spawn c cmd args cwd) tr /\ args !! 2 = Some tid.

(** A child spawned for [tid] that the server has not killed. *)
Definition live (c : nat) (tid : string) (tr : list Effect) : Prop :=
  spawned_for c tid tr /\ ~ In (Kill c) tr.

(** Every live child is the process of the handle registered for its task. *)
Definition live_registered {W} (s : Server W) : Prop :=
  forall c tid, live c tid (trace s) ->
    exists rt, runningTasks s !! tid = Some rt /\ child_id (rt_process rt) = c.

(** The identities used so far are below the next fresh one. *)
Definition ids_below {W} (s : Server W) : Prop :=
  (forall c, In (Kill c) (trace s) -> c < fresh s)
  /\ (forall c cmd args cwd, In (Spawn c cmd args cwd) (trace s) -> c < fresh s)
  /\ (forall tid rt, runningTasks s !! tid = Some rt -> child_id (rt_process rt) < fresh s).

(** The effect of [killExisting] and of [stopLogWatching] on the trace. *)
Definition kill_effects {W} (s : Server W) (taskId : string) : list Effect :=
  match runningTasks s !! taskId with
  | Some old => [Kill (child_id (rt_process old))]
  | None => []
  end.

Definition clear_effects {W} (s : Server W) (specId : string) : list Effect :=
  match logWatchers s !! specId with
  | Some watcher => [ClearInterval (lw_interval watcher)]
  | None => []
  end.

(** The world in which [start] reads the plan artifact: after the old
    process was killed, the worker spawned and the current branch read. *)
Definition world_at_persist {W} (sys : Sys W) (taskId projectPath autoBuildPath : string) (force : bool)
    (s : Server W) : W :=
  let w1 := match runningTasks s !! taskId with
            | Some old => kill sys (child_pid (rt_process old)) (world s)
            | None => world s
            end in
  let w2 := snd (spawn sys (pythonPathOf autoBuildPath)
                   (workerArgs autoBuildPath taskId force) projectPath w1) in
  snd (execSync sys projectPath RevParseHead w2).

End Obs.

(** ** Observations on the blocks of the merge handler *)

Module MergeObs.
Import Merge.

(** The block never throws. *)
Definition total {W A} (m : M W A) : Prop :=
  forall f, exists a f', m f = (Normal a, f').

(** The block only appends to the effect trace. *)
Definition grows {W A} (m : M W A) : Prop :=
  forall f, exists l, fr_trace (snd (m f)) = fr_trace f ++ l.

(** The block keeps the property [I] of frames, however it ends. *)
Definition preserves {W A} (I : Frame W -> Prop) (m : M W A) : Prop :=
  forall f, I f -> I (snd (m f)).

(** The command that resolves a conflict line: [git rm] for a path deleted
    on one side, [git checkout --theirs] otherwise. *)
Definition resolution_of (line : string) : GitCmd :=
  let conflictType := Js.slice_to 2 line in
  if String.eqb conflictType "DU" || String.eqb conflictType "UD"
  then GitRm (conflictFile line)
  else CheckoutTheirs (conflictFile line).

(** The effects of the already-merged path: queries, the checkout of the
    base branch and the write of the plan artifact. *)
Definition is_idempotence_effect (e : Effect) : bool :=
  match e with
  | Exec _ (RevParseVerifyMain | RevParseHead | Checkout _ | LogRange _ _) => true
  | WritePlan _ _ => true
  | _ => false
  end.

(** The effects that resolve a conflict line. *)
Definition is_resolution_effect (e : Effect) : bool :=
  match e with
  | Exec _ (GitRm _ | CheckoutTheirs _ | GitAdd _) => true
  | _ => false
  end.

(** [git rev-parse --verify main] succeeds. *)
Definition main_exists {W} (sys : Sys W) (projectPath : string) (w : W) : bool :=
  match fst (execSync sys projectPath RevParseVerifyMain w) with
  | ExecOk _ => true
  | ExecErr _ => false
  end.

(** The base branch the handler resolves: the explicit target, else the
    recorded parent branch, else main when it exists, else master. *)
Definition resolved_base (target parent : option string) (mainExists : bool) : string :=
  if Js.truthy target then Js.or_else target ""
  else match parent with
       | Some p => p
       | None => if mainExists then "main" else "master"
       end.

(** The world [w'] comes from [w] by git commands only. *)
Inductive reached_by_git {W} (sys : Sys W) (projectPath : string) (w : W) : W -> Prop :=
| reached_here : reached_by_git sys projectPath w w
| reached_step c w' :
    reached_by_git sys projectPath w w' ->
    reached_by_git sys projectPath w (snd (execSync sys projectPath c w')).

End MergeObs.

(** ** The specification's wording of the rules that need amending *)

Module Stated.

Definition all_completed (l : list TaskSubtask) : Prop :=
  Forall (fun s => ts_status s = "completed") l.

Definition some_failed (l : list TaskSubtask) : Prop :=
  Exists (fun s => ts_status s = "failed") l.

(** The derivation of the listed status as the specification words it, for
    one task with a readable plan. *)
Definition status_rule (running : gmap string RunningTask) (specName : string)
    (plan : Plan) (qaReport : option string) : Prop :=
  let subtasks := Listing.extract_subtasks plan in
  let v := Listing.listed running specName (Parsed plan) qaReport in
  (running !! specName = None -> all_completed subtasks ->
   Listing.qa_approved plan = true -> v = ("human_review", Some "completed"))
  /\ (running !! specName = None -> some_failed subtasks -> ~ all_completed subtasks ->
      v = ("human_review", Some "errors"))
  /\ (running !! specName = None -> all_completed subtasks ->
      Listing.qa_approved plan = false -> fst v = "ai_review")
  /\ (is_Some (running !! specName) -> fst v = "in_progress").

(** The stored plan status is none of the values the listing honours
    verbatim, and no QA report speaks a verdict. *)
Definition no_override (plan : Plan) (qaReport : option string) : bool :=
  forallb (fun lit => negb (Js.is_str (plan_status plan) lit))
    ["done"; "completed"; "planning"; "coding"; "human_review"; "ai_review"]
  && match qaReport with
     | None => true
     | Some c => forallb (fun word => negb (Js.includes c word))
                   ["REJECTED"; "FAILED"; "PASSED"; "APPROVED"]
     end.

(** A phase of the worktree copy has at least one recorded entry or a status
    other than pending. *)
Definition has_progress (p : option PhaseLog) : bool :=
  match p with
  | Some pl =>
      (0 <? List.length (default [] (pl_entries pl)))
      || negb (Js.is_str (pl_status pl) "pending")
  | None => false
  end.

(** The precedence of the specification between the primary log [m] and the
    worktree log [w]: planning from [m]; coding and validation from [w] when
    it has progress there, from [m] otherwise. *)
Definition by_precedence (m w l : TaskLogs) : Prop :=
  exists mp wp lp,
    phases m = Some mp /\ phases w = Some wp /\ phases l = Some lp
    /\ planning lp = planning mp
    /\ coding lp = (if has_progress (coding wp) then coding wp else coding mp)
    /\ validation lp = (if has_progress (validation wp) then validation wp else validation mp).

(** The delivery rule as the specification words it: with a log in both
    directories, what the fetch returns and what the watcher republishes
    both follow the precedence. *)
Definition logs_rule {W} (sys : Sys W) (specId projectId : string) (w : W) : Prop :=
  forall project m wl,
    findProject sys projectId w = Some project ->
    loadTaskLogs sys (specDirOf (project_path project) specId) w = Some m ->
    loadTaskLogs sys (worktreeSpecDirOf (project_path project) specId) w = Some wl ->
    (exists l, getLogs sys specId projectId w = ReplyLogs l /\ by_precedence m wl l)
    /\ (forall lastContent lastWorktreeContent logs,
          snd (tickLogs sys specId (project_path project) w lastContent lastWorktreeContent)
          = Some (TaskLogsChanged specId logs) ->
          by_precedence m wl logs).

(** The ordering as the specification words it: the status update driven by
    an exit comes before the exit event is sent. *)
Definition exit_order_rule {W} (sys : Sys W) (taskId projectPath : string)
    (code : option Z) (s : Server W) : Prop :=
  Obs.happens_before (Obs.is_status_update taskId) (Obs.is_exit_event taskId)
    (Obs.since s (onExit sys taskId projectPath code s)) = true.

(** The launch of the worker fails in the world in which [start] spawns it. *)
Definition launch_fails {W} (sys : Sys W) (taskId projectId : string) (force : bool)
    (s : Server W) : Prop :=
  exists project autoBuildPath,
    findProject sys projectId (world s) = Some project
    /\ getAutoBuildPath sys (world s) = Some autoBuildPath
    /\ fst (spawn sys (pythonPathOf autoBuildPath) (workerArgs autoBuildPath taskId force)
              (project_path project) (world (killExisting sys taskId s))) = None.

(** The failure rule as the specification words it: a start whose launch
    fails answers the caller with an error. *)
Definition spawn_failure_rule {W} (sys : Sys W) (taskId projectId : string) (force : bool)
    (s : Server W) : Prop :=
  launch_fails sys taskId projectId force s ->
  success (fst (start sys taskId projectId force s)) = false.

(** The base branch as the specification words it: explicit target, else
    recorded parent branch, else the branch currently checked out, else
    main or master. *)
Definition stated_base (target parent : option string) (current : string)
    (mainExists : bool) : string :=
  if Js.truthy target then Js.or_else target ""
  else match parent with
       | Some p => p
       | None => if Js.truthy_s current then current
                 else if mainExists then "main" else "master"
       end.

Definition base_branch_rule {W} (sys : Sys W) (projectPath taskId : string)
    (target : option string) (f : Merge.Frame W) : Prop :=
  forall current,
    fst (execSync sys projectPath RevParseHead (Merge.fr_world f)) = ExecOk current ->
    fst (Merge.resolveBaseBranch sys projectPath taskId target f)
    = Merge.Normal
        (stated_base target (Merge.recordedParent sys projectPath taskId (Merge.fr_world f))
           (Js.trim current) (MergeObs.main_exists sys projectPath (Merge.fr_world f))).

(** The conflict rule as the specification words it, from the frame [f] in
    which the merge is attempted: conflicts confined to the allow-list are
    resolved by taking the incoming version of each file and committing; any
    other conflict fails the call, after the stash (if any) was popped, or
    dropped when the pop fails. *)
Definition conflict_rule {W} (sys : Sys W) (projectPath taskId : string)
    (f : Merge.Frame W) : Prop :=
  forall e w1 status w2,
    execSync sys projectPath (GitMerge (Merge.branchName taskId)) (Merge.fr_world f)
    = (ExecErr e, w1) ->
    execSync sys projectPath StatusPorcelain w1 = (ExecOk status, w2) ->
    let files := map Merge.conflictFile (Merge.conflictLinesOf status) in
    files <> [] ->
    let r := Merge.try_catch (Merge.conclude sys projectPath taskId)
               (Merge.mergeCatch sys projectPath) f in
    let new := drop (List.length (Merge.fr_trace f)) (Merge.fr_trace (snd r)) in
    (forallb Merge.isAutoResolvable files = true ->
     success (Merge.responseOf (fst r)) = true
     /\ (forall file, In file files -> In (Exec projectPath (CheckoutTheirs file)) new)
     /\ In (Exec projectPath (Commit ("Merge " +:+ Merge.branchName taskId))) new)
    /\ (forallb Merge.isAutoResolvable files = false ->
        success (Merge.responseOf (fst r)) = false
        /\ (Merge.hasStash f = true ->
            In (Exec projectPath StashPop) new
            /\ ((forall w, exists e', fst (execSync sys projectPath StashPop w) = ExecErr e') ->
                In (Exec projectPath StashDrop) new))).

(** The idempotence rule as the specification words it: a feature branch
    with no commit outside the resolved base branch is all a merge request
    needs to succeed. *)
Definition already_merged_rule {W} (sys : Sys W) (projectPath taskId : string)
    (target : option string) (f : Merge.Frame W) : Prop :=
  forall base f1,
    Merge.resolveBaseBranch sys projectPath taskId target f = (Merge.Normal base, f1) ->
    (forall w, exists out,
        fst (execSync sys projectPath (LogRange base (Merge.branchName taskId)) w) = ExecOk out
        /\ Js.trim out = "") ->
    success (Merge.responseOf (fst (Merge.mergeIn sys projectPath taskId target f))) = true.

(** The absence rule as the specification words it, for the merge: a
    task whose plan file does not exist when the request arrives has none
    afterwards, and no write of it is issued. *)
Definition plan_stays_absent_rule {W} (sys : Sys W) (projectPath taskId : string)
    (target : option string) (f : Merge.Frame W) : Prop :=
  readPlan sys (Merge.planPath projectPath taskId) (Merge.fr_world f) = Missing ->
  let r := Merge.mergeIn sys projectPath taskId target f in
  readPlan sys (Merge.planPath projectPath taskId) (Merge.fr_world (snd r)) = Missing
  /\ Forall (fun e => Obs.is_write_plan e = false)
       (drop (List.length (Merge.fr_trace f)) (Merge.fr_trace (snd r))).

End Stated.

(** ** Further observations *)

Module ObsMore.

Definition is_broadcast (e : Effect) : bool :=
  match e with
  | Broadcast _ => true
  | _ => false
  end.

Definition is_kill (e : Effect) : bool :=
  match e with
  | Kill _ => true
  | _ => false
  end.

(** The parent branch a plan holds after a start that detected
    [parentBranch]: a truthy recorded one stays, else a truthy detected one is
    recorded. *)
Definition parent_after (recorded : option string) (parentBranch : string) : option string :=
  if Js.truthy recorded then recorded
  else if Js.truthy_s parentBranch then Some parentBranch
  else recorded.

(** What restoring the safety snapshot runs: nothing without a stash, the
    pop, and the drop when the pop fails. *)
Definition restore_effects {W} (sys : Sys W) (projectPath : string) (stashed : bool)
    (w : W) : list Effect :=
  if stashed then
    match fst (execSync sys projectPath StashPop w) with
    | ExecOk _ => [Exec projectPath StashPop]
    | ExecErr _ => [Exec projectPath StashPop; Exec projectPath StashDrop]
    end
  else [].

(** What persisting a completed merge writes. *)
Definition done_effects {W} (sys : Sys W) (file : string) (w : W) : list Effect :=
  match readPlan sys file w with
  | Parsed plan => [WritePlan file (set_done (now sys w) plan)]
  | _ => []
  end.

(** The world after the safety snapshot was restored. *)
Definition restored_world {W} (sys : Sys W) (projectPath : string) (stashed : bool)
    (w : W) : W :=
  if stashed then
    match execSync sys projectPath StashPop w with
    | (ExecOk _, w1) => w1
    | (ExecErr _, w1) => snd (execSync sys projectPath StashDrop w1)
    end
  else w.

(** The world after a completed merge was persisted. *)
Definition done_world {W} (sys : Sys W) (file : string) (w : W) : W :=
  match readPlan sys file w with
  | Parsed plan => writePlan sys file (set_done (now sys w) plan) w
  | _ => w
  end.

(** The queries and the checkout that lead to the idempotence check. *)
Definition is_query (e : Effect) : bool :=
  match e with
  | Exec _ (RevParseVerifyMain | RevParseHead | Checkout _ | LogRange _ _) => true
  | _ => false
  end.

(** The plan an already merged task is left with: done, with the
    [merged_at] it had, or the current time when it had none. *)
Definition kept_plan {W} (sys : Sys W) (w : W) (plan : Plan) : Plan :=
  set_done (Js.or_else (plan_merged_at plan) (now sys w)) plan.

Definition kept_effects {W} (sys : Sys W) (file : string) (w : W) : list Effect :=
  match readPlan sys file w with
  | Parsed plan => [WritePlan file (kept_plan sys w plan)]
  | _ => []
  end.

Definition kept_world {W} (sys : Sys W) (file : string) (w : W) : W :=
  match readPlan sys file w with
  | Parsed plan => writePlan sys file (kept_plan sys w plan) w
  | _ => w
  end.

(** The request arriving in frame [f] finds the feature branch contained
    in the base branch it resolves: HEAD is read, the base branch is checked
    out already or its checkout succeeds, and [git log base..branch] then
    prints nothing; [w] is the world after that query. *)
Definition finds_contained {W} (sys : Sys W) (projectPath taskId : string)
    (target : option string) (f : Merge.Frame W) (w : W) : Prop :=
  exists base f1 f2 log,
    Merge.resolveBaseBranch sys projectPath taskId target f = (Merge.Normal base, f1)
    /\ Merge.checkoutBase sys projectPath base f1 = (Merge.Normal tt, f2)
    /\ execSync sys projectPath (LogRange base (Merge.branchName taskId)) (Merge.fr_world f2)
       = (ExecOk log, w)
    /\ Js.trim log = "".

(** How the fetch picks a coding or validation phase from the worktree's
    [wphase] and the primary's [mphase]: the primary's for a worktree phase
    that is pending without entries, the worktree's for one with another
    status or with an entry, and none where the worktree copy has none. *)
Definition picks_phase (wphase mphase picked : option PhaseLog) : Prop :=
  (forall pl, wphase = Some pl -> pl_status pl = Some "pending" ->
              pl_entries pl = None \/ pl_entries pl = Some [] ->
              picked = mphase)
  /\ (forall pl, wphase = Some pl ->
                 pl_status pl <> Some "pending" \/ (exists e es, pl_entries pl = Some (e :: es)) ->
                 picked = Some pl)
  /\ (wphase = None -> picked = None).

(** No write of a plan was issued since the trace was [t0]. *)
Definition unwritten {W} (t0 : list Effect) (f : Merge.Frame W) : Prop :=
  exists l, Merge.fr_trace f = t0 ++ l /\ Forall (fun e => Obs.is_write_plan e = false) l.

(** The request arriving in frame [f0] reaches one of its two persistence
    steps in frame [fp]: the branch was found merged already, or the merge
    (clean, resolved or continued) and the restoring of the stash
    completed. *)
Definition reaches_persistence {W} (sys : Sys W) (projectPath taskId : string)
    (target : option string) (f0 fp : Merge.Frame W) : Prop :=
  Merge.prepare sys projectPath taskId target f0 = (Merge.Normal true, fp)
  \/ exists f1 f2 f3,
       Merge.prepare sys projectPath taskId target f0 = (Merge.Normal false, f1)
       /\ Merge.housekeeping sys projectPath taskId f1 = (Merge.Normal tt, f2)
       /\ Merge.performMerge sys projectPath taskId f2 = (Merge.Normal tt, f3)
       /\ Merge.restoreStash sys projectPath f3 = (Merge.Normal tt, fp).

(** The three answers of a merge request. *)
Definition is_merge_answer (r : Response) : Prop :=
  r = Merge.merged_response "Branch already merged"
  \/ r = Merge.merged_response "Merge completed successfully"
  \/ exists e, r = Merge.failed_response e.

(** The commands that take the safety snapshot back. *)
Definition is_unstash (e : Effect) : bool :=
  match e with
  | Exec _ (StashPop | StashDrop) => true
  | _ => false
  end.

(** In the world [w] the tree outside the worktrees is dirty and
    [git stash push] succeeds. *)
Definition stash_pushed_at {W} (sys : Sys W) (projectPath : string) (w : W) : Prop :=
  exists status w1 out w2,
    execSync sys projectPath StatusNoWorktrees w = (ExecOk status, w1)
    /\ (0 <? String.length (Js.trim status)) = true
    /\ execSync sys projectPath StashPush w1 = (ExecOk out, w2).

(** Either [pushed] holds, or no stash is held and none was popped or
    dropped since the trace was [t0]. *)
Definition stash_owned {W} (pushed : Prop) (t0 : list Effect) (f : Merge.Frame W) : Prop :=
  pushed
  \/ (Merge.hasStash f = false
      /\ exists l, Merge.fr_trace f = t0 ++ l /\ Forall (fun e => is_unstash e = false) l).

(** The statuses and review reasons a listed task can carry. *)
Definition listing_statuses : list string :=
  ["pending"; "in_progress"; "ai_review"; "human_review"; "done"].

Definition review_reasons : list (option string) :=
  [None; Some "completed"; Some "errors"; Some "qa_rejected"].

(** The stored plan statuses the listing honours. *)
Definition honoured_statuses : list string :=
  ["done"; "completed"; "planning"; "coding"; "human_review"; "ai_review"].

(** The effects that only touch files of the project. *)
Definition is_file_effect (e : Effect) : bool :=
  match e with
  | WritePlan _ _ | WriteFile _ _ | Unlink _ => true
  | _ => false
  end.

(** From [s] to [s'] only files were touched: the registries and the
    identities are the same and the trace grew by file effects. *)
Definition files_only {W} (s s' : Server W) : Prop :=
  runningTasks s' = runningTasks s
  /\ logWatchers s' = logWatchers s
  /\ fresh s' = fresh s
  /\ exists l, trace s' = trace s ++ l /\ Forall (fun e => is_file_effect e = true) l.

End ObsMore.

(** ** Further request handlers *)

Module Endpoints.

(** The [pid] field of the status answer: [null] when the task is not
    running, else the pid of its child, absent when the launch failed. *)
Inductive PidField :=
| PidNull
| PidOf (pid : option nat).

Record StatusReply := mkStatusReply {
  isRunning : bool;
  pid : PidField
}.

(** [GET /api/tasks/:id/status] (lines 1109-1114). *)
Definition taskStatus {W} (taskId : string) (s : Server W) : StatusReply :=
  match runningTasks s !! taskId with
  | Some task => {| isRunning := true; pid := PidOf (child_pid (rt_process task)) |}
  | None => {| isRunning := false; pid := PidNull |}
  end.

(** [POST /api/tasks/:id/logs/watch] (lines 1643-1655). *)
Definition watch {W} (sys : Sys W) (taskId projectId : string) (s : Server W)
    : Response * Server W :=
  match findProject sys projectId (world s) with
  | None => (error_response 404 "Project not found", s)
  | Some project => (ok_response, startLogWatching sys taskId (project_path project) s)
  end.

(** [POST /api/tasks/:id/logs/unwatch] (lines 1657-1661). *)
Definition unwatch {W} (taskId : string) (s : Server W) : Response * Server W :=
  (ok_response, stopLogWatching taskId s).

(** The [options] object of a recovery request. *)
Record RecoverOptions := mkRecoverOptions {
  targetStatus : option string;
  clearReviewState : bool;
  autoRestart : bool
}.

(** An entry of [specs.json]. *)
Record SpecEntry := mkSpecEntry {
  se_id : option string;
  se_status : option string
}.

(** [JSON.parse] and [JSON.stringify] on [specs.json]: parsing gives
    nothing when it throws or the value has no [findIndex]. *)
Record SpecsCodec := mkSpecsCodec {
  parseSpecs : string -> option (list SpecEntry);
  renderSpecs : list SpecEntry -> string
}.

Inductive RecoverAnswer :=
| RecoverNotFound
| Recovered (taskId newStatus message : string) (autoRestarted : bool).

(** [plan.status = newStatus]. *)
Definition with_status (status : string) (p : Plan) : Plan :=
  {| plan_status := Some status;
     plan_planStatus := plan_planStatus p;
     plan_updated_at := plan_updated_at p;
     plan_parent_branch := plan_parent_branch p;
     plan_merged_at := plan_merged_at p;
     plan_phases := plan_phases p;
     plan_qa_signoff := plan_qa_signoff p;
     plan_feature := plan_feature p;
     plan_description := plan_description p |}.

(** [specs.findIndex(s => s.id === taskId)]. *)
Fixpoint findIndex (taskId : string) (specs : list SpecEntry) : option nat :=
  match specs with
  | [] => None
  | entry :: rest =>
      if Js.is_str (se_id entry) taskId then Some 0
      else option_map S (findIndex taskId rest)
  end.

Definition set_entry_status (status : string) (entry : SpecEntry) : SpecEntry :=
  {| se_id := se_id entry; se_status := Some status |}.

Section Recover.
Context {W : Type} (sys : Sys W) (codec : SpecsCodec).

Definition removeFile (path : string) (s : Server W) : Server W :=
  emit (Unlink path) (set_world (unlinkSync sys path (world s)) s).

Definition saveFile (path content : string) (s : Server W) : Server W :=
  emit (WriteFile path content) (set_world (writeFile sys path content (world s)) s).

(** Lines 1689-1697: reset the status stored in the plan. *)
Definition resetPlanStatus (planPath newStatus : string) (s : Server W) : Server W :=
  match readPlan sys planPath (world s) with
  | Parsed plan => savePlan sys planPath (with_status newStatus plan) s
  | _ => s
  end.

(** Lines 1699-1718: the review state goes only on request, the fix
    request always. *)
Definition clearReviewFiles (specDir : string) (clear : bool) (s : Server W) : Server W :=
  let reviewStatePath := Js.path_join [specDir; "review_state.json"] in
  let s1 := if existsSync sys reviewStatePath (world s) && clear
            then removeFile reviewStatePath s else s in
  let qaFixPath := Js.path_join [specDir; "QA_FIX_REQUEST.md"] in
  if existsSync sys qaFixPath (world s1) then removeFile qaFixPath s1 else s1.

(** Lines 1720-1733: the status of the task in [specs.json]. *)
Definition resetSpecsStatus (specsPath taskId newStatus : string) (s : Server W)
    : Server W :=
  match readFile sys specsPath (world s) with
  | Some content =>
      match parseSpecs codec content with
      | Some specs =>
          match findIndex taskId specs with
          | Some taskIndex =>
              saveFile specsPath
                (renderSpecs codec (alter (set_entry_status newStatus) taskIndex specs)) s
          | None => s
          end
      | None => s
      end
  | None => s
  end.

(** [POST /api/tasks/:id/recover] (lines 1670-1750). *)
Definition recover (taskId projectId : string) (options : option RecoverOptions)
    (s : Server W) : RecoverAnswer * Server W :=
  match findProject sys projectId (world s) with
  | None => (RecoverNotFound, s)
  | Some project =>
      let newStatus := Js.or_else (options ≫= targetStatus) "backlog" in
      let planPath := planPathOf (project_path project) taskId in
      let specDir := specDirOf (project_path project) taskId in
      let s1 := resetPlanStatus planPath newStatus s in
      let s2 := clearReviewFiles specDir
                  (match options with Some o => clearReviewState o | None => false end) s1 in
      let specsPath :=
        Js.path_join [project_path project; ".auto-claude"; "specs"; "specs.json"] in
      let s3 := resetSpecsStatus specsPath taskId newStatus s2 in
      let s4 := set_runningTasks (delete taskId (runningTasks s3)) s3 in
      (Recovered taskId newStatus ("Task recovered and set to " +:+ newStatus)
         (match options with Some o => autoRestart o | None => false end),
       s4)
  end.

End Recover.

End Endpoints.

(** ** The merge preview *)

Module Worktree.

(** The git invocations of the preview that compare trees. *)
Inductive TreeCmd :=
| DiffNames (base branch : string)      (* git diff --name-only <base>..<branch> *)
| DiffNamesHead.                        (* git diff --name-only HEAD *)

Record TreeGit (W : Type) := mkTreeGit {
  execTree : string -> TreeCmd -> W -> ExecResult * W
}.

Arguments execTree {W}.

(** The commands a preview ran, in order, each with its working directory. *)
Inductive Ran :=
| RanGit (cwd : string) (c : GitCmd)
| RanTree (cwd : string) (c : TreeCmd).

Record Preview := mkPreview {
  pv_message : string;
  pv_files : list string;
  pv_conflicts : list string;
  pv_totalFiles : nat;
  pv_conflictFiles : nat;
  pv_totalConflicts : nat;
  pv_autoMergeable : nat;
  pv_commits : list string
}.

Inductive PreviewAnswer :=
| PreviewNotFound
| Previewed (p : Preview).

(** A number in a template literal. *)
Definition show_nat (n : nat) : string := pretty n.

Definition worktreePathOf (projectPath taskId : string) : string :=
  Js.path_join [projectPath; ".worktrees"; taskId].

(** The value a [let x = []; try { x = lines(execSync(...)) } catch {}]
    block leaves in [x]. *)
Definition linesOr (r : ExecResult) : list string :=
  match r with
  | ExecOk out => Merge.nonEmptyLines out
  | ExecErr _ => []
  end.

(** [GET /api/tasks/:id/worktree/merge-preview] (lines 3296-3383).  Every
    git call has a handler of its own, so the handler's outer [catch] has
    nothing to catch. *)
Definition mergePreview {W} (sys : Sys W) (tree : TreeGit W) (taskId projectId : string)
    (w : W) : PreviewAnswer * W * list Ran :=
  match findProject sys projectId w with
  | None => (PreviewNotFound, w, [])
  | Some project =>
      let cwd := project_path project in
      let branchName := Merge.branchName taskId in
      let worktreePath := worktreePathOf cwd taskId in
      let '(verified, w0) := execSync sys cwd RevParseVerifyMain w in
      let baseBranch := match verified with ExecOk _ => "main" | ExecErr _ => "master" end in
      let '(logged, w1) := execSync sys cwd (LogRange baseBranch branchName) w0 in
      let commits := linesOr logged in
      let '(diffed, w2) := execTree tree cwd (DiffNames baseBranch branchName) w1 in
      let '(files, w3, fallback) :=
        match diffed with
        | ExecOk out => (Merge.nonEmptyLines out, w2, [])
        | ExecErr _ =>
            let '(status, w3) := execTree tree worktreePath DiffNamesHead w2 in
            (linesOr status, w3, [RanTree worktreePath DiffNamesHead])
        end in
      (Previewed {| pv_message := show_nat (List.length commits) +:+ " commits, "
                                    +:+ show_nat (List.length files) +:+ " files to merge";
                    pv_files := files;
                    pv_conflicts := [];
                    pv_totalFiles := List.length files;
                    pv_conflictFiles := 0;
                    pv_totalConflicts := 0;
                    pv_autoMergeable := 0;
                    pv_commits := commits |},
       w3,
       [RanGit cwd RevParseVerifyMain; RanGit cwd (LogRange baseBranch branchName);
        RanTree cwd (DiffNames baseBranch branchName)] ++ fallback)
  end.

End Worktree.

(** Observations on the preview. *)
Module PreviewObs.
Import Worktree.

(** The preview answered for these commits and files. *)
Definition preview_of (commits files : list string) : Preview :=
  {| pv_message := show_nat (List.length commits) +:+ " commits, "
                     +:+ show_nat (List.length files) +:+ " files to merge";
     pv_files := files;
     pv_conflicts := [];
     pv_totalFiles := List.length files;
     pv_conflictFiles := 0;
     pv_totalConflicts := 0;
     pv_autoMergeable := 0;
     pv_commits := commits |}.

(** The branch the preview compares with: main when it exists at the
    project, master otherwise. *)
Definition preview_base {W} (sys : Sys W) (cwd : string) (w : W) : string :=
  if MergeObs.main_exists sys cwd w then "main" else "master".

End PreviewObs.

(** ** Further sample repositories *)

Module SampleMore.
Import Sample.

Definition with_git (git : GitCmd -> ExecResult) : Config :=
  {| cfg_git := git;
     cfg_projects := [demo];
     cfg_autoBuild := Some "/opt/auto-claude";
     cfg_launch := Some 4242;
     cfg_json := [];
     cfg_clock := "2025-01-02T00:00:00Z" |}.

(** Uncommitted changes, an unmerged feature branch that merges cleanly,
    and a stash that cannot be popped afterwards. *)
Definition clean_merge : Config :=
  with_git (fun c => match c with
                     | LogRange _ _ => ExecOk "abc123 work"
                     | StatusNoWorktrees => ExecOk " M notes.txt"
                     | StashPop => ExecErr "conflict in notes.txt"
                     | _ => ExecOk ""
                     end).

(** A merge that stops without any conflicting path. *)
Definition stalled_merge : Config :=
  with_git (fun c => match c with
                     | LogRange _ _ => ExecOk "abc123 work"
                     | GitMerge _ => ExecErr "fatal: merge is not possible"
                     | _ => ExecOk ""
                     end).

(** A merge that conflicts on a submodule reference and on a source file. *)
Definition submodule_conflict : Config :=
  with_git (fun c => match c with
                     | LogRange _ _ => ExecOk "abc123 work"
                     | GitMerge _ => ExecErr "CONFLICT (submodule): Merge conflict in vendor/lib"
                     | StatusPorcelain => ExecOk "UU src/app.ts"
                     | SubmodulePaths => ExecOk "vendor/lib"
                     | _ => ExecOk ""
                     end).

(** A repository on develop whose base branch cannot be checked out. *)
Definition checkout_refused : Config :=
  with_git (fun c => match c with
                     | RevParseHead => ExecOk "develop"
                     | Checkout _ => ExecErr "error: local changes would be overwritten"
                     | _ => ExecOk ""
                     end).

(** A [specs.json] codec over a two-line table. *)
Definition specs_codec : Endpoints.SpecsCodec :=
  {| Endpoints.parseSpecs := fun content =>
       if String.eqb content "SPECS"
       then Some [ {| Endpoints.se_id := Some "000"; Endpoints.se_status := Some "done" |};
                   {| Endpoints.se_id := Some "001";
                      Endpoints.se_status := Some "in_progress" |} ]
       else None;
     Endpoints.renderSpecs := fun specs =>
       String.concat ";"
         (map (fun entry => Js.or_else (Endpoints.se_id entry) "?" +:+ "="
                              +:+ Js.or_else (Endpoints.se_status entry) "?") specs) |}.

(** Task 001 with a plan, a fix request and an entry in [specs.json]. *)
Definition recoverable : World :=
  put_file "/repo/.auto-claude/specs/specs.json" "SPECS"
    (put_file "/repo/.auto-claude/specs/001/QA_FIX_REQUEST.md" "fix it"
       (put_plan (planPathOf "/repo" "001")
          (plan_of (Some "in_progress") None ["completed"; "completed"]) empty_world)).

(** A tree comparison that fails between branches and lists one file in
    the worktree. *)
Definition worktree_only : Worktree.TreeGit World :=
  {| Worktree.execTree := fun _ c w =>
       (match c with
        | Worktree.DiffNames _ _ => ExecErr "fatal: bad revision"
        | Worktree.DiffNamesHead => ExecOk "src/app.ts"
        end, w) |}.

(** Task 001 was started from develop. *)
Definition started_from_develop : World :=
  put_plan (planPathOf "/repo" "001")
    (set_parent_branch "develop" (plan_of (Some "in_progress") None ["completed"]))
    empty_world.

(** A primary log with all three phases completed. *)
Definition main_done_logs : TaskLogs :=
  {| spec_id := Some "001";
     created_at := Some "2025-01-01T00:00:00Z";
     updated_at := Some "2025-01-01T00:30:00Z";
     phases := Some {| planning := phase_log "completed" ["plan written"];
                       coding := phase_log "completed" ["edit a.ts"];
                       validation := phase_log "completed" ["qa ok"] |} |}.

(** A worktree log that has only a validation phase, pending and empty. *)
Definition worktree_idle_logs : TaskLogs :=
  {| spec_id := Some "001";
     created_at := Some "2025-01-01T00:05:00Z";
     updated_at := Some "2025-01-01T00:20:00Z";
     phases := Some {| planning := None;
                       coding := None;
                       validation := phase_log "pending" [] |} |}.

Definition idle_worktree : Config :=
  {| cfg_git := quiet_git;
     cfg_projects := [demo];
     cfg_autoBuild := Some "/opt/auto-claude";
     cfg_launch := Some 4242;
     cfg_json := [("MAIN", LObj main_done_logs); ("WORKTREE", LObj worktree_idle_logs)];
     cfg_clock := "2025-01-02T00:00:00Z" |}.

(** A repository whose feature branch carries the plan of task 001, which
    the primary directory lacks: [git merge] brings the file in. *)
Definition merge_brings_plan : Sys World :=
  let base := sys (with_git (fun c => match c with
                                      | LogRange _ _ => ExecOk "abc123 work"
                                      | _ => ExecOk ""
                                      end)) in
  {| execSync := fun cwd c w =>
       match c with
       | GitMerge _ =>
           (ExecOk "",
            put_plan (planPathOf "/repo" "001")
              (plan_of (Some "human_review") None ["completed"]) w)
       | _ => execSync base cwd c w
       end;
     readPlan := readPlan base;
     writePlan := writePlan base;
     readFile := readFile base;
     writeFile := writeFile base;
     existsSync := existsSync base;
     unlinkSync := unlinkSync base;
     rmSync := rmSync base;
     legacyLogs := legacyLogs base;
     parseLogs := parseLogs base;
     now := now base;
     findProject := findProject base;
     getAutoBuildPath := getAutoBuildPath base;
     spawn := spawn base;
     kill := kill base |}.

End SampleMore.

(** * Properties *)

(** ** Status derivation *)

Module ListingFacts.
Import Listing Stated.

Lemma count_le lit l : count_status lit l <= List.length l.
Proof.
  unfold count_status. induction l as [|x l IH]; simpl; [lia|].
  destruct (String.eqb (ts_status x) lit); simpl; lia.
Qed.

Lemma count_full lit l :
  count_status lit l = List.length l <-> Forall (fun s => ts_status s = lit) l.
Proof.
  induction l as [|x l IH].
  - split; [constructor | reflexivity].
  - unfold count_status in *. simpl.
    destruct (String.eqb (ts_status x) lit) eqn:E; simpl.
    + apply String.eqb_eq in E. split.
      * intros H. constructor; [exact E | apply IH; lia].
      * intros H. inversion H; subst. f_equal. now apply IH.
    + apply String.eqb_neq in E. split.
      * intros H. pose proof (count_le lit l) as Hle. unfold count_status in Hle. lia.
      * intros H. inversion H; subst. contradiction.
Qed.

Lemma count_pos lit l :
  0 < count_status lit l <-> Exists (fun s => ts_status s = lit) l.
Proof.
  induction l as [|x l IH].
  - split; [cbn; lia | intros H; inversion H].
  - unfold count_status in *. simpl.
    destruct (String.eqb (ts_status x) lit) eqn:E; simpl.
    + apply String.eqb_eq in E. split; [intros _; now left | lia].
    + apply String.eqb_neq in E. split.
      * intros H. right. now apply IH.
      * intros H. inversion H; subst; [contradiction | now apply IH].
Qed.

Lemma plan_status_kept plan qa v :
  no_override plan qa = true -> from_plan_status plan v = v.
Proof.
  unfold no_override. intros H. apply andb_prop in H as [H _]. simpl in H.
  repeat (apply andb_prop in H as [?%negb_true_iff H]).
  unfold from_plan_status.
  repeat match goal with E : Js.is_str _ _ = false |- _ => rewrite E; clear E end.
  reflexivity.
Qed.

Lemma qa_report_kept plan qa l v :
  no_override plan qa = true -> from_qa_report qa l v = v.
Proof.
  unfold no_override. intros H. apply andb_prop in H as [_ H].
  destruct qa as [c|]; [|reflexivity]. simpl in H.
  repeat (apply andb_prop in H as [?%negb_true_iff H]).
  unfold from_qa_report.
  repeat match goal with E : Js.includes _ _ = false |- _ => rewrite E; clear E end.
  reflexivity.
Qed.

(** A registered handle forces [in_progress], whatever the disk says. *)
Lemma running_forces_in_progress (running : gmap string RunningTask) specName pr qa :
  is_Some (running !! specName) -> fst (listed running specName pr qa) = "in_progress".
Proof.
  intros [h Hh]. unfold listed, effectiveStatus. simpl. now rewrite Hh.
Qed.

End ListingFacts.

Module StatusDerivation.
Import Listing Stated ListingFacts.

(** C2, as stated, fails: a merged task (stored status [done]) whose three
    subtasks are completed and whose QA sign-off is approved is listed as
    [done], not as [human_review]. *)
Lemma status_rule_fails_on_merged_task :
  ~ status_rule ∅ "001"
      (Sample.plan_of (Some "done") (Some "approved") ["completed"; "completed"; "completed"])
      None.
Proof.
  intros (H & _). 
  assert (Hall : all_completed (extract_subtasks
            (Sample.plan_of (Some "done") (Some "approved")
               ["completed"; "completed"; "completed"]))).
  { repeat constructor. }
  specialize (H (lookup_empty _) Hall eq_refl).
  vm_compute in H. discriminate H.
Qed.

(** C2, amended: for a task with at least one subtask, whose stored plan
    status is none of done, completed, planning, coding, human_review and
    ai_review and whose QA report (if any) contains none of REJECTED, FAILED,
    PASSED and APPROVED, the listing reports, when no process handle is
    registered: human_review with reason completed when all subtasks are
    completed and the QA sign-off is approved; human_review with reason
    errors when some subtask failed and not all are completed; ai_review when
    all are completed without approval.  Whenever a handle is registered the
    reported status is in_progress. *)
Theorem status_derivation (running : gmap string RunningTask) (specName : string)
    (plan : Plan) (qaReport : option string) :
  extract_subtasks plan <> [] ->
  no_override plan qaReport = true ->
  status_rule running specName plan qaReport.
Proof.
  intros Hne Hplain. unfold status_rule. cbv zeta.
  assert (Hlen : (0 <? List.length (extract_subtasks plan)) = true).
  { apply Nat.ltb_lt. destruct (extract_subtasks plan); [contradiction | simpl; lia]. }
  assert (Hd : forall v, from_plan_status plan
             (from_qa_report qaReport (extract_subtasks plan) v) = v).
  { intros v. rewrite (plan_status_kept _ qaReport) by assumption.
    now apply qa_report_kept with (plan := plan). }
  unfold listed, derive, effectiveStatus. rewrite Hd.
  unfold from_subtasks. rewrite Hlen.
  repeat split.
  - intros Hrun Hall Hqa. rewrite Hrun. apply count_full in Hall.
    apply Nat.eqb_eq in Hall. rewrite Hall, Hqa. reflexivity.
  - intros Hrun Hfail Hnot. rewrite Hrun.
    destruct (_ =? _) eqn:E.
    + apply Nat.eqb_eq, count_full in E. contradiction.
    + apply count_pos, Nat.ltb_lt in Hfail. rewrite Hfail. reflexivity.
  - intros Hrun Hall Hqa. rewrite Hrun. apply count_full in Hall.
    apply Nat.eqb_eq in Hall. rewrite Hall, Hqa. reflexivity.
  - intros [h Hh]. now rewrite Hh.
Qed.

(** The two derivations the specification gives as examples, and the
    override by a registered handle. *)
Lemma status_derivation_witness :
  status_rule ∅ "001"
    (Sample.plan_of None (Some "approved") ["completed"; "completed"; "completed"]) None
  /\ Listing.listed (∅ : gmap string RunningTask) "001"
       (Parsed (Sample.plan_of None None ["completed"; "failed"; "pending"])) None
     = ("human_review", Some "errors").
Proof.
  split.
  - apply status_derivation; [discriminate | reflexivity].
  - reflexivity.
Defined.

End StatusDerivation.

(** ** Delivery of the structured logs *)

Module LogDelivery.
Import Stated.

(** C8, as stated, fails: when the worktree log changes, the watcher
    republishes that file alone, with the worktree's planning section instead
    of the primary one. *)
Lemma watcher_republishes_unmerged :
  ~ logs_rule (Sample.sys Sample.base_config) "001" "p1" Sample.both_logs.
Proof.
  intros H.
  destruct (H Sample.demo Sample.main_logs Sample.worktree_logs eq_refl eq_refl eq_refl)
    as [_ Hw].
  specialize (Hw "MAIN" "" Sample.worktree_logs eq_refl).
  destruct Hw as (mp & wp & lp & Hm & _ & Hl & Hp & _).
  vm_compute in Hm, Hl. injection Hm as <-. injection Hl as <-.
  vm_compute in Hp. discriminate Hp.
Qed.

Lemma worktree_wins_picks (wphase mphase : option PhaseLog) :
  ObsMore.picks_phase wphase mphase (if Logs.worktree_wins wphase then wphase else mphase).
Proof.
  unfold ObsMore.picks_phase, Logs.worktree_wins. split; [|split].
  - intros pl -> Hst Hen. rewrite Hst. cbn [Js.is_str].
    destruct Hen as [->| ->]; reflexivity.
  - intros pl -> Hor.
    assert (Hnot : forall es : list string,
                     (0 <? List.length es) || negb (Js.is_str (pl_status pl) "pending")
                              = true
                              \/ (pl_status pl = Some "pending" /\ es = [])).
    { intros es. destruct es as [|e es]; [|now left].
      destruct (pl_status pl) as [st|]; [|now left]. cbn [Js.is_str].
      destruct (String.eqb_spec st "pending") as [->|Hne]; [now right | now left]. }
    destruct (pl_entries pl) as [es|] eqn:Hes.
    + destruct (Hnot es) as [->|[Hst ->]]; [reflexivity|].
      destruct Hor as [Hor|(e & es' & Hor)]; [contradiction | discriminate Hor].
    + destruct (Hnot []) as [Hw|[Hst _]].
      * cbn [List.length Nat.ltb Nat.leb orb] in Hw. now rewrite Hw.
      * destruct Hor as [Hor|(e & es' & Hor)]; [contradiction | discriminate Hor].
  - now intros ->.
Qed.

(** C8, amended: with a log in both directories (the worktree one having a
    phases section), the fetch operation returns a merged log whose planning
    phase is the primary one whenever the primary log has it (the worktree's
    otherwise), and in which a coding or validation phase that the worktree
    copy has is the worktree's exactly when it has at least one entry or a
    status other than pending, and the primary's otherwise.  (Where the
    worktree copy has no such phase the merged log has none either.)  The
    watcher does not merge: on a change it republishes the parsed content of
    the changed file as it is, the worktree file's when that one changed,
    else the primary file's. *)
Theorem logs_fetch_merges_watcher_republishes {W} (sys : Sys W)
    (specId projectId : string) (w : W) (project : Project) (m wl : TaskLogs)
    (wp : LogPhases) :
  findProject sys projectId w = Some project ->
  loadTaskLogs sys (specDirOf (project_path project) specId) w = Some m ->
  loadTaskLogs sys (worktreeSpecDirOf (project_path project) specId) w = Some wl ->
  phases wl = Some wp ->
  (exists l lp,
      getLogs sys specId projectId w = ReplyLogs l /\ phases l = Some lp
      /\ (forall p, phases m ≫= planning = Some p -> planning lp = Some p)
      /\ (phases m ≫= planning = None -> planning lp = planning wp)
      /\ ObsMore.picks_phase (coding wp) (phases m ≫= coding) (coding lp)
      /\ ObsMore.picks_phase (validation wp) (phases m ≫= validation) (validation lp))
  /\ (forall lastContent lastWorktreeContent cm cw,
        readFile sys (logFileOf (specDirOf (project_path project) specId)) w = Some cm ->
        readFile sys (logFileOf (worktreeSpecDirOf (project_path project) specId)) w = Some cw ->
        let published :=
          snd (tickLogs sys specId (project_path project) w lastContent lastWorktreeContent) in
        (forall x, cw <> lastWorktreeContent -> parseLogs sys cw = Some (LObj x) ->
                   published = Some (TaskLogsChanged specId x))
        /\ (forall x, cw = lastWorktreeContent -> cm <> lastContent ->
                      parseLogs sys cm = Some (LObj x) ->
                      published = Some (TaskLogsChanged specId x))
        /\ (cw = lastWorktreeContent -> cm = lastContent -> published = None)).
Proof.
  intros Hproj Hm Hw Hwp. split.
  - unfold getLogs. rewrite Hproj, Hm, Hw. unfold Logs.merge, Logs.merge_both.
    rewrite Hwp. eexists _, _. split; [reflexivity|]. split; [reflexivity|].
    cbn [planning coding validation].
    assert (Hc : (match phases m with Some mp => coding mp | None => None end)
                 = phases m ≫= coding) by now destruct (phases m).
    assert (Hv : (match phases m with Some mp => validation mp | None => None end)
                 = phases m ≫= validation) by now destruct (phases m).
    rewrite Hc, Hv.
    split; [|split; [|split; [apply worktree_wins_picks | apply worktree_wins_picks]]].
    + intros p Hp. destruct (phases m) as [mp|]; [|discriminate Hp].
      cbn in Hp. unfold Logs.first_phase. now rewrite Hp.
    + intros Hp. destruct (phases m) as [mp|]; [|reflexivity].
      cbn in Hp. unfold Logs.first_phase. now rewrite Hp.
  - intros lastC lastW cm cw Hcm Hcw published. subst published.
    unfold tickLogs, checkLogFile. rewrite Hcm, Hcw.
    repeat split.
    + intros x Hne Hx. apply String.eqb_neq in Hne.
      destruct (String.eqb cm lastC); rewrite Hne; unfold assignParsed; rewrite Hx;
        reflexivity.
    + intros x -> Hne Hx. apply String.eqb_neq in Hne.
      rewrite Hne, String.eqb_refl. unfold assignParsed. rewrite Hx. reflexivity.
    + intros -> ->. rewrite !String.eqb_refl. reflexivity.
Qed.

(** A worktree log whose validation phase is pending and empty and which
    has no coding phase: the fetch takes validation from the primary log
    and returns no coding phase; a change of the worktree file is republished
    as that file alone. *)
Lemma logs_fetch_merges_watcher_republishes_witness :
  let sys := Sample.sys SampleMore.idle_worktree in
  (exists l lp,
      getLogs sys "001" "p1" Sample.both_logs = ReplyLogs l /\ phases l = Some lp
      /\ planning lp = Sample.phase_log "completed" ["plan written"]
      /\ coding lp = None
      /\ validation lp = Sample.phase_log "completed" ["qa ok"])
  /\ snd (tickLogs sys "001" "/repo" Sample.both_logs "MAIN" "")
     = Some (TaskLogsChanged "001" SampleMore.worktree_idle_logs).
Proof.
  intros sys.
  destruct (logs_fetch_merges_watcher_republishes sys "001" "p1" Sample.both_logs
              Sample.demo SampleMore.main_done_logs SampleMore.worktree_idle_logs
              _ eq_refl eq_refl eq_refl eq_refl)
    as [(l & lp & Hl & Hlp & Hplan & _ & (_ & _ & Hcoding) & (Hvalidation & _)) Hw].
  split.
  - exists l, lp. split; [exact Hl|]. split; [exact Hlp|].
    split; [exact (Hplan _ eq_refl)|]. split; [exact (Hcoding eq_refl)|].
    exact (Hvalidation _ eq_refl eq_refl (or_intror eq_refl)).
  - destruct (Hw "MAIN" "" "MAIN" "WORKTREE" eq_refl eq_refl) as [Hchanged _].
    apply Hchanged; [discriminate | reflexivity].
Defined.

End LogDelivery.

(** ** The process supervisor *)

Module SupervisorFacts.
Import Obs.

Section Facts.
Context {W : Type} (sys : Sys W).

Lemma since_app (s s' : Server W) l : trace s' = trace s ++ l -> since s s' = l.
Proof. intros H. unfold since. rewrite H. apply drop_app_length. Qed.

Lemma trace_broadcast ev (s : Server W) : trace (broadcast ev s) = trace s ++ [Broadcast ev].
Proof. reflexivity. Qed.

Lemma world_broadcast ev (s : Server W) : world (broadcast ev s) = world s.
Proof. reflexivity. Qed.

Lemma stopLogWatching_spec specId (s : Server W) :
  world (stopLogWatching specId s) = world s
  /\ runningTasks (stopLogWatching specId s) = runningTasks s
  /\ fresh (stopLogWatching specId s) = fresh s
  /\ logWatchers (stopLogWatching specId s) = delete specId (logWatchers s)
  /\ trace (stopLogWatching specId s) = trace s ++ clear_effects s specId.
Proof.
  unfold stopLogWatching, clear_effects.
  destruct (logWatchers s !! specId) eqn:E; simpl.
  - repeat split; reflexivity.
  - repeat split; try reflexivity.
    + symmetry. now apply delete_id.
    + now rewrite app_nil_r.
Qed.

Lemma startLogWatching_spec specId projectPath (s : Server W) :
  world (startLogWatching sys specId projectPath s) = world s
  /\ runningTasks (startLogWatching sys specId projectPath s) = runningTasks s
  /\ fresh (startLogWatching sys specId projectPath s) = S (fresh s)
  /\ trace (startLogWatching sys specId projectPath s)
     = trace s ++ clear_effects s specId ++ [SetInterval (fresh s)].
Proof.
  unfold startLogWatching.
  destruct (stopLogWatching_spec specId s) as (Hw & Hr & Hf & _ & Ht).
  simpl. rewrite Hw, Hr, Hf, Ht, <- app_assoc. repeat split; reflexivity.
Qed.

(** The effects of [persistInProgress] and [persistFinalStatus], and the
    plan they leave on disk. *)
Lemma persistInProgress_spec taskId projectPath parentBranch (s : Server W) :
  runningTasks (persistInProgress sys taskId projectPath parentBranch s) = runningTasks s
  /\ logWatchers (persistInProgress sys taskId projectPath parentBranch s) = logWatchers s
  /\ fresh (persistInProgress sys taskId projectPath parentBranch s) = fresh s
  /\ match readPlan sys (planPathOf projectPath taskId) (world s) with
     | Missing => persistInProgress sys taskId projectPath parentBranch s = s
     | Unparseable =>
         world (persistInProgress sys taskId projectPath parentBranch s) = world s
         /\ exists msg, trace (persistInProgress sys taskId projectPath parentBranch s)
                        = trace s ++ [ConsoleError msg]
     | Parsed plan =>
         let p := recordParentBranch parentBranch
                    (set_plan_status "in_progress" "in_progress" (now sys (world s)) plan) in
         world (persistInProgress sys taskId projectPath parentBranch s)
         = writePlan sys (planPathOf projectPath taskId) p (world s)
         /\ trace (persistInProgress sys taskId projectPath parentBranch s)
            = trace s ++ [WritePlan (planPathOf projectPath taskId) p]
     end.
Proof.
  unfold persistInProgress.
  destruct (readPlan sys _ (world s)); simpl; repeat split; eauto.
Qed.

Lemma persistFinalStatus_spec taskId projectPath finalStatus (s : Server W) :
  runningTasks (persistFinalStatus sys taskId projectPath finalStatus s) = runningTasks s
  /\ logWatchers (persistFinalStatus sys taskId projectPath finalStatus s) = logWatchers s
  /\ fresh (persistFinalStatus sys taskId projectPath finalStatus s) = fresh s
  /\ match readPlan sys (planPathOf projectPath taskId) (world s) with
     | Missing => persistFinalStatus sys taskId projectPath finalStatus s = s
     | Unparseable =>
         world (persistFinalStatus sys taskId projectPath finalStatus s) = world s
         /\ exists msg, trace (persistFinalStatus sys taskId projectPath finalStatus s)
                        = trace s ++ [ConsoleError msg]
     | Parsed plan =>
         let p := set_plan_status finalStatus
                    (if String.eqb finalStatus "human_review" then "review" else "pending")
                    (now sys (world s)) plan in
         world (persistFinalStatus sys taskId projectPath finalStatus s)
         = writePlan sys (planPathOf projectPath taskId) p (world s)
         /\ trace (persistFinalStatus sys taskId projectPath finalStatus s)
            = trace s ++ [WritePlan (planPathOf projectPath taskId) p]
     end.
Proof.
  unfold persistFinalStatus.
  destruct (readPlan sys _ (world s)); simpl; repeat split; eauto.
Qed.

(** The exit callback, effect by effect: the watcher's timer is cleared,
    the exit event is sent, the plan is written (or the failure logged),
    and the status change is sent last. *)
Lemma onExit_trace taskId projectPath code (s : Server W) :
  exists persisted,
    trace (onExit sys taskId projectPath code s)
    = trace s ++ clear_effects s taskId
        ++ Broadcast (TaskExit taskId code)
        :: persisted ++ [Broadcast (TaskStatusChange taskId (finalStatusOf code))]
    /\ match readPlan sys (planPathOf projectPath taskId) (world s) with
       | Missing => persisted = []
                    /\ world (onExit sys taskId projectPath code s) = world s
       | Unparseable => (exists msg, persisted = [ConsoleError msg])
                        /\ world (onExit sys taskId projectPath code s) = world s
       | Parsed plan =>
           let p := set_plan_status (finalStatusOf code)
                      (if String.eqb (finalStatusOf code) "human_review"
                       then "review" else "pending")
                      (now sys (world s)) plan in
           persisted = [WritePlan (planPathOf projectPath taskId) p]
           /\ world (onExit sys taskId projectPath code s)
              = writePlan sys (planPathOf projectPath taskId) p (world s)
       end.
Proof.
  unfold onExit.
  set (s1 := set_runningTasks _ s).
  destruct (stopLogWatching_spec taskId s1) as (Hw & Hr & Hf & Hl & Ht).
  set (s2 := stopLogWatching taskId s1) in *.
  set (s3 := broadcast _ s2).
  assert (Hw3 : world s3 = world s) by (simpl; rewrite Hw; reflexivity).
  assert (Ht3 : trace s3 = trace s ++ clear_effects s taskId ++ [Broadcast (TaskExit taskId code)]).
  { simpl. rewrite Ht. unfold clear_effects. simpl. now rewrite <- app_assoc. }
  destruct (persistFinalStatus_spec taskId projectPath (finalStatusOf code) s3)
    as (_ & _ & _ & Hp).
  rewrite Hw3 in Hp. clearbody s3. clear Hw Hr Hf Hl Ht. clearbody s2.
  rewrite trace_broadcast, world_broadcast.
  destruct (readPlan sys _ (world s)) as [| |plan].
  - exists []. rewrite Hp, Ht3, <- !app_assoc. simpl.
    split; [reflexivity | split; [reflexivity | exact Hw3]].
  - destruct Hp as (Hpw & msg & Hpt). exists [ConsoleError msg].
    rewrite Hpt, Ht3, <- !app_assoc. simpl.
    split; [reflexivity | split; [eauto | now rewrite Hpw] ].
  - destruct Hp as (Hpw & Hpt). eexists. split; cycle 1.
    + split; [reflexivity | exact Hpw].
    + rewrite Hpt, Ht3, <- !app_assoc. reflexivity.
Qed.

End Facts.
End SupervisorFacts.

Module ExitHandling.
Import Obs Stated SupervisorFacts.

Lemma onExit_registries {W} (sys : Sys W) taskId projectPath code (s : Server W) :
  runningTasks (onExit sys taskId projectPath code s) = delete taskId (runningTasks s)
  /\ logWatchers (onExit sys taskId projectPath code s) = delete taskId (logWatchers s).
Proof.
  unfold onExit.
  set (s1 := set_runningTasks _ s).
  destruct (stopLogWatching_spec taskId s1) as (_ & Hr & _ & Hl & _).
  set (s2 := stopLogWatching taskId s1) in *.
  destruct (persistFinalStatus_spec sys taskId projectPath (finalStatusOf code)
              (broadcast (TaskExit taskId code) s2)) as (Hpr & Hpl & _).
  split.
  - change (runningTasks (persistFinalStatus sys taskId projectPath (finalStatusOf code)
                            (broadcast (TaskExit taskId code) s2))
            = delete taskId (runningTasks s)).
    rewrite Hpr. simpl. now rewrite Hr.
  - change (logWatchers (persistFinalStatus sys taskId projectPath (finalStatusOf code)
                           (broadcast (TaskExit taskId code) s2))
            = delete taskId (logWatchers s)).
    rewrite Hpl. simpl. now rewrite Hl.
Qed.

Lemma position_skip P l r :
  Forall (fun e => P e = false) l ->
  position P (l ++ r) = option_map (Nat.add (List.length l)) (position P r).
Proof.
  induction 1 as [|e l He _ IH]; simpl.
  - now destruct (position P r).
  - rewrite He, IH. now destruct (position P r).
Qed.

Lemma position_found P l : Exists (fun e => P e = true) l -> is_Some (position P l).
Proof.
  induction l as [|e l IH]; intros H.
  - inversion H.
  - simpl. destruct (P e) eqn:E; [eauto|].
    inversion H as [? ? He|? ? Hl]; subst; [congruence|].
    destruct (IH Hl) as [k ->]. simpl. eauto.
Qed.

Lemma clear_effects_silent {W} (s : Server W) taskId P :
  (forall t, P (ClearInterval t) = false) ->
  Forall (fun e => P e = false) (clear_effects s taskId).
Proof.
  intros HP. unfold clear_effects. destruct (logWatchers s !! taskId); repeat constructor.
  apply HP.
Qed.

(** C6: when the worker of a task exits, the exit callback unregisters the
    process handle, stops the task's log watcher (clearing its timer),
    publishes the exit event carrying the exit code, derives the final status
    (human_review for exit code 0, backlog otherwise), writes it into the
    plan artifact, and publishes the statusChange event with that status. *)
Theorem exit_handling {W} (sys : Sys W) (taskId projectPath : string) (code : option Z)
    (s : Server W) (plan : Plan) :
  readPlan sys (planPathOf projectPath taskId) (world s) = Parsed plan ->
  let s' := onExit sys taskId projectPath code s in
  let final := if decide (code = Some 0%Z) then "human_review" else "backlog" in
  runningTasks s' !! taskId = None
  /\ logWatchers s' !! taskId = None
  /\ (forall watcher, logWatchers s !! taskId = Some watcher ->
                      In (ClearInterval (lw_interval watcher)) (since s s'))
  /\ In (Broadcast (TaskExit taskId code)) (since s s')
  /\ (exists p, In (WritePlan (planPathOf projectPath taskId) p) (since s s')
                /\ world s' = writePlan sys (planPathOf projectPath taskId) p (world s)
                /\ plan_status p = Some final
                /\ plan_phases p = plan_phases plan
                /\ plan_qa_signoff p = plan_qa_signoff plan
                /\ plan_parent_branch p = plan_parent_branch plan
                /\ plan_merged_at p = plan_merged_at plan)
  /\ last (since s s') = Some (Broadcast (TaskStatusChange taskId final)).
Proof.
  intros Hplan s' final.
  assert (Hfinal : finalStatusOf code = final).
  { subst final. destruct (decide (code = Some 0%Z)) as [->|Hne]; [reflexivity|].
    destruct code as [[| |]|]; try reflexivity. contradiction. }
  destruct (onExit_registries sys taskId projectPath code s) as [Hr Hl].
  destruct (onExit_trace sys taskId projectPath code s) as (persisted & Ht & Hp).
  rewrite Hplan in Hp. cbv zeta in Hp. destruct Hp as [-> Hw].
  apply since_app in Ht. fold s' in Hr, Hl, Ht, Hw. rewrite Hfinal in *.
  repeat split.
  - rewrite Hr. apply lookup_delete_eq.
  - rewrite Hl. apply lookup_delete_eq.
  - intros watcher Hwatch. rewrite Ht. unfold clear_effects. rewrite Hwatch.
    simpl. now left.
  - rewrite Ht. apply in_or_app. right. now left.
  - eexists. split; [|split; [exact Hw|repeat split]].
    rewrite Ht. apply in_or_app. right. simpl. right. now left.
  - rewrite Ht.
    match goal with
    | |- last (?c ++ ?e :: [?w] ++ [?b]) = _ =>
        replace (c ++ e :: [w] ++ [b]) with ((c ++ [e; w]) ++ [b])
          by (rewrite <- app_assoc; reflexivity)
    end.
    apply last_snoc.
Qed.

Lemma exit_handling_witness :
  let s' := onExit (Sample.sys Sample.base_config) "001" "/repo" (Some 0%Z)
              (initialServer Sample.with_plan) in
  runningTasks s' !! "001" = None
  /\ last (since (initialServer Sample.with_plan) s')
     = Some (Broadcast (TaskStatusChange "001" "human_review")).
Proof.
  destruct (exit_handling (Sample.sys Sample.base_config) "001" "/repo" (Some 0%Z)
              (initialServer Sample.with_plan) _ eq_refl) as (H1 & _ & _ & _ & _ & H2).
  split; [exact H1 | exact H2].
Defined.

(** C7, as stated, fails: in the exit callback the exit event is sent
    first; the plan is written and the statusChange published after it. *)
Lemma exit_event_precedes_status_update :
  ~ exit_order_rule (Sample.sys Sample.base_config) "001" "/repo" (Some 0%Z)
      (initialServer Sample.with_plan).
Proof.
  unfold exit_order_rule. vm_compute. discriminate.
Qed.

(** C7, amended: within one exit callback the effects are, in this order,
    the clearing of the watcher's timer, the exit event, the write of the
    derived status into the plan artifact (or the log of its failure), and
    last the statusChange event; so the statusChange of an exit always comes
    after, never before, the exit event it derives from, in the same
    synchronous callback. *)
Theorem exit_event_then_status_change {W} (sys : Sys W) (taskId projectPath : string)
    (code : option Z) (s : Server W) :
  let new := since s (onExit sys taskId projectPath code s) in
  (exists persisted,
      new = clear_effects s taskId
              ++ Broadcast (TaskExit taskId code)
              :: persisted ++ [Broadcast (TaskStatusChange taskId (finalStatusOf code))]
      /\ Forall (fun e => (exists path p, e = WritePlan path p)
                          \/ (exists msg, e = ConsoleError msg)) persisted)
  /\ happens_before (is_exit_event taskId) (is_status_update taskId) new = true.
Proof.
  intros new.
  destruct (onExit_trace sys taskId projectPath code s) as (persisted & Ht & Hp).
  apply since_app in Ht. fold new in Ht.
  split.
  - exists persisted. split; [exact Ht|].
    destruct (readPlan sys _ (world s)).
    + destruct Hp as [-> _]. constructor.
    + destruct Hp as [[msg ->] _]. constructor; [right; eauto | constructor].
    + destruct Hp as [-> _]. constructor; [left; eauto | constructor].
  - rewrite Ht. unfold happens_before.
    rewrite !position_skip by (apply clear_effects_silent; reflexivity).
    simpl. rewrite String.eqb_refl. simpl.
    destruct (position_found (is_status_update taskId)
                (persisted ++ [Broadcast (TaskStatusChange taskId (finalStatusOf code))]))
      as [k Hk].
    { apply Exists_app. right. constructor. simpl. apply String.eqb_refl. }
    rewrite Hk. simpl. apply Nat.ltb_lt. lia.
Qed.

End ExitHandling.

Module StartFacts.
Import Obs SupervisorFacts.

Section Facts.
Context {W : Type} (sys : Sys W).

Lemma killExisting_spec taskId (s : Server W) :
  runningTasks (killExisting sys taskId s) = delete taskId (runningTasks s)
  /\ logWatchers (killExisting sys taskId s) = logWatchers s
  /\ fresh (killExisting sys taskId s) = fresh s
  /\ trace (killExisting sys taskId s) = trace s ++ kill_effects s taskId
  /\ world (killExisting sys taskId s)
     = match runningTasks s !! taskId with
       | Some old => kill sys (child_pid (rt_process old)) (world s)
       | None => world s
       end.
Proof.
  unfold killExisting, kill_effects.
  destruct (runningTasks s !! taskId) eqn:E; simpl; repeat split; try reflexivity.
  - symmetry. now apply delete_id.
  - now rewrite app_nil_r.
Qed.

Lemma spawnAndRegister_spec taskId projectPath autoBuildPath force (s : Server W) :
  let s' := spawnAndRegister sys taskId projectPath autoBuildPath force s in
  (exists pid,
      runningTasks s'
      = <[taskId := {| rt_taskId := taskId;
                       rt_process := {| child_id := fresh s; child_pid := pid |};
                       rt_projectPath := projectPath |}]> (runningTasks s))
  /\ logWatchers s' = logWatchers s
  /\ fresh s' = S (fresh s)
  /\ world s' = snd (spawn sys (pythonPathOf autoBuildPath)
                       (workerArgs autoBuildPath taskId force) projectPath (world s))
  /\ trace s' = trace s ++ [Spawn (fresh s) (pythonPathOf autoBuildPath)
                               (workerArgs autoBuildPath taskId force) projectPath].
Proof.
  unfold spawnAndRegister.
  destruct (spawn sys _ _ projectPath (world s)) as [pid w']. simpl.
  repeat split; eauto.
Qed.

Lemma detectParentBranch_spec projectPath (s : Server W) :
  let r := detectParentBranch sys projectPath s in
  runningTasks (snd r) = runningTasks s
  /\ logWatchers (snd r) = logWatchers s
  /\ fresh (snd r) = fresh s
  /\ world (snd r) = snd (execSync sys projectPath RevParseHead (world s))
  /\ exists err, trace (snd r) = trace s ++ Exec projectPath RevParseHead :: err
                 /\ Forall (fun e => exists msg, e = ConsoleError msg) err.
Proof.
  unfold detectParentBranch.
  destruct (execSync sys projectPath RevParseHead (world s)) as [[out|e] w']; simpl.
  - repeat split. exists []. split; [reflexivity | constructor].
  - repeat split. eexists [_]. rewrite <- app_assoc. split; [reflexivity|].
    constructor; [eauto | constructor].
Qed.

(** An accepted start, effect by effect. *)
Lemma start_accepted taskId projectId force (s : Server W) project autoBuildPath :
  findProject sys projectId (world s) = Some project ->
  getAutoBuildPath sys (world s) = Some autoBuildPath ->
  let r := start sys taskId projectId force s in
  let w3 := world_at_persist sys taskId (project_path project) autoBuildPath force s in
  fst r = ok_response
  /\ (exists pid,
        runningTasks (snd r)
        = <[taskId := {| rt_taskId := taskId;
                         rt_process := {| child_id := fresh s; child_pid := pid |};
                         rt_projectPath := project_path project |}]> (runningTasks s))
  /\ fresh (snd r) = S (S (fresh s))
  /\ exists err persisted,
       trace (snd r)
       = trace s ++ kill_effects s taskId
           ++ [Spawn (fresh s) (pythonPathOf autoBuildPath)
                 (workerArgs autoBuildPath taskId force) (project_path project);
               Exec (project_path project) RevParseHead]
           ++ err ++ persisted
           ++ [Broadcast (TaskStatusChange taskId "in_progress")]
           ++ clear_effects s taskId ++ [SetInterval (S (fresh s))]
       /\ Forall (fun e => exists msg, e = ConsoleError msg) err
       /\ match readPlan sys (planPathOf (project_path project) taskId) w3 with
          | Missing => persisted = [] /\ world (snd r) = w3
          | Unparseable => (exists msg, persisted = [ConsoleError msg]) /\ world (snd r) = w3
          | Parsed plan =>
              exists p, persisted = [WritePlan (planPathOf (project_path project) taskId) p]
                        /\ plan_status p = Some "in_progress"
                        /\ world (snd r)
                           = writePlan sys (planPathOf (project_path project) taskId) p w3
          end.
Proof.
  intros Hproj Habp r w3. subst r. unfold start. rewrite Hproj, Habp. cbv zeta.
  destruct (killExisting_spec taskId s) as (Hr1 & Hl1 & Hf1 & Ht1 & Hw1).
  set (s1 := killExisting sys taskId s) in *. clearbody s1.
  destruct (spawnAndRegister_spec taskId (project_path project) autoBuildPath force s1)
    as ((pid & Hr2) & Hl2 & Hf2 & Hw2 & Ht2).
  set (s2 := spawnAndRegister sys taskId (project_path project) autoBuildPath force s1) in *.
  clearbody s2.
  destruct (detectParentBranch_spec (project_path project) s2)
    as (Hr3 & Hl3 & Hf3 & Hw3 & err & Ht3 & Herr).
  destruct (detectParentBranch sys (project_path project) s2) as [parentBranch s3].
  simpl in Hr3, Hl3, Hf3, Hw3, Ht3.
  assert (Hw : world s3 = w3).
  { subst w3. unfold world_at_persist. rewrite Hw3, Hw2, Hw1. reflexivity. }
  clearbody w3.
  destruct (persistInProgress_spec sys taskId (project_path project) parentBranch s3)
    as (Hr4 & Hl4 & Hf4 & Hp).
  set (s4 := persistInProgress sys taskId (project_path project) parentBranch s3) in *.
  rewrite Hw in Hp. cbv zeta in Hp.
  set (s5 := broadcast (TaskStatusChange taskId "in_progress") s4).
  destruct (startLogWatching_spec sys taskId (project_path project) s5)
    as (Hw6 & Hr6 & Hf6 & Ht6).
  assert (Hclear : clear_effects s5 taskId = clear_effects s taskId).
  { unfold clear_effects. subst s5. simpl. now rewrite Hl4, Hl3, Hl2, Hl1. }
  assert (Hf5 : fresh s5 = S (fresh s)).
  { subst s5. simpl. now rewrite Hf4, Hf3, Hf2, Hf1. }
  assert (Ht5 : trace s5 = trace s4 ++ [Broadcast (TaskStatusChange taskId "in_progress")])
    by reflexivity.
  assert (Hw5 : world s5 = world s4) by reflexivity.
  assert (Hr5 : runningTasks s5 = runningTasks s4) by reflexivity.
  clearbody s5. cbn [fst snd].
  split; [reflexivity|]. split.
  { exists pid. rewrite Hr6, Hr5, Hr4, Hr3, Hr2, Hr1, Hf1. apply insert_delete_eq. }
  split; [now rewrite Hf6, Hf5|].
  rewrite Ht6, Hclear, Hf5, Ht5, Hw6, Hw5.
  assert (Hpre : trace s3 = trace s ++ kill_effects s taskId
                   ++ [Spawn (fresh s) (pythonPathOf autoBuildPath)
                         (workerArgs autoBuildPath taskId force) (project_path project);
                       Exec (project_path project) RevParseHead] ++ err).
  { rewrite Ht3, Ht2, Ht1, Hf1, <- !app_assoc. reflexivity. }
  clearbody s4.
  destruct (readPlan sys (planPathOf (project_path project) taskId) w3) as [| |plan].
  - exists err, []. rewrite Hp, Hpre, <- !app_assoc.
    split; [reflexivity | split; [exact Herr | split; [reflexivity | exact Hw]]].
  - destruct Hp as (Hpw & msg & Hpt). exists err, [ConsoleError msg].
    rewrite Hpt, Hpre, <- !app_assoc.
    split; [reflexivity | split; [exact Herr | split; [eauto | now rewrite Hpw]]].
  - destruct Hp as (Hpw & Hpt). exists err. eexists [_].
    rewrite Hpt, Hpre, <- !app_assoc.
    split; [reflexivity | split; [exact Herr|]].
    eexists. split; [reflexivity|]. split; [|exact Hpw].
    unfold recordParentBranch. now destruct (_ && _).
Qed.

End Facts.
End StartFacts.

Module AtMostOne.
Import Obs SupervisorFacts StartFacts.

Section Invariant.
Context {W : Type} (sys : Sys W).

Lemma workerArgs_task autoBuildPath taskId force :
  workerArgs autoBuildPath taskId force !! 2 = Some taskId.
Proof. reflexivity. Qed.

(** An accepted start adds the kill of the old process (if any), the spawn
    of the new one, and then nothing that touches a process. *)
Lemma start_shape taskId projectId force (s : Server W) project autoBuildPath :
  findProject sys projectId (world s) = Some project ->
  getAutoBuildPath sys (world s) = Some autoBuildPath ->
  exists rest,
    trace (snd (start sys taskId projectId force s))
    = trace s ++ kill_effects s taskId
        ++ Spawn (fresh s) (pythonPathOf autoBuildPath)
             (workerArgs autoBuildPath taskId force) (project_path project) :: rest
    /\ Forall (fun e => is_process_effect e = false) rest
    /\ In (Broadcast (TaskStatusChange taskId "in_progress")) rest.
Proof.
  intros Hproj Habp.
  destruct (start_accepted sys taskId projectId force s project autoBuildPath Hproj Habp)
    as (_ & _ & _ & err & persisted & Ht & Herr & Hp).
  eexists. split; [exact Ht|]. split.
  - constructor; [reflexivity|].
    apply Forall_app. split.
    { eapply Forall_impl; [exact Herr|]. now intros e [msg ->]. }
    apply Forall_app. split.
    { destruct (readPlan sys _ _).
      - destruct Hp as [-> _]. constructor.
      - destruct Hp as [[msg ->] _]. now repeat constructor.
      - destruct Hp as (written & -> & _). now repeat constructor. }
    constructor; [reflexivity|].
    apply Forall_app. split.
    + unfold clear_effects. destruct (logWatchers s !! taskId); now repeat constructor.
    + now repeat constructor.
  - right. apply in_or_app. right. apply in_or_app. right. now left.
Qed.

Lemma in_kill_effects (s : Server W) taskId e :
  In e (kill_effects s taskId) ->
  exists old, runningTasks s !! taskId = Some old /\ e = Kill (child_id (rt_process old)).
Proof.
  unfold kill_effects. destruct (runningTasks s !! taskId) as [old|]; simpl.
  - intros [<-|[]]. eauto.
  - intros [].
Qed.

Lemma start_preserves taskId projectId force (s : Server W) :
  live_registered s /\ ids_below s ->
  live_registered (snd (start sys taskId projectId force s))
  /\ ids_below (snd (start sys taskId projectId force s)).
Proof.
  intros [Hlive (Hk & Hs & Hr)].
  destruct (findProject sys projectId (world s)) as [project|] eqn:Hproj;
    [|unfold start; rewrite Hproj; simpl; repeat split; assumption].
  destruct (getAutoBuildPath sys (world s)) as [abp|] eqn:Habp;
    [|unfold start; rewrite Hproj, Habp; simpl; repeat split; assumption].
  destruct (start_shape taskId projectId force s project abp Hproj Habp)
    as (rest & Ht & Hquiet & _).
  destruct (start_accepted sys taskId projectId force s project abp Hproj Habp)
    as (_ & (pid & Hreg) & Hfresh & _).
  set (s' := snd (start sys taskId projectId force s)) in *. clearbody s'.
  rewrite List.Forall_forall in Hquiet.
  split; [|split; [|split]].
  - intros c tid [(cmd & args & cwd & Hin & Harg) Hnk].
    rewrite Ht in Hin, Hnk. rewrite !in_app_iff in Hin. destruct Hin as [Hin|[Hin|Hin]].
    + destruct (Hlive c tid) as (rt & Hrt & Hc).
      { split; [now exists cmd, args, cwd|]. intros Hkill. apply Hnk.
        apply in_or_app. now left. }
      destruct (decide (tid = taskId)) as [->|Hne].
      * exfalso. apply Hnk. apply in_or_app. right. apply in_or_app. left.
        unfold kill_effects. rewrite Hrt, Hc. now left.
      * exists rt. split; [|exact Hc]. rewrite Hreg. now rewrite lookup_insert_ne.
    + apply in_kill_effects in Hin as (old & _ & Heq). discriminate Heq.
    + destruct Hin as [Heq|Hin].
      * injection Heq as <- <- <- <-. rewrite workerArgs_task in Harg.
        injection Harg as <-. eexists. rewrite Hreg, lookup_insert_eq. split; reflexivity.
      * apply Hquiet in Hin. discriminate Hin.
  - intros c Hin. rewrite Ht in Hin. rewrite Hfresh.
    rewrite !in_app_iff in Hin. destruct Hin as [Hin|[Hin|Hin]].
    + apply Hk in Hin. lia.
    + apply in_kill_effects in Hin as (old & Hold & [= ->]). apply Hr in Hold. lia.
    + destruct Hin as [Heq|Hin]; [discriminate Heq|]. apply Hquiet in Hin. discriminate Hin.
  - intros c cmd args cwd Hin. rewrite Ht in Hin. rewrite Hfresh.
    rewrite !in_app_iff in Hin. destruct Hin as [Hin|[Hin|Hin]].
    + apply Hs in Hin. lia.
    + apply in_kill_effects in Hin as (old & _ & Heq). discriminate Heq.
    + destruct Hin as [Heq|Hin]; [injection Heq as <- _ _ _; lia|].
      apply Hquiet in Hin. discriminate Hin.
  - intros tid rt. rewrite Hreg, Hfresh. rewrite lookup_insert.
    destruct (decide (taskId = tid)) as [->|Hne].
    + intros [= <-]. simpl. lia.
    + intros Hrt. apply Hr in Hrt. lia.
Qed.

Lemma startAll_preserves reqs (s : Server W) :
  live_registered s /\ ids_below s ->
  live_registered (startAll sys reqs s) /\ ids_below (startAll sys reqs s).
Proof.
  revert s. induction reqs as [|r reqs IH]; intros s H; [exact H|].
  simpl. apply IH. now apply start_preserves.
Qed.

Lemma initial_invariant (w : W) :
  live_registered (initialServer w) /\ ids_below (initialServer w).
Proof.
  split.
  - intros c tid [(cmd & args & cwd & [] & _) _].
  - repeat split; simpl; try (intros; contradiction).
    intros tid rt Hrt. rewrite lookup_empty in Hrt. discriminate Hrt.
Qed.

End Invariant.
End AtMostOne.

Module StartHandling.
Import Obs Stated SupervisorFacts StartFacts AtMostOne.

(** Histories made of start requests only, no exit callback running in
    between: a further accepted start for a task leaves exactly the child it
    spawned registered for that task, and that child is alive; a handle that
    existed is killed and removed before the new process is spawned and
    registered; and at every such point each task has at most one live
    process, the one its registered handle holds. *)
Theorem at_most_one_process {W} (sys : Sys W) (w : W) (reqs : list StartRequest)
    (taskId projectId : string) (force : bool) :
  let s := startAll sys reqs (initialServer w) in
  let s' := snd (start sys taskId projectId force s) in
  is_Some (findProject sys projectId (world s)) ->
  is_Some (getAutoBuildPath sys (world s)) ->
  (exists rt, runningTasks s' !! taskId = Some rt
              /\ child_id (rt_process rt) = fresh s
              /\ live (fresh s) taskId (trace s'))
  /\ (forall old, runningTasks s !! taskId = Some old ->
        runningTasks (killExisting sys taskId s) !! taskId = None
        /\ exists cmd args cwd rest,
             since s s' = Kill (child_id (rt_process old))
                            :: Spawn (fresh s) cmd args cwd :: rest)
  /\ (forall tid c1 c2, live c1 tid (trace s') -> live c2 tid (trace s') -> c1 = c2)
  /\ live_registered s'.
Proof.
  intros s s' [project Hproj] [abp Habp].
  destruct (startAll_preserves sys reqs _ (initial_invariant w)) as [Hlive Hids].
  fold s in Hlive, Hids.
  destruct (start_preserves sys taskId projectId force s (conj Hlive Hids)) as [Hlive' _].
  fold s' in Hlive'.
  destruct (start_shape sys taskId projectId force s project abp Hproj Habp)
    as (rest & Ht & Hquiet & _).
  destruct (start_accepted sys taskId projectId force s project abp Hproj Habp)
    as (_ & (pid & Hreg) & _).
  fold s' in Ht, Hreg. clearbody s'. clearbody s.
  destruct Hids as (Hk & Hs & Hr). rewrite List.Forall_forall in Hquiet.
  split; [|split; [|split]].
  - eexists. rewrite Hreg, lookup_insert_eq. split; [reflexivity|]. split; [reflexivity|].
    split.
    + exists (pythonPathOf abp), (workerArgs abp taskId force), (project_path project).
      split; [|apply workerArgs_task].
      rewrite Ht. apply in_or_app. right. apply in_or_app. right. now left.
    + rewrite Ht, !in_app_iff. intros [Hin|[Hin|[Hin|Hin]]].
      * apply Hk in Hin. lia.
      * apply in_kill_effects in Hin as (old & Hold & [= Heq]).
        apply Hr in Hold. lia.
      * discriminate Hin.
      * apply Hquiet in Hin. discriminate Hin.
  - intros old Hold. split.
    + destruct (killExisting_spec sys taskId s) as (-> & _). apply lookup_delete_eq.
    + eexists _, _, _, rest. apply since_app. rewrite Ht. unfold kill_effects.
      rewrite Hold. reflexivity.
  - intros tid c1 c2 H1 H2.
    destruct (Hlive' c1 tid H1) as (rt1 & Hrt1 & <-).
    destruct (Hlive' c2 tid H2) as (rt2 & Hrt2 & <-).
    rewrite Hrt1 in Hrt2. now injection Hrt2 as ->.
  - exact Hlive'.
Qed.

(** Task 001 started twice: the second start kills child 0 and registers
    child 2. *)
Lemma at_most_one_process_witness :
  let sys := Sample.sys Sample.base_config in
  let s := startAll sys [mkStartRequest "001" "p1" true] (initialServer Sample.empty_world) in
  let s' := snd (start sys "001" "p1" true s) in
  (exists rt, runningTasks s' !! "001" = Some rt /\ child_id (rt_process rt) = 2)
  /\ (exists rest, since s s' = Kill 0 :: rest).
Proof.
  intros sys s s'.
  destruct (at_most_one_process sys Sample.empty_world [mkStartRequest "001" "p1" true]
              "001" "p1" true) as ((rt & Hrt & Hid & _) & Hold & _).
  - exists Sample.demo. reflexivity.
  - exists "/opt/auto-claude". reflexivity.
  - split.
    + exists rt. split; [exact Hrt | exact Hid].
    + destruct (Hold {| rt_taskId := "001";
                        rt_process := {| child_id := 0; child_pid := Some 4242 |};
                        rt_projectPath := "/repo" |} eq_refl)
        as (_ & cmd & args & cwd & rest & Hsince).
      exists (Spawn 2 cmd args cwd :: rest). exact Hsince.
Defined.

(** C1: the claim fails on the code once exit callbacks run.  Task 001 is
    started twice; the second start kills child 0, whose exit callback then
    runs.  The callback is keyed by the task id, not by the process, so it
    removes the handle of child 2, the process of the most recent start, which
    it does not kill.  A third start finds no handle, kills nothing and spawns
    child 4: two workers of the task are alive, and only the newer one is
    registered. *)
Theorem stale_exit_leaves_two_workers :
  let sys := Sample.sys Sample.base_config in
  let request := mkStartRequest "001" "p1" false in
  let s2 := startAll sys [request; request] (initialServer Sample.empty_world) in
  let s3 := onExit sys "001" "/repo" None s2 in
  let s4 := snd (start sys "001" "p1" false s3) in
  (exists rt, runningTasks s2 !! "001" = Some rt /\ child_id (rt_process rt) = 2)
  /\ In (Kill 0) (trace s2)
  /\ runningTasks s3 !! "001" = None
  /\ live 2 "001" (trace s3)
  /\ Forall (fun e => ObsMore.is_kill e = false) (since s3 s4)
  /\ live 2 "001" (trace s4)
  /\ live 4 "001" (trace s4)
  /\ (exists rt, runningTasks s4 !! "001" = Some rt /\ child_id (rt_process rt) = 4).
Proof.
  intros sys request s2 s3 s4.
  assert (Hspawned : forall c tr,
             In (Spawn c (pythonPathOf "/opt/auto-claude")
                   (workerArgs "/opt/auto-claude" "001" false) "/repo") tr ->
             spawned_for c "001" tr).
  { intros c tr Hin. eexists _, _, _. split; [exact Hin | reflexivity]. }
  assert (Hnone : forall c (tr : list Effect),
             forallb (fun e => negb (ObsMore.is_kill e && match e with
                                                           | Kill k => k =? c
                                                           | _ => false
                                                           end)) tr = true ->
             ~ In (Kill c) tr).
  { intros c tr Hall Hin. rewrite forallb_forall in Hall. apply Hall in Hin.
    cbn in Hin. now rewrite Nat.eqb_refl in Hin. }
  assert (Hquiet : forall tr : list Effect,
             forallb (fun e => negb (ObsMore.is_kill e)) tr = true ->
             Forall (fun e => ObsMore.is_kill e = false) tr).
  { intros tr Hall. apply List.Forall_forall. intros e He.
    rewrite forallb_forall in Hall. apply Hall in He. now apply negb_true_iff. }
  split; [eexists; split; [vm_compute; reflexivity | reflexivity]|].
  split; [vm_compute; tauto|].
  split; [vm_compute; reflexivity|].
  split; [split; [apply Hspawned; vm_compute; tauto | apply Hnone; vm_compute; reflexivity]|].
  split; [apply Hquiet; vm_compute; reflexivity |].
  split; [split; [apply Hspawned; vm_compute; tauto | apply Hnone; vm_compute; reflexivity]|].
  split; [split; [apply Hspawned; vm_compute; tauto | apply Hnone; vm_compute; reflexivity]|].
  eexists; split; [vm_compute; reflexivity | reflexivity].
Qed.

(** C9, as stated, fails: when the interpreter cannot be launched the
    start request still answers success. *)
Lemma failed_launch_answers_success :
  ~ spawn_failure_rule (Sample.sys Sample.failing_launch) "001" "p1" false
      (initialServer Sample.empty_world).
Proof.
  intros H.
  assert (Hfail : launch_fails (Sample.sys Sample.failing_launch) "001" "p1" false
                    (initialServer Sample.empty_world)).
  { exists Sample.demo, "/opt/auto-claude". repeat split. }
  specialize (H Hfail). vm_compute in H. discriminate H.
Qed.

(** C9, amended: a start fails towards the caller only before anything is
    spawned (unknown project, or no auto-claude installation: error 500
    and an unchanged server).  Once those checks pass the worker is spawned
    exactly once, its handle is registered, in_progress is published and the
    caller is answered success, whether or not the launch succeeded; a launch
    failure reaches only the child's error listener, which writes it to the
    console and changes nothing else.  No second spawn is attempted. *)
Theorem spawn_failure_only_logged {W} (sys : Sys W) (taskId projectId : string)
    (force : bool) (s : Server W) (project : Project) :
  findProject sys projectId (world s) = Some project ->
  let r := start sys taskId projectId force s in
  (getAutoBuildPath sys (world s) = None ->
   r = (error_response 500 "auto-claude not found", s))
  /\ (is_Some (getAutoBuildPath sys (world s)) ->
      fst r = ok_response
      /\ is_Some (runningTasks (snd r) !! taskId)
      /\ In (Broadcast (TaskStatusChange taskId "in_progress")) (since s (snd r))
      /\ List.length (List.filter is_spawn (since s (snd r))) = 1)
  /\ (forall (err : string) (s0 : Server W),
        since s0 (onSpawnError taskId err s0)
        = [ConsoleError ("[Task Start] Spawn error: " +:+ err)]
        /\ runningTasks (onSpawnError taskId err s0) = runningTasks s0
        /\ logWatchers (onSpawnError taskId err s0) = logWatchers s0
        /\ world (onSpawnError taskId err s0) = world s0).
Proof.
  intros Hproj r. subst r. split; [|split].
  - intros Hnone. unfold start. now rewrite Hproj, Hnone.
  - intros [abp Habp].
    destruct (start_shape sys taskId projectId force s project abp Hproj Habp)
      as (rest & Ht & Hquiet & Hin).
    destruct (start_accepted sys taskId projectId force s project abp Hproj Habp)
      as (Hok & (pid & Hreg) & _).
    apply since_app in Ht. rewrite Ht, Hreg, lookup_insert_eq.
    split; [exact Hok|]. split; [eauto|]. split.
    + apply in_or_app. right. now right.
    + rewrite List.filter_app. simpl.
      assert (Hk : List.filter is_spawn (kill_effects s taskId) = []).
      { unfold kill_effects. now destruct (runningTasks s !! taskId). }
      assert (Hrest : List.filter is_spawn rest = []).
      { clear -Hquiet. induction Hquiet as [|e l He _ IH]; [reflexivity|]. simpl.
        destruct e; try discriminate He; exact IH. }
      now rewrite Hk, Hrest.
  - intros err s0. repeat split. apply since_app. reflexivity.
Qed.

Lemma spawn_failure_only_logged_witness :
  fst (start (Sample.sys Sample.failing_launch) "001" "p1" false
         (initialServer Sample.empty_world)) = ok_response.
Proof.
  destruct (spawn_failure_only_logged (Sample.sys Sample.failing_launch) "001" "p1" false
              (initialServer Sample.empty_world) Sample.demo eq_refl) as (_ & H & _).
  destruct H as (Hok & _); [eexists; reflexivity | exact Hok].
Defined.

End StartHandling.

(** ** The merge engine *)

Module MergeFacts.
Import Merge MergeObs.

Section Laws.
Context {W : Type}.

Lemma bind_normal {A B} (m : M W A) (k : A -> M W B) f a f' :
  m f = (Normal a, f') -> bind m k f = k a f'.
Proof. unfold bind. now intros ->. Qed.

Lemma bind_thrown {A B} (m : M W A) (k : A -> M W B) f e f' :
  m f = (Thrown e, f') -> bind m k f = (Thrown e, f').
Proof. unfold bind. now intros ->. Qed.

Lemma try_catch_normal {A} (m : M W A) h f a f' :
  m f = (Normal a, f') -> try_catch m h f = (Normal a, f').
Proof. unfold try_catch. now intros ->. Qed.

Lemma try_catch_thrown {A} (m : M W A) h f e f' :
  m f = (Thrown e, f') -> try_catch m h f = h e f'.
Proof. unfold try_catch. now intros ->. Qed.

Lemma bind_assoc {A B C} (m : M W A) (k : A -> M W B) (h : B -> M W C) f :
  bind (bind m k) h f = bind m (fun x => bind (k x) h) f.
Proof. unfold bind. now destruct (m f) as [[a|e] f']. Qed.

Lemma bind_ret {A B} (a : A) (k : A -> M W B) f : bind (ret a) k f = k a f.
Proof. reflexivity. Qed.

Lemma bind_record {B} e (k : unit -> M W B) f :
  bind (record e) k f = k tt (mkFrame (fr_world f) (fr_trace f ++ [e]) (hasStash f)).
Proof. reflexivity. Qed.

Lemma bind_getHasStash {B} (k : bool -> M W B) f : bind getHasStash k f = k (hasStash f) f.
Proof. reflexivity. Qed.

Lemma bind_getWorld {B} (k : W -> M W B) f : bind getWorld k f = k (fr_world f) f.
Proof. reflexivity. Qed.

(** *** Blocks that never throw *)

Lemma total_ret {A} (a : A) : total (ret a : M W A).
Proof. intros f. now exists a, f. Qed.

Lemma total_bind {A B} (m : M W A) (k : A -> M W B) :
  total m -> (forall a, total (k a)) -> total (bind m k).
Proof.
  intros Hm Hk f. destruct (Hm f) as (a & f' & E).
  rewrite (bind_normal _ _ _ _ _ E). apply Hk.
Qed.

Lemma total_try_catch {A} (m : M W A) h :
  (forall e, total (h e)) -> total (try_catch m h).
Proof.
  intros Hh f. unfold try_catch. destruct (m f) as [[a|e] f']; [eauto | apply Hh].
Qed.

Lemma total_attempt (m : M W unit) : total (attempt m).
Proof. apply total_try_catch. intros _. apply total_ret. Qed.

Lemma total_when b (m : M W unit) : total m -> total (when_ b m).
Proof. destruct b; [trivial | intros _; apply total_ret]. Qed.

Lemma total_forEach {A} (l : list A) (body : A -> M W unit) :
  (forall x, total (body x)) -> total (forEach l body).
Proof.
  intros Hb. induction l as [|x l IH]; simpl; [apply total_ret|].
  apply total_bind; [apply Hb | intros _; exact IH].
Qed.

Lemma total_record e : total (record e : M W unit).
Proof. intros f. unfold record. eauto. Qed.

Lemma total_getWorld : total (getWorld : M W W).
Proof. intros f. unfold getWorld. eauto. Qed.

Lemma total_getHasStash : total (getHasStash : M W bool).
Proof. intros f. unfold getHasStash. eauto. Qed.

Lemma total_changeWorld g : total (changeWorld g : M W unit).
Proof. intros f. unfold changeWorld. eauto. Qed.

(** *** Blocks that only append to the trace *)

Lemma grows_ret {A} (a : A) : grows (ret a : M W A).
Proof. intros f. exists []. simpl. now rewrite app_nil_r. Qed.

Lemma grows_throw {A} e : grows (throw e : M W A).
Proof. intros f. exists []. simpl. now rewrite app_nil_r. Qed.

Lemma grows_bind {A B} (m : M W A) (k : A -> M W B) :
  grows m -> (forall a, grows (k a)) -> grows (bind m k).
Proof.
  intros Hm Hk f. destruct (Hm f) as (l & Hl). unfold bind.
  destruct (m f) as [[a|e] f']; simpl in Hl.
  - destruct (Hk a f') as (l' & Hl'). exists (l ++ l'). now rewrite Hl', Hl, app_assoc.
  - now exists l.
Qed.

Lemma grows_try_catch {A} (m : M W A) h :
  grows m -> (forall e, grows (h e)) -> grows (try_catch m h).
Proof.
  intros Hm Hh f. destruct (Hm f) as (l & Hl). unfold try_catch.
  destruct (m f) as [[a|e] f']; simpl in Hl.
  - now exists l.
  - destruct (Hh e f') as (l' & Hl'). exists (l ++ l'). now rewrite Hl', Hl, app_assoc.
Qed.

Lemma grows_when b (m : M W unit) : grows m -> grows (when_ b m).
Proof. destruct b; [trivial | intros _; apply grows_ret]. Qed.

Lemma grows_forEach {A} (l : list A) (body : A -> M W unit) :
  (forall x, grows (body x)) -> grows (forEach l body).
Proof.
  intros Hb. induction l as [|x l IH]; simpl; [apply grows_ret|].
  apply grows_bind; [apply Hb | intros _; exact IH].
Qed.

Lemma grows_record e : grows (record e : M W unit).
Proof. intros f. now exists [e]. Qed.

Lemma grows_getWorld : grows (getWorld : M W W).
Proof. intros f. exists []. simpl. now rewrite app_nil_r. Qed.

Lemma grows_getHasStash : grows (getHasStash : M W bool).
Proof. intros f. exists []. simpl. now rewrite app_nil_r. Qed.

Lemma grows_setHasStash b : grows (setHasStash b : M W unit).
Proof. intros f. exists []. simpl. now rewrite app_nil_r. Qed.

Lemma grows_changeWorld g : grows (changeWorld g : M W unit).
Proof. intros f. exists []. simpl. now rewrite app_nil_r. Qed.

(** *** Blocks that keep a property of frames *)

Lemma preserves_ret {A} I (a : A) : preserves I (ret a : M W A).
Proof. intros f H. exact H. Qed.

Lemma preserves_throw {A} I e : preserves I (throw e : M W A).
Proof. intros f H. exact H. Qed.

Lemma preserves_bind {A B} I (m : M W A) (k : A -> M W B) :
  preserves I m -> (forall a, preserves I (k a)) -> preserves I (bind m k).
Proof.
  intros Hm Hk f Hf. specialize (Hm f Hf). unfold bind.
  destruct (m f) as [[a|e] f']; simpl in Hm; [now apply Hk | exact Hm].
Qed.

Lemma preserves_try_catch {A} I (m : M W A) h :
  preserves I m -> (forall e, preserves I (h e)) -> preserves I (try_catch m h).
Proof.
  intros Hm Hh f Hf. specialize (Hm f Hf). unfold try_catch.
  destruct (m f) as [[a|e] f']; simpl in Hm; [exact Hm | now apply Hh].
Qed.

Lemma preserves_when I b (m : M W unit) : preserves I m -> preserves I (when_ b m).
Proof. destruct b; [trivial | intros _; apply preserves_ret]. Qed.

Lemma preserves_forEach {A} I (l : list A) (body : A -> M W unit) :
  (forall x, preserves I (body x)) -> preserves I (forEach l body).
Proof.
  intros Hb. induction l as [|x l IH]; simpl; [apply preserves_ret|].
  apply preserves_bind; [apply Hb | intros _; exact IH].
Qed.

End Laws.

Create HintDb total_db.
Create HintDb grows_db.
Create HintDb keeps_db.

#[export] Hint Resolve total_ret total_bind total_attempt total_try_catch total_when
  total_forEach total_record total_getWorld total_getHasStash total_changeWorld : total_db.
#[export] Hint Resolve grows_ret grows_throw grows_bind grows_try_catch grows_when
  grows_forEach grows_record grows_getWorld grows_getHasStash grows_setHasStash
  grows_changeWorld : grows_db.
#[export] Hint Resolve preserves_ret preserves_throw preserves_bind preserves_try_catch
  preserves_when preserves_forEach : keeps_db.

Section Blocks.
Context {W : Type} (sys : Sys W).
Variable projectPath : string.
Variable taskId : string.

Local Abbreviation exec := (exec sys projectPath).
Local Abbreviation exec_ := (exec_ sys projectPath).
Local Abbreviation path := (planPath projectPath taskId).

Lemma exec_ok c f out w' :
  execSync sys projectPath c (fr_world f) = (ExecOk out, w') ->
  exec c f = (Normal out, mkFrame w' (fr_trace f ++ [Exec projectPath c]) (hasStash f)).
Proof. unfold Merge.exec. now intros ->. Qed.

Lemma exec_err c f e w' :
  execSync sys projectPath c (fr_world f) = (ExecErr e, w') ->
  exec c f = (Thrown e, mkFrame w' (fr_trace f ++ [Exec projectPath c]) (hasStash f)).
Proof. unfold Merge.exec. now intros ->. Qed.

Lemma exec__ok c f out w' :
  execSync sys projectPath c (fr_world f) = (ExecOk out, w') ->
  exec_ c f = (Normal tt, mkFrame w' (fr_trace f ++ [Exec projectPath c]) (hasStash f)).
Proof. intros H. unfold Merge.exec_. now rewrite (bind_normal _ _ _ _ _ (exec_ok _ _ _ _ H)). Qed.

Lemma exec__err c f e w' :
  execSync sys projectPath c (fr_world f) = (ExecErr e, w') ->
  exec_ c f = (Thrown e, mkFrame w' (fr_trace f ++ [Exec projectPath c]) (hasStash f)).
Proof. intros H. unfold Merge.exec_. now rewrite (bind_thrown _ _ _ _ _ (exec_err _ _ _ _ H)). Qed.

(** Whatever git answers, [exec] appends exactly its command and keeps
    [hasStash]. *)
Lemma exec_frame c f :
  fr_trace (snd (exec c f)) = fr_trace f ++ [Exec projectPath c]
  /\ hasStash (snd (exec c f)) = hasStash f
  /\ fr_world (snd (exec c f)) = snd (execSync sys projectPath c (fr_world f)).
Proof.
  unfold Merge.exec. destruct (execSync sys projectPath c (fr_world f)) as [[out|e] w'];
    repeat split.
Qed.

Lemma grows_exec c : grows (exec c).
Proof. intros f. exists [Exec projectPath c]. apply exec_frame. Qed.

Lemma grows_exec_ c : grows (exec_ c).
Proof. unfold Merge.exec_. apply grows_bind; [apply grows_exec | intros; apply grows_ret]. Qed.

Hint Resolve grows_exec grows_exec_ : grows_db.

Lemma grows_storePlan p : grows (storePlan sys projectPath taskId p).
Proof. unfold storePlan. auto with grows_db. Qed.

Lemma total_storePlan p : total (storePlan sys projectPath taskId p).
Proof. unfold storePlan. auto with total_db. Qed.

Hint Resolve grows_storePlan total_storePlan : grows_db total_db.

Lemma grows_persistMerged : grows (persistMerged sys projectPath taskId).
Proof.
  unfold persistMerged. apply grows_bind; [auto with grows_db|]. intros w.
  destruct (readPlan sys path w); auto with grows_db.
Qed.

Lemma total_persistMerged : total (persistMerged sys projectPath taskId).
Proof.
  unfold persistMerged. apply total_bind; [auto with total_db|]. intros w.
  destruct (readPlan sys path w); auto with total_db.
Qed.

Lemma grows_restoreStash : grows (restoreStash sys projectPath).
Proof.
  unfold restoreStash, attempt. apply grows_bind; [auto with grows_db|]. intros b.
  apply grows_when. auto 6 with grows_db.
Qed.

Lemma total_restoreStash : total (restoreStash sys projectPath).
Proof.
  unfold restoreStash. apply total_bind; [auto with total_db|]. intros b.
  apply total_when. apply total_try_catch. intros _. apply total_attempt.
Qed.

Lemma total_ensureGitignore : total (ensureGitignore sys projectPath).
Proof.
  unfold ensureGitignore. cbv zeta. apply total_bind; [auto with total_db|]. intros w.
  destruct (existsSync sys _ w); [destruct (readFile sys _ w)|]; auto with total_db.
Qed.

Lemma total_housekeeping : total (housekeeping sys projectPath taskId).
Proof.
  unfold housekeeping.
  apply total_bind; [auto with total_db|]. intros _.
  apply total_bind; [unfold stashChanges; auto with total_db|]. intros _.
  apply total_bind; [apply total_ensureGitignore|]. intros _.
  apply total_bind; [unfold cleanTransient; auto with total_db|]. intros _.
  unfold removeUntrackedSpecDir. auto with total_db.
Qed.

(** The housekeeping always reaches the merge attempt. *)
Lemma housekeeping_completes f :
  exists f', housekeeping sys projectPath taskId f = (Normal tt, f').
Proof. destruct (total_housekeeping f) as ([] & f' & E). eauto. Qed.

(** The handler always answers: whatever is thrown is caught. *)
Lemma mergeIn_answers target : total (mergeIn sys projectPath taskId target).
Proof.
  unfold mergeIn. apply total_try_catch. intros e. unfold mergeCatch.
  apply total_bind; [apply total_record|]. intros _.
  apply total_bind; [apply total_getHasStash|]. intros b.
  apply total_bind; [apply total_when, total_attempt|]. intros _. apply total_ret.
Qed.

(** After the merge itself, the handler cannot fail any more. *)
Lemma finish_total (r : Response) :
  total (restoreStash sys projectPath ;; persistMerged sys projectPath taskId ;; ret r).
Proof.
  apply total_bind; [apply total_restoreStash|]. intros _.
  apply total_bind; [apply total_persistMerged|]. intros _. apply total_ret.
Qed.

Lemma finish_grows (r : Response) :
  grows (restoreStash sys projectPath ;; persistMerged sys projectPath taskId ;; ret r).
Proof.
  apply grows_bind; [apply grows_restoreStash|]. intros _.
  apply grows_bind; [apply grows_persistMerged|]. intros _. apply grows_ret.
Qed.

Lemma finish_normal (r : Response) f :
  exists f' l,
    (restoreStash sys projectPath ;; persistMerged sys projectPath taskId ;; ret r) f
    = (Normal r, f')
    /\ fr_trace f' = fr_trace f ++ l.
Proof.
  destruct (finish_grows r f) as (l & Hl).
  assert (Hr : forall a f',
             (restoreStash sys projectPath ;; persistMerged sys projectPath taskId ;; ret r) f
             = (Normal a, f') -> a = r).
  { intros a f'. unfold bind.
    destruct (restoreStash sys projectPath f) as [[[]|e] f1]; [|discriminate].
    destruct (persistMerged sys projectPath taskId f1) as [[[]|e] f2]; [|discriminate].
    unfold ret. congruence. }
  destruct (finish_total r f) as (a & f' & E).
  rewrite E in Hl. simpl in Hl. rewrite (Hr _ _ E) in E. eauto.
Qed.

End Blocks.

Lemma resolveBaseBranch_spec {W} (sys : Sys W) (projectPath taskId : string)
    (target : option string) (f : Frame W) :
  let r := resolveBaseBranch sys projectPath taskId target f in
  fst r = Normal (resolved_base target (recordedParent sys projectPath taskId (fr_world f))
                    (main_exists sys projectPath (fr_world f)))
  /\ hasStash (snd r) = hasStash f
  /\ (fr_trace (snd r) = fr_trace f
      \/ (Js.truthy target = false
          /\ recordedParent sys projectPath taskId (fr_world f) = None
          /\ fr_trace (snd r) = fr_trace f ++ [Exec projectPath RevParseVerifyMain]))
  /\ reached_by_git sys projectPath (fr_world f) (fr_world (snd r)).
Proof.
  unfold resolveBaseBranch, resolved_base, main_exists.
  destruct (Js.truthy target) eqn:Et; simpl.
  { repeat split; [now left | constructor]. }
  unfold bind, getWorld.
  destruct (recordedParent sys projectPath taskId (fr_world f)) as [parent|] eqn:Ep; simpl.
  { repeat split; [now left | constructor]. }
  unfold try_catch, bind, exec.
  destruct (execSync sys projectPath RevParseVerifyMain (fr_world f)) as [[out|e] w'] eqn:Ex;
    simpl; (split; [reflexivity|]); (split; [reflexivity|]);
    (split; [right; repeat split|]);
    change w' with (snd (ExecOk "", w')); rewrite <- (f_equal snd Ex) at 1;
    apply reached_step; constructor.
Qed.

(** Whatever git answers, the idempotence check appends exactly its query. *)
Lemma checkAlreadyMerged_trace {W} (sys : Sys W) (projectPath taskId base : string)
    (f : Frame W) :
  fr_trace (snd (checkAlreadyMerged sys projectPath taskId base f))
  = fr_trace f ++ [Exec projectPath (LogRange base (branchName taskId))].
Proof.
  unfold checkAlreadyMerged, try_catch, bind, exec.
  now destruct (execSync sys projectPath (LogRange base (branchName taskId)) (fr_world f))
    as [[out|e] w'].
Qed.

End MergeFacts.

Module BaseBranch.
Import Merge MergeObs MergeFacts Stated.

(** C5, as stated, fails: without a target and without a recorded parent
    branch, in a repository on branch develop where main exists, the handler
    resolves main, not the branch checked out. *)
Lemma current_branch_is_not_consulted :
  ~ base_branch_rule (Sample.sys Sample.on_develop) "/repo" "001" None
      (mkFrame Sample.empty_world [] false).
Proof.
  intros H. specialize (H "develop" eq_refl). vm_compute in H. discriminate H.
Qed.

(** C5, amended: the base branch is the explicit target when one is given,
    else the parent branch recorded in the plan artifact, else main when
    [git rev-parse --verify main] succeeds, else master.  The branch
    currently checked out is not a step of the resolution: it is read only
    afterwards, to check out the resolved base exactly when HEAD is another
    branch. *)
Theorem base_branch_precedence {W} (sys : Sys W) (projectPath taskId : string)
    (target : option string) (f : Frame W) :
  let base := resolved_base target (recordedParent sys projectPath taskId (fr_world f))
                (main_exists sys projectPath (fr_world f)) in
  let r := resolveBaseBranch sys projectPath taskId target f in
  let since_request :=
    drop (List.length (fr_trace f)) (fr_trace (snd (prepare sys projectPath taskId target f))) in
  fst r = Normal base
  /\ ~ In (Exec projectPath RevParseHead) (drop (List.length (fr_trace f)) (fr_trace (snd r)))
  /\ (forall out w',
        execSync sys projectPath RevParseHead (fr_world (snd r)) = (ExecOk out, w') ->
        (Js.trim out <> base -> In (Exec projectPath (Checkout base)) since_request)
        /\ (Js.trim out = base ->
            forall b, ~ In (Exec projectPath (Checkout b)) since_request)).
Proof.
  intros base r since_request.
  destruct (resolveBaseBranch_spec sys projectPath taskId target f) as (Hr & _ & Ht & _).
  fold r base in Hr, Ht.
  assert (Hpre : exists pre, fr_trace (snd r) = fr_trace f ++ pre
                             /\ Forall (fun e => e = Exec projectPath RevParseVerifyMain) pre).
  { destruct Ht as [->|(_ & _ & ->)].
    - exists []. now rewrite app_nil_r.
    - eexists [_]. split; [reflexivity | now repeat constructor]. }
  destruct Hpre as (pre & Hpre & Hverify).
  split; [exact Hr|]. split.
  { rewrite Hpre, drop_app_length. intros Hin.
    rewrite List.Forall_forall in Hverify. apply Hverify in Hin. discriminate Hin. }
  intros out w' Hhead.
  subst since_request. unfold prepare.
  destruct r as [o f1] eqn:Er. cbn [fst snd] in *. subst o.
  rewrite (bind_normal _ _ _ _ _ Er). unfold checkoutBase. rewrite bind_assoc.
  rewrite (bind_normal _ _ _ _ _ (exec_ok sys projectPath _ _ _ _ Hhead)).
  set (f2 := mkFrame w' (fr_trace f1 ++ [Exec projectPath RevParseHead]) (hasStash f1)).
  split.
  - intros Hne. apply String.eqb_neq in Hne. rewrite Hne. cbn [negb when_].
    destruct (execSync sys projectPath (Checkout base) (fr_world f2)) as [[out2|e2] w2] eqn:E2.
    + rewrite (bind_normal _ _ _ _ _ (exec__ok sys projectPath _ _ _ _ E2)).
      rewrite checkAlreadyMerged_trace. subst f2. cbn [fr_trace]. rewrite Hpre.
      rewrite <- !app_assoc, drop_app_length.
      apply in_or_app. right. right. now left.
    + rewrite (bind_thrown _ _ _ _ _ (exec__err sys projectPath _ _ _ _ E2)).
      subst f2. cbn [snd fr_trace]. rewrite Hpre.
      rewrite <- !app_assoc, drop_app_length.
      apply in_or_app. right. right. now left.
  - intros Heq b. apply String.eqb_eq in Heq. rewrite Heq. cbn [negb when_].
    rewrite bind_ret, checkAlreadyMerged_trace. subst f2. cbn [fr_trace]. rewrite Hpre.
    rewrite <- !app_assoc, drop_app_length. intros Hin.
    apply in_app_or in Hin as [Hin|Hin].
    + rewrite List.Forall_forall in Hverify. apply Hverify in Hin. discriminate Hin.
    + destruct Hin as [Hin|[Hin|[]]]; discriminate Hin.
Qed.

(** On branch develop with main present and nothing recorded, main is
    resolved and checked out. *)
Lemma base_branch_precedence_witness :
  fst (resolveBaseBranch (Sample.sys Sample.on_develop) "/repo" "001" None
         (mkFrame Sample.empty_world [] false)) = Normal "main"
  /\ In (Exec "/repo" (Checkout "main"))
       (fr_trace (snd (prepare (Sample.sys Sample.on_develop) "/repo" "001" None
                         (mkFrame Sample.empty_world [] false)))).
Proof.
  destruct (base_branch_precedence (Sample.sys Sample.on_develop) "/repo" "001" None
              (mkFrame Sample.empty_world [] false)) as (Hbase & _ & Hcheckout).
  split; [exact Hbase|].
  destruct (Hcheckout "develop" Sample.empty_world eq_refl) as [Hother _].
  assert (Hne : Js.trim "develop" <> "main") by (vm_compute; discriminate).
  exact (Hother Hne).
Defined.

End BaseBranch.

Module AlreadyMerged.
Import Obs Merge MergeObs MergeFacts SupervisorFacts ObsMore.

Section Contained.
Context {W : Type} (sys : Sys W).
Variable projectPath : string.
Variable taskId : string.

Local Abbreviation path := (planPath projectPath taskId).

Lemma reached_trans w1 w2 w3 :
  reached_by_git sys projectPath w1 w2 -> reached_by_git sys projectPath w2 w3 ->
  reached_by_git sys projectPath w1 w3.
Proof. intros H12 H23. induction H23; [exact H12 | now constructor]. Qed.

Lemma reached_exec c w : reached_by_git sys projectPath w (snd (execSync sys projectPath c w)).
Proof. repeat constructor. Qed.

Lemma reached_by c w r w' :
  execSync sys projectPath c w = (r, w') -> reached_by_git sys projectPath w w'.
Proof. intros E. change w' with (snd (r, w')). rewrite <- E. apply reached_exec. Qed.

(** A base branch that is, or gets, checked out: HEAD was read, and the
    checkout, when one was needed, succeeded. *)
Lemma checkoutBase_done base f f2 :
  checkoutBase sys projectPath base f = (Normal tt, f2) ->
  exists cmds,
    fr_trace f2 = fr_trace f ++ cmds
    /\ Forall (fun e => is_query e = true) cmds
    /\ hasStash f2 = hasStash f
    /\ reached_by_git sys projectPath (fr_world f) (fr_world f2).
Proof.
  unfold checkoutBase. intros E.
  destruct (execSync sys projectPath RevParseHead (fr_world f)) as [[out|e] w1] eqn:E1.
  - rewrite (bind_normal _ _ _ _ _ (exec_ok sys projectPath _ _ _ _ E1)) in E.
    pose proof (reached_by _ _ _ _ E1) as R1.
    destruct (negb (String.eqb (Js.trim out) base)); cbn [when_] in E.
    + set (fa := mkFrame w1 _ _) in E.
      destruct (execSync sys projectPath (Checkout base) w1) as [[out2|e2] w2] eqn:E2.
      * rewrite (exec__ok sys projectPath (Checkout base) fa out2 w2 E2) in E.
        injection E as <-. subst fa. cbn [fr_trace fr_world hasStash].
        eexists [_; _]. rewrite <- app_assoc.
        repeat split; [now repeat constructor|].
        eapply reached_trans; [exact R1 | exact (reached_by _ _ _ _ E2)].
      * rewrite (exec__err sys projectPath (Checkout base) fa e2 w2 E2) in E. discriminate E.
    + injection E as <-. eexists [_]. repeat split; [now repeat constructor | exact R1].
  - rewrite (bind_thrown _ _ _ _ _ (exec_err sys projectPath _ _ _ _ E1)) in E. discriminate E.
Qed.

(** The already-merged branch of the handler: the plan, when it can be
    read, is marked done and keeps a truthy [merged_at]. *)
Lemma finishAlreadyMerged_exact f :
  finishAlreadyMerged sys projectPath taskId f
  = (Normal (merged_response "Branch already merged"),
     mkFrame (kept_world sys path (fr_world f))
       (fr_trace f ++ kept_effects sys path (fr_world f)) (hasStash f)).
Proof.
  unfold finishAlreadyMerged, persistAlreadyMerged, kept_world, kept_effects, kept_plan.
  rewrite bind_assoc, bind_getWorld.
  destruct (readPlan sys path (fr_world f)) as [| |plan].
  - rewrite bind_ret. unfold ret. rewrite app_nil_r. now destruct f.
  - rewrite bind_ret. unfold ret. rewrite app_nil_r. now destruct f.
  - reflexivity.
Qed.

(** The whole request when it finds the branch contained. *)
Lemma contained_request target f w3 :
  finds_contained sys projectPath taskId target f w3 ->
  exists queries,
    mergeIn sys projectPath taskId target f
    = (Normal (merged_response "Branch already merged"),
       mkFrame (kept_world sys path w3)
         (fr_trace f ++ queries ++ kept_effects sys path w3) (hasStash f))
    /\ Forall (fun e => is_query e = true) queries
    /\ reached_by_git sys projectPath (fr_world f) w3.
Proof.
  intros (base & f1 & f2 & log & E1 & E2 & E3 & Htrim).
  destruct (resolveBaseBranch_spec sys projectPath taskId target f) as (_ & Hs1 & Ht1 & R1).
  rewrite E1 in Hs1, Ht1, R1. cbn [snd] in Hs1, Ht1, R1.
  destruct (checkoutBase_done base f1 f2 E2) as (cmds2 & Ht2 & Hq2 & Hs2 & R2).
  assert (Hpre : exists cmds1, fr_trace f1 = fr_trace f ++ cmds1
                               /\ Forall (fun e => is_query e = true) cmds1).
  { destruct Ht1 as [->|(_ & _ & ->)].
    - exists []. now rewrite app_nil_r.
    - eexists [_]. split; [reflexivity | now repeat constructor]. }
  destruct Hpre as (cmds1 & Ht1' & Hq1).
  assert (Hcheck : checkAlreadyMerged sys projectPath taskId base f2
                   = (Normal true,
                      mkFrame w3 (fr_trace f2
                                    ++ [Exec projectPath (LogRange base (branchName taskId))])
                        (hasStash f2))).
  { unfold checkAlreadyMerged. apply try_catch_normal.
    rewrite (bind_normal _ _ _ _ _ (exec_ok sys projectPath _ _ _ _ E3)).
    unfold ret. now rewrite Htrim. }
  exists (cmds1 ++ cmds2 ++ [Exec projectPath (LogRange base (branchName taskId))]).
  split; [|split].
  - unfold mergeIn, mergeBody. apply try_catch_normal.
    unfold prepare. rewrite bind_assoc, (bind_normal _ _ _ _ _ E1).
    rewrite bind_assoc, (bind_normal _ _ _ _ _ E2), (bind_normal _ _ _ _ _ Hcheck).
    rewrite finishAlreadyMerged_exact. cbn [fr_world fr_trace hasStash].
    rewrite Ht2, Ht1', Hs2, Hs1, <- !app_assoc. reflexivity.
  - apply Forall_app. split; [exact Hq1|]. apply Forall_app. split; [exact Hq2|].
    now repeat constructor.
  - eapply reached_trans; [|exact (reached_by _ _ _ _ E3)].
    eapply reached_trans; [exact R1 | exact R2].
Qed.

End Contained.

Lemma reached_keeps_plan {W} (sys : Sys W) projectPath file w w' :
  (forall c w0, readPlan sys file (snd (execSync sys projectPath c w0)) = readPlan sys file w0) ->
  reached_by_git sys projectPath w w' ->
  readPlan sys file w' = readPlan sys file w.
Proof.
  intros Hgit R. induction R as [|c w' _ IH]; [reflexivity|]. now rewrite Hgit.
Qed.

Lemma set_done_twice t1 t2 plan :
  t1 <> "" ->
  set_done (Js.or_else (plan_merged_at (set_done t1 plan)) t2) (set_done t1 plan)
  = set_done t1 plan.
Proof.
  intros Hne. unfold set_done at 1 3. simpl. unfold Js.or_else, Js.truthy_s.
  apply String.eqb_neq in Hne. now rewrite Hne.
Qed.

Lemma or_else_nonempty o t : t <> "" -> Js.or_else o t <> "".
Proof.
  intros Ht. unfold Js.or_else, Js.truthy_s. destruct o as [x|]; [|exact Ht].
  destruct (String.eqb x "") eqn:E; simpl; [exact Ht|]. now apply String.eqb_neq.
Qed.

Lemma queries_are_idempotent (l : list Effect) :
  Forall (fun e => is_query e = true) l ->
  Forall (fun e => is_idempotence_effect e = true) l.
Proof.
  intros H. eapply Forall_impl; [exact H|].
  intros [| | | | |cwd []| | | | |]; simpl; congruence.
Qed.

End AlreadyMerged.

Module MergeIdempotence.
Import Obs Merge MergeObs MergeFacts SupervisorFacts AlreadyMerged Stated ObsMore.

(** C4, as stated, fails: in a repository on develop whose base branch
    main cannot be checked out, the feature branch has no commit that main
    lacks, and the merge request answers a failure. *)
Lemma contained_branch_is_refused :
  ~ already_merged_rule (Sample.sys SampleMore.checkout_refused) "/repo" "001" None
      (mkFrame Sample.with_plan [] false).
Proof.
  intros H.
  specialize (H "main" (mkFrame Sample.with_plan [Exec "/repo" RevParseVerifyMain] false)
                eq_refl (fun _ => ex_intro _ "" (conj eq_refl eq_refl))).
  vm_compute in H. discriminate H.
Qed.

(** C4, amended: when a merge request finds the feature branch contained
    in the base branch it resolves (HEAD is read, the base branch is checked
    out already or its checkout succeeds, and [git log base..branch] prints
    nothing), it answers success with "Branch already merged"; it runs
    nothing but these queries and the checkout, and then writes the plan (no
    stash, no merge, no commit); the plan, when readable, is marked done with
    [merged_at] set only when it had none; and a second request in a row that
    finds the same answers the same, again without other effects, and leaves
    the plan as the first request left it. *)
Theorem already_merged_is_idempotent {W} (sys : Sys W) (projectPath taskId : string)
    (target : option string) (f0 : Frame W) (w3 : W) :
  let file := planPath projectPath taskId in
  finds_contained sys projectPath taskId target f0 w3 ->
  let r1 := mergeIn sys projectPath taskId target f0 in
  let new1 := drop (List.length (fr_trace f0)) (fr_trace (snd r1)) in
  fst r1 = Normal (merged_response "Branch already merged")
  /\ (exists queries, new1 = queries ++ kept_effects sys file w3
                      /\ Forall (fun e => is_query e = true) queries)
  /\ Forall (fun e => is_idempotence_effect e = true) new1
  /\ fr_world (snd r1) = kept_world sys file w3
  /\ hasStash (snd r1) = hasStash f0
  /\ forall w3', finds_contained sys projectPath taskId target (snd r1) w3' ->
       let r2 := mergeIn sys projectPath taskId target (snd r1) in
       let new2 := drop (List.length (fr_trace (snd r1))) (fr_trace (snd r2)) in
       fst r2 = fst r1
       /\ (exists queries, new2 = queries ++ kept_effects sys file w3'
                           /\ Forall (fun e => is_query e = true) queries)
       /\ Forall (fun e => is_idempotence_effect e = true) new2
       /\ fr_world (snd r2) = kept_world sys file w3'
       /\ ((forall p w, readPlan sys file (writePlan sys file p w) = Parsed p) ->
           (forall c w, readPlan sys file (snd (execSync sys projectPath c w))
                        = readPlan sys file w) ->
           (forall w, now sys w <> "") ->
           forall plan, readPlan sys file w3 = Parsed plan ->
             exists p, readPlan sys file (fr_world (snd r1)) = Parsed p
                       /\ readPlan sys file (fr_world (snd r2)) = Parsed p
                       /\ plan_status p = Some "done"
                       /\ (forall t, plan_merged_at plan = Some t -> t <> "" ->
                                     plan_merged_at p = Some t)
                       /\ (plan_merged_at plan = None ->
                           plan_merged_at p = Some (now sys w3))).
Proof.
  intros file Hfound r1 new1.
  destruct (contained_request sys projectPath taskId target f0 w3 Hfound)
    as (queries1 & E1 & Hq1 & R1).
  subst new1 r1. rewrite E1. cbn [fst snd fr_trace fr_world hasStash].
  rewrite drop_app_length.
  assert (Hkept : forall w, Forall (fun e => is_idempotence_effect e = true)
                              (kept_effects sys file w)).
  { intros w. unfold kept_effects. destruct (readPlan sys file w); now repeat constructor. }
  split; [reflexivity|]. split; [now exists queries1|].
  split; [apply Forall_app; split; [now apply queries_are_idempotent | apply Hkept]|].
  split; [reflexivity|]. split; [reflexivity|].
  intros w3' Hfound'.
  destruct (contained_request sys projectPath taskId target _ w3' Hfound')
    as (queries2 & E2 & Hq2 & R2).
  rewrite E2. cbn [fst snd fr_trace fr_world hasStash] in *.
  rewrite drop_app_length.
  split; [reflexivity|]. split; [now exists queries2|].
  split; [apply Forall_app; split; [now apply queries_are_idempotent | apply Hkept]|].
  split; [reflexivity|].
  intros Hrw Hgit Hnow plan Hplan.
  assert (H1 : readPlan sys file (kept_world sys file w3) = Parsed (kept_plan sys w3 plan)).
  { unfold kept_world. rewrite Hplan. apply Hrw. }
  assert (H3' : readPlan sys file w3' = Parsed (kept_plan sys w3 plan)).
  { rewrite (reached_keeps_plan sys projectPath file _ _ Hgit R2). exact H1. }
  exists (kept_plan sys w3 plan). split; [exact H1|]. split; [|split; [|split]].
  - assert (Hk : kept_world sys file w3'
                 = writePlan sys file (kept_plan sys w3' (kept_plan sys w3 plan)) w3')
      by (unfold kept_world; now rewrite H3').
    fold file. rewrite Hk, Hrw. f_equal.
    unfold kept_plan. apply set_done_twice. apply or_else_nonempty, Hnow.
  - reflexivity.
  - intros t Ht Hne. unfold kept_plan. simpl. rewrite Ht. unfold Js.or_else, Js.truthy_s.
    apply String.eqb_neq in Hne. now rewrite Hne.
  - intros Hnone. unfold kept_plan. simpl. now rewrite Hnone.
Qed.

(** Task 001, whose plan is in progress, merged twice in a repository
    where every git command succeeds with empty output. *)
Lemma already_merged_is_idempotent_witness :
  let sys := Sample.sys Sample.base_config in
  let r1 := mergeIn sys "/repo" "001" None (mkFrame Sample.with_plan [] false) in
  let r2 := mergeIn sys "/repo" "001" None (snd r1) in
  fst r1 = Normal (merged_response "Branch already merged")
  /\ fst r2 = fst r1
  /\ exists p, readPlan sys (planPath "/repo" "001") (fr_world (snd r2)) = Parsed p
               /\ plan_status p = Some "done"
               /\ plan_merged_at p = Some "2025-01-02T00:00:00Z".
Proof.
  intros sys r1 r2.
  assert (Hfound : finds_contained sys "/repo" "001" None
                     (mkFrame Sample.with_plan [] false) Sample.with_plan).
  { eexists _, _, _, _. split; [cbv; reflexivity|]. split; [cbv; reflexivity|].
    split; [cbv; reflexivity | vm_compute; reflexivity]. }
  destruct (already_merged_is_idempotent sys "/repo" "001" None
              (mkFrame Sample.with_plan [] false) Sample.with_plan Hfound)
    as (H1 & _ & _ & _ & _ & Hagain).
  assert (Hfound' : finds_contained sys "/repo" "001" None (snd r1)
                      (fr_world (snd r1))).
  { eexists _, _, _, _. split; [cbv; reflexivity|]. split; [cbv; reflexivity|].
    split; [cbv; reflexivity | vm_compute; reflexivity]. }
  destruct (Hagain (fr_world (snd r1)) Hfound') as (H2 & _ & _ & _ & Hplan).
  split; [exact H1|]. split; [exact H2|].
  assert (Hrw : forall p w, readPlan sys (planPath "/repo" "001")
                              (writePlan sys (planPath "/repo" "001") p w) = Parsed p)
    by (intros p w; reflexivity).
  assert (Hgit : forall c w, readPlan sys (planPath "/repo" "001")
                               (snd (execSync sys "/repo" c w))
                             = readPlan sys (planPath "/repo" "001") w)
    by (intros c w; reflexivity).
  assert (Hnow : forall w : Sample.World, now sys w <> "") by (intros w; discriminate).
  destruct (Hplan Hrw Hgit Hnow _ eq_refl) as (p & _ & Hp2 & Hdone & _ & Hset).
  exists p. split; [exact Hp2|]. split; [exact Hdone|]. exact (Hset eq_refl).
Defined.

End MergeIdempotence.

Module Conflicts.
Import Merge MergeObs MergeFacts Stated ObsMore.

(** C3, as stated, fails: a conflict on an allow-listed file that the base
    branch deleted (DU) is resolved by [git rm], not by taking the incoming
    version. *)
Lemma deleted_by_us_is_removed :
  ~ conflict_rule (Sample.sys (Sample.conflicted "DU .auto-claude-status")) "/repo" "001"
      (mkFrame Sample.empty_world [] false).
Proof.
  intros H.
  destruct (H _ _ _ _ eq_refl eq_refl) as [Hallowed _]; [discriminate|].
  destruct (Hallowed eq_refl) as (_ & Hin & _).
  specialize (Hin ".auto-claude-status" (or_introl eq_refl)).
  vm_compute in Hin.
  repeat (destruct Hin as [Hin|Hin]; [discriminate Hin|]). exact Hin.
Qed.

Section Resolution.
Context {W : Type} (sys : Sys W).
Variable projectPath : string.
Variable taskId : string.

Local Abbreviation exec_ := (Merge.exec_ sys projectPath).

(** An attempted command always completes, leaving its mark in the trace. *)
Lemma attempt_exec c f :
  exists f', attempt (exec_ c) f = (Normal tt, f')
             /\ fr_trace f' = fr_trace f ++ [Exec projectPath c]
             /\ hasStash f' = hasStash f.
Proof.
  unfold attempt, try_catch.
  destruct (execSync sys projectPath c (fr_world f)) as [[out|e] w'] eqn:E.
  - rewrite (exec__ok sys projectPath _ _ _ _ E). eexists. repeat split.
  - rewrite (exec__err sys projectPath _ _ _ _ E). eexists. repeat split.
Qed.

Lemma resolveLine_spec line f :
  exists f' l,
    resolveLine sys projectPath line f = (Normal tt, f')
    /\ fr_trace f' = fr_trace f ++ Exec projectPath (resolution_of line) :: l
    /\ Forall (fun e => is_resolution_effect e = true)
         (Exec projectPath (resolution_of line) :: l)
    /\ hasStash f' = hasStash f.
Proof.
  unfold resolveLine, resolution_of.
  destruct (String.eqb (Js.slice_to 2 line) "DU"); simpl.
  { destruct (attempt_exec (GitRm (conflictFile line)) f) as (f' & E & Ht & Hs).
    exists f', []. now repeat split; try repeat constructor. }
  destruct (String.eqb (Js.slice_to 2 line) "UD"); simpl.
  { destruct (attempt_exec (GitRm (conflictFile line)) f) as (f' & E & Ht & Hs).
    exists f', []. now repeat split; try repeat constructor. }
  unfold attempt, try_catch.
  destruct (execSync sys projectPath (CheckoutTheirs (conflictFile line)) (fr_world f))
    as [[out|e] w'] eqn:E.
  - rewrite (bind_normal _ _ _ _ _ (exec__ok sys projectPath _ _ _ _ E)).
    destruct (execSync sys projectPath (GitAdd (conflictFile line)) w') as [[out2|e2] w2] eqn:E2.
    + erewrite exec__ok by exact E2. simpl. eexists _, [_]. rewrite <- app_assoc.
      now repeat split; try repeat constructor.
    + erewrite exec__err by exact E2. simpl. eexists _, [_]. rewrite <- app_assoc.
      now repeat split; try repeat constructor.
  - rewrite (bind_thrown _ _ _ _ _ (exec__err sys projectPath _ _ _ _ E)).
    eexists _, []. now repeat split; try repeat constructor.
Qed.

Lemma forEach_resolve lines f :
  exists f' l,
    forEach lines (resolveLine sys projectPath) f = (Normal tt, f')
    /\ fr_trace f' = fr_trace f ++ l
    /\ Forall (fun e => is_resolution_effect e = true) l
    /\ (forall line, In line lines -> In (Exec projectPath (resolution_of line)) l)
    /\ hasStash f' = hasStash f.
Proof.
  revert f. induction lines as [|line lines IH]; intros f.
  - exists f, []. simpl. rewrite app_nil_r. repeat split; [constructor | intros ? []].
  - destruct (resolveLine_spec line f) as (f1 & l1 & E1 & Ht1 & Hr1 & Hs1).
    destruct (IH f1) as (f2 & l2 & E2 & Ht2 & Hr2 & Hin2 & Hs2).
    exists f2, ((Exec projectPath (resolution_of line) :: l1) ++ l2).
    split; [simpl; now rewrite (bind_normal _ _ _ _ _ E1)|].
    split; [now rewrite Ht2, Ht1, <- app_assoc|].
    split; [now apply Forall_app|].
    split; [|congruence].
    intros x [<-|Hx]; [now left|]. apply in_or_app. right. now apply Hin2.
Qed.

Lemma mergeIn_at_merge target f0 f1 f :
  prepare sys projectPath taskId target f0 = (Normal false, f1) ->
  housekeeping sys projectPath taskId f1 = (Normal tt, f) ->
  mergeIn sys projectPath taskId target f0
  = try_catch (conclude sys projectPath taskId) (mergeCatch sys projectPath) f.
Proof.
  intros E1 E2. unfold mergeIn, mergeBody, try_catch.
  rewrite (bind_normal _ _ _ _ _ E1). now rewrite (bind_normal _ _ _ _ _ E2).
Qed.

(** The frame in which the failed merge is analysed. *)
Lemma performMerge_failed f e w1 :
  execSync sys projectPath (GitMerge (branchName taskId)) (fr_world f) = (ExecErr e, w1) ->
  performMerge sys projectPath taskId f
  = onMergeError sys projectPath taskId e
      (mkFrame w1 (fr_trace f ++ [Exec projectPath (GitMerge (branchName taskId))])
         (hasStash f)).
Proof.
  intros E. unfold performMerge. apply try_catch_thrown. now apply exec__err.
Qed.

(** Conflicts confined to the allow-list: every line is resolved, the
    commit is attempted, and the block completes. *)
Lemma onMergeError_resolves f e status w2 :
  execSync sys projectPath StatusPorcelain (fr_world f) = (ExecOk status, w2) ->
  hasSubmoduleConflict e = false ->
  canAutoResolve (map conflictFile (conflictLinesOf status)) = true ->
  exists f' l,
    onMergeError sys projectPath taskId e f = (Normal tt, f')
    /\ fr_trace f'
       = fr_trace f ++ Exec projectPath StatusPorcelain
           :: l ++ [Exec projectPath (Commit ("Merge " +:+ branchName taskId))]
    /\ (forall line, In line (conflictLinesOf status) ->
                     In (Exec projectPath (resolution_of line)) l)
    /\ Forall (fun x => is_resolution_effect x = true) l
    /\ hasStash f' = hasStash f.
Proof.
  intros E Hsub Hauto. unfold onMergeError.
  rewrite (bind_normal _ _ _ _ _ (exec_ok sys projectPath _ _ _ _ E)).
  rewrite Hauto, Hsub. cbn [orb].
  destruct (forEach_resolve (conflictLinesOf status)
              (mkFrame w2 (fr_trace f ++ [Exec projectPath StatusPorcelain]) (hasStash f)))
    as (f1 & l & E1 & Ht1 & Hres & Hin & Hs1).
  cbn [fr_trace hasStash] in Ht1, Hs1.
  rewrite (bind_normal _ _ _ _ _ E1). cbn [when_]. rewrite bind_ret.
  destruct (attempt_exec (Commit ("Merge " +:+ branchName taskId)) f1) as (f2 & E2 & Ht2 & Hs2).
  exists f2, l. split; [exact E2|].
  split; [|split; [exact Hin | split; [exact Hres | congruence]]].
  rewrite Ht2, Ht1. simpl. now rewrite <- !app_assoc.
Qed.

(** Any other conflict: the merge error is rethrown at once. *)
Lemma onMergeError_rethrows f e status w2 :
  execSync sys projectPath StatusPorcelain (fr_world f) = (ExecOk status, w2) ->
  hasSubmoduleConflict e = false ->
  map conflictFile (conflictLinesOf status) <> [] ->
  canAutoResolve (map conflictFile (conflictLinesOf status)) = false ->
  onMergeError sys projectPath taskId e f
  = (Thrown e, mkFrame w2 (fr_trace f ++ [Exec projectPath StatusPorcelain]) (hasStash f)).
Proof.
  intros E Hsub Hne Hauto. unfold onMergeError.
  rewrite (bind_normal _ _ _ _ _ (exec_ok sys projectPath _ _ _ _ E)).
  rewrite Hauto, Hsub. cbn [orb].
  destruct (map conflictFile (conflictLinesOf status)); [contradiction | reflexivity].
Qed.

(** The handler's [catch]: the failure is logged, a stash pop is attempted
    when a stash was made, and the error is answered. *)
Lemma mergeCatch_spec e f :
  exists f',
    mergeCatch sys projectPath e f = (Normal (failed_response e), f')
    /\ fr_trace f'
       = fr_trace f ++ ConsoleError "[Merge] Error:"
           :: (if hasStash f then [Exec projectPath StashPop] else []).
Proof.
  unfold mergeCatch. rewrite bind_record, bind_getHasStash. cbn [hasStash].
  destruct (hasStash f) eqn:Hs; cbn [when_].
  - destruct (attempt_exec StashPop
                (mkFrame (fr_world f) (fr_trace f ++ [ConsoleError "[Merge] Error:"]) true))
      as (f' & E & Ht & _).
    rewrite (bind_normal _ _ _ _ _ E). eexists. split; [reflexivity|].
    rewrite Ht. simpl. now rewrite <- app_assoc.
  - rewrite bind_ret. eexists. split; reflexivity.
Qed.

Lemma restoreStash_spec f :
  exists f',
    restoreStash sys projectPath f = (Normal tt, f')
    /\ fr_trace f' = fr_trace f ++ restore_effects sys projectPath (hasStash f) (fr_world f)
    /\ hasStash f' = hasStash f.
Proof.
  unfold restoreStash, restore_effects. rewrite bind_getHasStash.
  destruct (hasStash f) eqn:Hs; cbn [when_].
  - destruct (execSync sys projectPath StashPop (fr_world f)) as [[out|e] w1] eqn:E;
      cbn [fst].
    + erewrite try_catch_normal by (eapply exec__ok; exact E).
      eexists. repeat split. exact Hs.
    + erewrite try_catch_thrown by (eapply exec__err; exact E).
      destruct (attempt_exec StashDrop
                  (mkFrame w1 (fr_trace f ++ [Exec projectPath StashPop]) (hasStash f)))
        as (f' & E' & Ht & Hs').
      exists f'. split; [exact E'|]. rewrite Ht, Hs'. cbn [fr_trace hasStash].
      now rewrite <- app_assoc.
  - exists f. unfold ret. now rewrite app_nil_r.
Qed.

Lemma persistMerged_spec f :
  exists f',
    persistMerged sys projectPath taskId f = (Normal tt, f')
    /\ fr_trace f' = fr_trace f ++ done_effects sys (planPath projectPath taskId) (fr_world f)
    /\ hasStash f' = hasStash f
    /\ match readPlan sys (planPath projectPath taskId) (fr_world f) with
       | Parsed plan =>
           fr_world f' = writePlan sys (planPath projectPath taskId) (set_done (now sys (fr_world f)) plan) (fr_world f)
       | _ => fr_world f' = fr_world f
       end.
Proof.
  unfold persistMerged, done_effects. rewrite bind_getWorld.
  destruct (readPlan sys (planPath projectPath taskId) (fr_world f)) as [| |plan].
  - exists f. unfold ret. now rewrite app_nil_r.
  - exists f. unfold ret. now rewrite app_nil_r.
  - eexists. unfold storePlan, bind, changeWorld, record. repeat split.
Qed.

(** From the frame [f] after the merge itself, the request runs to its
    success answer: the snapshot is restored, then the plan persisted. *)
Lemma finish_spec f :
  exists f2 f',
    (restoreStash sys projectPath ;; persistMerged sys projectPath taskId ;;
     ret (merged_response "Merge completed successfully")) f
    = (Normal (merged_response "Merge completed successfully"), f')
    /\ fr_trace f2 = fr_trace f ++ restore_effects sys projectPath (hasStash f) (fr_world f)
    /\ fr_trace f' = fr_trace f2 ++ done_effects sys (planPath projectPath taskId) (fr_world f2)
    /\ match readPlan sys (planPath projectPath taskId) (fr_world f2) with
       | Parsed plan =>
           fr_world f'
           = writePlan sys (planPath projectPath taskId) (set_done (now sys (fr_world f2)) plan) (fr_world f2)
       | _ => fr_world f' = fr_world f2
       end.
Proof.
  destruct (restoreStash_spec f) as (f2 & E2 & Ht2 & _).
  destruct (persistMerged_spec f2) as (f' & E' & Ht' & _ & Hw').
  exists f2, f'. rewrite (bind_normal _ _ _ _ _ E2), (bind_normal _ _ _ _ _ E').
  repeat split; assumption.
Qed.

Lemma persistMerged_exact f :
  persistMerged sys projectPath taskId f
  = (Normal tt,
     mkFrame (done_world sys (planPath projectPath taskId) (fr_world f))
       (fr_trace f ++ done_effects sys (planPath projectPath taskId) (fr_world f))
       (hasStash f)).
Proof.
  unfold persistMerged, done_effects, done_world. rewrite bind_getWorld.
  destruct (readPlan sys (planPath projectPath taskId) (fr_world f)) as [| |plan].
  - unfold ret. rewrite app_nil_r. now destruct f.
  - unfold ret. rewrite app_nil_r. now destruct f.
  - reflexivity.
Qed.

(** The tail of a successful request as a function of the frame in which
    the merge, resolved or not, has completed. *)
Lemma finish_exact (r : Response) f :
  (restoreStash sys projectPath ;; persistMerged sys projectPath taskId ;; ret r) f
  = (Normal r,
     mkFrame
       (done_world sys (planPath projectPath taskId)
          (restored_world sys projectPath (hasStash f) (fr_world f)))
       (fr_trace f ++ restore_effects sys projectPath (hasStash f) (fr_world f)
          ++ done_effects sys (planPath projectPath taskId)
               (restored_world sys projectPath (hasStash f) (fr_world f)))
       (hasStash f)).
Proof.
  assert (Hrestore : restoreStash sys projectPath f
                     = (Normal tt,
                        mkFrame (restored_world sys projectPath (hasStash f) (fr_world f))
                          (fr_trace f
                             ++ restore_effects sys projectPath (hasStash f) (fr_world f))
                          (hasStash f))).
  { unfold restoreStash, restore_effects, restored_world. rewrite bind_getHasStash.
    destruct f as [w t b]. cbn [hasStash fr_world fr_trace].
    destruct b; cbn [when_]; [|unfold ret; now rewrite app_nil_r].
    destruct (execSync sys projectPath StashPop w) as [[out|e] w1] eqn:E; cbn [fst].
    - apply try_catch_normal.
      exact (exec__ok sys projectPath StashPop (mkFrame w t true) out w1 E).
    - rewrite (try_catch_thrown _ _ _ _ _
                 (exec__err sys projectPath StashPop (mkFrame w t true) e w1 E)).
      unfold attempt, try_catch, exec_, bind, exec. cbn [fr_world fr_trace hasStash].
      destruct (execSync sys projectPath StashDrop w1) as [[out2|e2] w2];
        cbn [snd]; unfold ret; now rewrite <- app_assoc. }
  rewrite (bind_normal _ _ _ _ _ Hrestore).
  set (f2 := mkFrame _ _ _).
  assert (Hpersist : persistMerged sys projectPath taskId f2
                     = (Normal tt,
                        mkFrame (done_world sys (planPath projectPath taskId) (fr_world f2))
                          (fr_trace f2
                             ++ done_effects sys (planPath projectPath taskId) (fr_world f2))
                          (hasStash f2))).
  { unfold persistMerged, done_effects, done_world. rewrite bind_getWorld.
    destruct (readPlan sys (planPath projectPath taskId) (fr_world f2)) as [| |plan].
    - unfold ret. rewrite app_nil_r. now destruct f2.
    - unfold ret. rewrite app_nil_r. now destruct f2.
    - reflexivity. }
  rewrite (bind_normal _ _ _ _ _ Hpersist). unfold ret. subst f2.
  cbn [fr_world fr_trace hasStash]. now rewrite <- app_assoc.
Qed.

End Resolution.

(** C3, amended: when the merge fails with conflicts and its error message
    does not mention a submodule, then: if there is at least one conflicting
    path and all of them are on the allow-list, each conflict line gets its
    resolving command ([git checkout --theirs] for a path modified or added
    on both sides, [git rm] for a path deleted on one side; nothing but these
    and [git add] runs between the status query and the commit), a commit is
    attempted, and the request goes on exactly as after a clean merge: the
    stash is popped if one was made (dropped when the pop fails), a readable
    plan is written done with [merged_at], and success is answered; if some
    conflicting path is outside the allow-list, nothing is resolved or
    committed, the merge error is answered to the caller as a failure, and
    when a stash had been created a [git stash pop] is attempted before the
    answer. *)
Theorem conflict_handling {W} (sys : Sys W) (projectPath taskId : string)
    (target : option string) (f0 f1 f : Frame W) (e status : string) (w1 w2 : W) :
  prepare sys projectPath taskId target f0 = (Normal false, f1) ->
  housekeeping sys projectPath taskId f1 = (Normal tt, f) ->
  execSync sys projectPath (GitMerge (branchName taskId)) (fr_world f) = (ExecErr e, w1) ->
  execSync sys projectPath StatusPorcelain w1 = (ExecOk status, w2) ->
  hasSubmoduleConflict e = false ->
  let lines := conflictLinesOf status in
  let files := map conflictFile lines in
  let r := mergeIn sys projectPath taskId target f0 in
  let new := drop (List.length (fr_trace f)) (fr_trace (snd r)) in
  (canAutoResolve files = true ->
   fst r = Normal (merged_response "Merge completed successfully")
   /\ (forall line, In line lines -> In (Exec projectPath (resolution_of line)) new)
   /\ In (Exec projectPath (Commit ("Merge " +:+ branchName taskId))) new
   /\ (let resolved := snd (performMerge sys projectPath taskId f) in
       let restored := restored_world sys projectPath (hasStash f) (fr_world resolved) in
       (exists l,
           fr_trace resolved
           = fr_trace f ++ Exec projectPath (GitMerge (branchName taskId))
               :: Exec projectPath StatusPorcelain
               :: l ++ [Exec projectPath (Commit ("Merge " +:+ branchName taskId))]
           /\ Forall (fun x => is_resolution_effect x = true) l)
       /\ snd r
          = mkFrame (done_world sys (planPath projectPath taskId) restored)
              (fr_trace resolved
                 ++ restore_effects sys projectPath (hasStash f) (fr_world resolved)
                 ++ done_effects sys (planPath projectPath taskId) restored)
              (hasStash f)))
  /\ (files <> [] -> canAutoResolve files = false ->
      fst r = Normal (failed_response e)
      /\ Forall (fun x => is_resolution_effect x = false) new
      /\ ~ In (Exec projectPath (Commit ("Merge " +:+ branchName taskId))) new
      /\ (hasStash f = true -> In (Exec projectPath StashPop) new)).
Proof.
  intros Hprep Hhk Hmerge Hstatus Hsub lines files r new.
  subst r new. rewrite (mergeIn_at_merge sys projectPath taskId target f0 f1 f Hprep Hhk).
  pose proof (performMerge_failed sys projectPath taskId f e w1 Hmerge) as Hpm.
  set (fa := mkFrame w1 (fr_trace f ++ [Exec projectPath (GitMerge (branchName taskId))])
               (hasStash f)) in Hpm.
  split.
  - intros Hauto.
    destruct (onMergeError_resolves sys projectPath taskId fa e status w2 Hstatus Hsub Hauto)
      as (fb & l & Eb & Htb & Hin & Hres & Hsb).
    pose proof (eq_trans Hpm Eb) as Hdone. rewrite Hdone. cbn [snd].
    cbn [hasStash fa] in Hsb.
    assert (Hrun : try_catch (conclude sys projectPath taskId) (mergeCatch sys projectPath) f
                   = (Normal (merged_response "Merge completed successfully"),
                      mkFrame
                        (done_world sys (planPath projectPath taskId)
                           (restored_world sys projectPath (hasStash f) (fr_world fb)))
                        (fr_trace fb
                           ++ restore_effects sys projectPath (hasStash f) (fr_world fb)
                           ++ done_effects sys (planPath projectPath taskId)
                                (restored_world sys projectPath (hasStash f) (fr_world fb)))
                        (hasStash f))).
    { apply try_catch_normal. unfold conclude.
      rewrite (bind_normal _ _ _ _ _ Hdone).
      rewrite (finish_exact sys projectPath taskId _ fb). now rewrite Hsb. }
    rewrite Hrun. cbn [fst snd fr_trace].
    assert (Htb' : fr_trace fb
                   = fr_trace f ++ Exec projectPath (GitMerge (branchName taskId))
                       :: Exec projectPath StatusPorcelain
                       :: l ++ [Exec projectPath (Commit ("Merge " +:+ branchName taskId))]).
    { rewrite Htb. subst fa. cbn [fr_trace]. now rewrite <- app_assoc. }
    split; [reflexivity|].
    assert (Hnew : exists rest,
               drop (List.length (fr_trace f))
                 (fr_trace fb
                    ++ restore_effects sys projectPath (hasStash f) (fr_world fb)
                    ++ done_effects sys (planPath projectPath taskId)
                         (restored_world sys projectPath (hasStash f) (fr_world fb)))
               = Exec projectPath (GitMerge (branchName taskId))
                   :: Exec projectPath StatusPorcelain
                   :: l ++ Exec projectPath (Commit ("Merge " +:+ branchName taskId)) :: rest).
    { eexists. rewrite Htb'. rewrite <- !app_assoc. rewrite drop_app_length.
      cbn [app]. rewrite <- !app_assoc. reflexivity. }
    destruct Hnew as (rest & ->).
    split; [|split; [|split]].
    + intros line Hline. right. right. apply in_or_app. left. now apply Hin.
    + right. right. apply in_or_app. right. now left.
    + exists l. split; [exact Htb' | exact Hres].
    + reflexivity.
  - intros Hne Hauto.
    pose proof (onMergeError_rethrows sys projectPath taskId fa e status w2
                  Hstatus Hsub Hne Hauto) as Eb.
    destruct (mergeCatch_spec sys projectPath e
                (mkFrame w2 (fr_trace fa ++ [Exec projectPath StatusPorcelain]) (hasStash fa)))
      as (fc & Ec & Htc).
    assert (Hrun : try_catch (conclude sys projectPath taskId) (mergeCatch sys projectPath) f
                   = (Normal (failed_response e), fc)).
    { erewrite try_catch_thrown; [exact Ec|]. unfold conclude.
      apply bind_thrown. exact (eq_trans Hpm Eb). }
    rewrite Hrun. cbn [fst snd].
    assert (Hnew : drop (List.length (fr_trace f)) (fr_trace fc)
                   = Exec projectPath (GitMerge (branchName taskId))
                       :: Exec projectPath StatusPorcelain
                       :: ConsoleError "[Merge] Error:"
                       :: (if hasStash f then [Exec projectPath StashPop] else [])).
    { rewrite Htc. subst fa. cbn [fr_trace hasStash].
      rewrite <- !app_assoc. now rewrite drop_app_length. }
    rewrite Hnew. split; [reflexivity|].
    destruct (hasStash f); (split; [now repeat constructor|]); split.
    + intros [H|[H|[H|[H|[]]]]]; discriminate H.
    + intros _. right. right. right. now left.
    + intros [H|[H|[H|[]]]]; discriminate H.
    + discriminate.
Qed.

(** The two cases on a repository with uncommitted changes: a conflict on
    an allow-listed file, resolved, after which the stash is popped and the
    plan written done; and a conflict on a source file. *)
Lemma conflict_handling_witness :
  (let r := mergeIn (Sample.sys (Sample.conflicted "UU .auto-claude-status")) "/repo" "001"
              None (mkFrame Sample.with_plan [] false) in
   fst r = Normal (merged_response "Merge completed successfully")
   /\ drop 9 (fr_trace (snd r))
      = [Exec "/repo" (GitMerge "auto-claude/001");
         Exec "/repo" StatusPorcelain;
         Exec "/repo" (CheckoutTheirs ".auto-claude-status");
         Exec "/repo" (GitAdd ".auto-claude-status");
         Exec "/repo" (Commit "Merge auto-claude/001");
         Exec "/repo" StashPop;
         WritePlan (planPath "/repo" "001")
           (set_done "2025-01-02T00:00:00Z"
              (Sample.plan_of (Some "in_progress") None ["completed"; "pending"]))])
  /\ fst (mergeIn (Sample.sys (Sample.conflicted "UU src/app.ts")) "/repo" "001" None
            (mkFrame Sample.empty_world [] false))
     = Normal (failed_response "CONFLICT (content): Merge conflict").
Proof.
  split.
  - edestruct (conflict_handling (Sample.sys (Sample.conflicted "UU .auto-claude-status"))
                 "/repo" "001" None (mkFrame Sample.with_plan [] false)) as [Hallowed _].
    + cbv. reflexivity.
    + cbv. reflexivity.
    + cbv. reflexivity.
    + cbv. reflexivity.
    + vm_compute. reflexivity.
    + assert (Hauto : canAutoResolve
                        (map conflictFile (conflictLinesOf "UU .auto-claude-status")) = true)
        by (vm_compute; reflexivity).
      destruct (Hallowed Hauto) as [Hanswer _].
      split; [exact Hanswer | vm_compute; reflexivity].
  - edestruct (conflict_handling (Sample.sys (Sample.conflicted "UU src/app.ts"))
                 "/repo" "001" None (mkFrame Sample.empty_world [] false)) as [_ Hother].
    + cbv. reflexivity.
    + cbv. reflexivity.
    + cbv. reflexivity.
    + cbv. reflexivity.
    + vm_compute. reflexivity.
    + assert (Hsome : map conflictFile (conflictLinesOf "UU src/app.ts") <> [])
        by (vm_compute; discriminate).
      assert (Hauto : canAutoResolve (map conflictFile (conflictLinesOf "UU src/app.ts"))
                      = false)
        by (vm_compute; reflexivity).
      destruct (Hother Hsome Hauto) as [Hanswer _]. exact Hanswer.
Defined.

End Conflicts.

(** ** A plan is written only over a plan *)

Module PlanAbsent.
Import Obs Merge MergeObs MergeFacts SupervisorFacts StartFacts ObsMore Stated.

Section Keeps.
Context {W : Type} (sys : Sys W).
Variable projectPath : string.
Variable taskId : string.
Variable t0 : list Effect.

Local Abbreviation file := (planPath projectPath taskId).
Local Abbreviation unwritten := (ObsMore.unwritten (W := W) t0).

Lemma unwritten_step (f : Frame W) w' e b :
  unwritten f -> is_write_plan e = false ->
  unwritten (mkFrame w' (fr_trace f ++ [e]) b).
Proof.
  intros (l & Hl & Hq) He. exists (l ++ [e]). simpl. rewrite Hl, <- app_assoc.
  split; [reflexivity|]. apply Forall_app. split; [exact Hq | now repeat constructor].
Qed.

Lemma keeps_exec c : preserves unwritten (exec sys projectPath c).
Proof.
  intros f Hf. unfold exec.
  destruct (execSync sys projectPath c (fr_world f)) as [[out|e] w']; simpl;
    now apply unwritten_step.
Qed.

Lemma keeps_exec_ c : preserves unwritten (exec_ sys projectPath c).
Proof.
  unfold exec_. apply preserves_bind; [apply keeps_exec | intros; apply preserves_ret].
Qed.

Lemma keeps_record e : is_write_plan e = false -> preserves unwritten (record e).
Proof. intros He f Hf. unfold record. simpl. now apply unwritten_step. Qed.

Lemma keeps_changeWorld g : preserves unwritten (changeWorld g : M W unit).
Proof. intros f Hf. exact Hf. Qed.

Lemma keeps_getWorld : preserves unwritten (getWorld : M W W).
Proof. intros f Hf. exact Hf. Qed.

Lemma keeps_getHasStash : preserves unwritten (getHasStash : M W bool).
Proof. intros f Hf. exact Hf. Qed.

Lemma keeps_setHasStash b : preserves unwritten (setHasStash b : M W unit).
Proof. intros f Hf. exact Hf. Qed.

Create HintDb merge_blocks.

Hint Unfold prepare housekeeping resolveBaseBranch checkoutBase checkAlreadyMerged
  stashChanges ensureGitignore cleanTransient removeUntrackedSpecDir performMerge
  onMergeError resolveLine resolveSubmodules restoreStash mergeCatch attempt : merge_blocks.

Ltac keeps_step :=
  first
    [ apply preserves_ret
    | apply preserves_throw
    | apply keeps_exec
    | apply keeps_exec_
    | apply keeps_getWorld
    | apply keeps_getHasStash
    | apply keeps_setHasStash
    | apply keeps_record; reflexivity
    | apply keeps_changeWorld
    | apply preserves_when
    | apply preserves_forEach; intros ?
    | apply preserves_bind; [|intros ?]
    | apply preserves_try_catch; [|intros ?]
    | match goal with
      | |- preserves _ (if ?b then _ else _) => destruct b
      | |- preserves _ (match ?x with _ => _ end) => destruct x
      end ].

(** Everything the request does outside its two persistence steps leaves
    the plan unwritten. *)
Lemma keeps_prepare target : preserves unwritten (prepare sys projectPath taskId target).
Proof. autounfold with merge_blocks. repeat keeps_step. Qed.

Lemma keeps_housekeeping : preserves unwritten (housekeeping sys projectPath taskId).
Proof. autounfold with merge_blocks. repeat keeps_step. Qed.

Lemma keeps_performMerge : preserves unwritten (performMerge sys projectPath taskId).
Proof. autounfold with merge_blocks. repeat keeps_step. Qed.

Lemma keeps_restoreStash : preserves unwritten (restoreStash sys projectPath).
Proof. autounfold with merge_blocks. repeat keeps_step. Qed.

Lemma keeps_mergeCatch e : preserves unwritten (mergeCatch sys projectPath e).
Proof. autounfold with merge_blocks. repeat keeps_step. Qed.

End Keeps.

Section Request.
Context {W : Type} (sys : Sys W).
Variable projectPath : string.
Variable taskId : string.
Variable target : option string.

Local Abbreviation file := (planPath projectPath taskId).

Lemma unwritten_refl (f : Frame W) : ObsMore.unwritten (fr_trace f) f.
Proof. exists []. now rewrite app_nil_r. Qed.

(** Up to a persistence step nothing is written. *)
Lemma reached_unwritten f0 fp :
  reaches_persistence sys projectPath taskId target f0 fp ->
  ObsMore.unwritten (fr_trace f0) fp.
Proof.
  intros [E|(f1 & f2 & f3 & E1 & E2 & E3 & E4)].
  - pose proof (keeps_prepare sys projectPath taskId (fr_trace f0) target f0
                  (unwritten_refl f0)) as H.
    now rewrite E in H.
  - pose proof (keeps_prepare sys projectPath taskId (fr_trace f0) target f0
                  (unwritten_refl f0)) as H1.
    rewrite E1 in H1.
    pose proof (keeps_housekeeping sys projectPath taskId (fr_trace f0) f1 H1) as H2.
    rewrite E2 in H2.
    pose proof (keeps_performMerge sys projectPath taskId (fr_trace f0) f2 H2) as H3.
    rewrite E3 in H3.
    pose proof (keeps_restoreStash sys projectPath (fr_trace f0) f3 H3) as H4.
    now rewrite E4 in H4.
Qed.

(** At a persistence step the plan is written exactly when it can be read,
    as the last effect of the request, and success is answered either way. *)
Lemma reached_persists f0 fp :
  reaches_persistence sys projectPath taskId target f0 fp ->
  let r := mergeIn sys projectPath taskId target f0 in
  (exists msg, fst r = Normal (merged_response msg))
  /\ match readPlan sys file (fr_world fp) with
     | Parsed plan =>
         exists merged,
           snd r = mkFrame (writePlan sys file (set_done merged plan) (fr_world fp))
                     (fr_trace fp ++ [WritePlan file (set_done merged plan)]) (hasStash fp)
     | _ => snd r = fp
     end.
Proof.
  intros [E|(f1 & f2 & f3 & E1 & E2 & E3 & E4)] r; subst r.
  - assert (Hrun : mergeIn sys projectPath taskId target f0
                   = finishAlreadyMerged sys projectPath taskId fp).
    { unfold mergeIn, mergeBody. rewrite AlreadyMerged.finishAlreadyMerged_exact.
      apply try_catch_normal. rewrite (bind_normal _ _ _ _ _ E).
      apply AlreadyMerged.finishAlreadyMerged_exact. }
    rewrite Hrun, AlreadyMerged.finishAlreadyMerged_exact. cbn [fst snd].
    split; [eauto|]. unfold kept_world, kept_effects.
    destruct (readPlan sys file (fr_world fp)) as [| |plan].
    + rewrite app_nil_r. now destruct fp.
    + rewrite app_nil_r. now destruct fp.
    + eexists. reflexivity.
  - rewrite (Conflicts.mergeIn_at_merge sys projectPath taskId target f0 f1 f2 E1 E2).
    assert (Hrun : conclude sys projectPath taskId f2
                   = (Normal (merged_response "Merge completed successfully"),
                      mkFrame (done_world sys file (fr_world fp))
                        (fr_trace fp ++ done_effects sys file (fr_world fp)) (hasStash fp))).
    { unfold conclude. rewrite (bind_normal _ _ _ _ _ E3), (bind_normal _ _ _ _ _ E4).
      now rewrite (bind_normal _ _ _ _ _ (Conflicts.persistMerged_exact sys projectPath taskId fp)). }
    rewrite (try_catch_normal _ _ _ _ _ Hrun). cbn [fst snd].
    split; [eauto|]. unfold done_world, done_effects.
    destruct (readPlan sys file (fr_world fp)) as [| |plan].
    + rewrite app_nil_r. now destruct fp.
    + rewrite app_nil_r. now destruct fp.
    + eexists. reflexivity.
Qed.

(** A request that reaches no persistence step writes nothing. *)
Lemma unreached_unwritten f0 :
  (forall fp, ~ reaches_persistence sys projectPath taskId target f0 fp) ->
  ObsMore.unwritten (fr_trace f0) (snd (mergeIn sys projectPath taskId target f0)).
Proof.
  intros Hnot.
  pose proof (keeps_prepare sys projectPath taskId (fr_trace f0) target f0
                (unwritten_refl f0)) as H1.
  destruct (prepare sys projectPath taskId target f0) as [[[|]|e] f1] eqn:E1;
    cbn [snd] in H1.
  - exfalso. apply (Hnot f1). now left.
  - pose proof (keeps_housekeeping sys projectPath taskId (fr_trace f0) f1 H1) as H2.
    destruct (housekeeping sys projectPath taskId f1) as [[[]|e] f2] eqn:E2; cbn [snd] in H2.
    + rewrite (Conflicts.mergeIn_at_merge sys projectPath taskId target f0 f1 f2 E1 E2).
      pose proof (keeps_performMerge sys projectPath taskId (fr_trace f0) f2 H2) as H3.
      destruct (performMerge sys projectPath taskId f2) as [[[]|e] f3] eqn:E3;
        cbn [snd] in H3.
      * pose proof (keeps_restoreStash sys projectPath (fr_trace f0) f3 H3) as H4.
        destruct (restoreStash sys projectPath f3) as [[[]|e] f4] eqn:E4; cbn [snd] in H4.
        { exfalso. apply (Hnot f4). right. now exists f1, f2, f3. }
        assert (Hthrown : conclude sys projectPath taskId f2 = (Thrown e, f4)).
        { unfold conclude. rewrite (bind_normal _ _ _ _ _ E3).
          now apply bind_thrown. }
        rewrite (try_catch_thrown _ _ _ _ _ Hthrown).
        now apply keeps_mergeCatch.
      * assert (Hthrown : conclude sys projectPath taskId f2 = (Thrown e, f3)).
        { unfold conclude. now apply bind_thrown. }
        rewrite (try_catch_thrown _ _ _ _ _ Hthrown).
        now apply keeps_mergeCatch.
    + assert (Hthrown : mergeBody sys projectPath taskId target f0 = (Thrown e, f2)).
      { unfold mergeBody. rewrite (bind_normal _ _ _ _ _ E1). now apply bind_thrown. }
      unfold mergeIn. rewrite (try_catch_thrown _ _ _ _ _ Hthrown).
      now apply keeps_mergeCatch.
  - assert (Hthrown : mergeBody sys projectPath taskId target f0 = (Thrown e, f1)).
    { unfold mergeBody. now apply bind_thrown. }
    unfold mergeIn. rewrite (try_catch_thrown _ _ _ _ _ Hthrown).
    now apply keeps_mergeCatch.
Qed.

End Request.

(** C10, as stated, fails: task 001 has no plan file when its merge is
    requested, the merged branch carries one, and the request writes it
    done. *)
Lemma merged_in_plan_is_written :
  ~ plan_stays_absent_rule SampleMore.merge_brings_plan "/repo" "001" None
      (mkFrame Sample.empty_world [] false).
Proof.
  intros H. destruct (H eq_refl) as [Habsent _]. vm_compute in Habsent. discriminate Habsent.
Qed.

(** C10, amended: each persistence step tests for the plan file at the
    moment it runs and is skipped silently when the file is absent then.
    For start, with the plan absent once the worker is spawned and the branch
    read: success is answered, in_progress published, nothing written and
    the world left as it was at the test.  For the exit callback, with the
    plan absent: the exit and statusChange events are published, nothing is
    written and the world is unchanged.  For merge: the plan is written at
    most once, as the last effect, at one of the two persistence steps, and
    there exactly when it can be read; with the plan absent at that step the
    request ends in the frame in which it tested, and answers success all the
    same; a request that reaches no persistence step writes nothing.  So no
    write of these handlers brings a plan into existence; a plan that the
    merge itself brings in is there when the step tests, and is marked
    done. *)
Theorem absent_plan_is_skipped {W} (sys : Sys W) (taskId projectId : string) (force : bool)
    (code : option Z) (target : option string) (s : Server W) (project : Project) :
  let projectPath := project_path project in
  let file := planPathOf projectPath taskId in
  findProject sys projectId (world s) = Some project ->
  (forall autoBuildPath,
      getAutoBuildPath sys (world s) = Some autoBuildPath ->
      readPlan sys file (world_at_persist sys taskId projectPath autoBuildPath force s)
      = Missing ->
      let r := start sys taskId projectId force s in
      fst r = ok_response
      /\ world (snd r) = world_at_persist sys taskId projectPath autoBuildPath force s
      /\ Forall (fun e => is_write_plan e = false) (since s (snd r))
      /\ In (Broadcast (TaskStatusChange taskId "in_progress")) (since s (snd r)))
  /\ (readPlan sys file (world s) = Missing ->
      let s' := onExit sys taskId projectPath code s in
      world s' = world s
      /\ since s s' = clear_effects s taskId
                        ++ [Broadcast (TaskExit taskId code);
                            Broadcast (TaskStatusChange taskId (finalStatusOf code))])
  /\ (forall f0,
        let r := mergeIn sys projectPath taskId target f0 in
        (forall fp, reaches_persistence sys projectPath taskId target f0 fp ->
           (exists msg, fst r = Normal (merged_response msg))
           /\ ObsMore.unwritten (fr_trace f0) fp
           /\ match readPlan sys file (fr_world fp) with
              | Parsed plan =>
                  exists merged,
                    snd r = mkFrame (writePlan sys file (set_done merged plan) (fr_world fp))
                              (fr_trace fp ++ [WritePlan file (set_done merged plan)])
                              (hasStash fp)
              | _ => snd r = fp
              end)
        /\ ((forall fp, ~ reaches_persistence sys projectPath taskId target f0 fp) ->
            ObsMore.unwritten (fr_trace f0) (snd r))).
Proof.
  intros projectPath file Hproj.
  split; [|split].
  - intros abp Habp Hmissing r. subst r.
    destruct (start_accepted sys taskId projectId force s project abp Hproj Habp)
      as (Hok & _ & _ & err & persisted & Ht & Herr & Hp).
    fold projectPath file in Hp, Ht. rewrite Hmissing in Hp. destruct Hp as [-> Hworld].
    apply since_app in Ht. rewrite Ht.
    split; [exact Hok|]. split; [exact Hworld|]. split.
    + apply Forall_app. split.
      { unfold kill_effects. destruct (runningTasks s !! taskId); now repeat constructor. }
      constructor; [reflexivity|]. constructor; [reflexivity|].
      apply Forall_app. split.
      { eapply Forall_impl; [exact Herr|]. now intros e [msg ->]. }
      simpl. constructor; [reflexivity|].
      apply Forall_app. split.
      { unfold clear_effects. destruct (logWatchers s !! taskId); now repeat constructor. }
      now repeat constructor.
    + apply in_or_app. right. right. right. simpl. apply in_or_app. right. now left.
  - intros Hmissing s'. subst s'.
    destruct (onExit_trace sys taskId projectPath code s) as (persisted & Ht & Hp).
    fold file in Hp. rewrite Hmissing in Hp. destruct Hp as [-> Hworld].
    apply since_app in Ht. split; [exact Hworld | exact Ht].
  - intros f0 r. subst r. split.
    + intros fp Hfp.
      destruct (reached_persists sys projectPath taskId target f0 fp Hfp) as [Hanswer Hw].
      split; [exact Hanswer|]. split; [|exact Hw].
      now apply (reached_unwritten sys projectPath taskId target).
    + apply unreached_unwritten.
Qed.

(** Task 002 has no plan artifact: it is started, its worker exits with
    code 1, and its branch, which merges cleanly, is merged; nothing is
    written. *)
Lemma absent_plan_is_skipped_witness :
  let sys := Sample.sys SampleMore.clean_merge in
  let s := initialServer Sample.empty_world in
  fst (start sys "002" "p1" false s) = ok_response
  /\ world (snd (start sys "002" "p1" false s)) = Sample.empty_world
  /\ since s (onExit sys "002" "/repo" (Some 1%Z) s)
     = [Broadcast (TaskExit "002" (Some 1%Z)); Broadcast (TaskStatusChange "002" "backlog")]
  /\ fst (mergeIn sys "/repo" "002" None (mkFrame Sample.empty_world [] false))
     = Normal (merged_response "Merge completed successfully")
  /\ Forall (fun e => is_write_plan e = false)
       (fr_trace (snd (mergeIn sys "/repo" "002" None (mkFrame Sample.empty_world [] false)))).
Proof.
  intros sys s.
  destruct (absent_plan_is_skipped sys "002" "p1" false (Some 1%Z) None s Sample.demo
              eq_refl) as (Hstart & Hexit & Hmerge).
  destruct (Hstart "/opt/auto-claude" eq_refl eq_refl) as (Hok & Hworld & _).
  destruct (Hexit eq_refl) as (_ & Hevents).
  split; [exact Hok|]. split; [exact Hworld|]. split; [exact Hevents|].
  split; [vm_compute; reflexivity|].
  apply List.Forall_forall. intros e He. vm_compute in He.
  repeat (destruct He as [<-|He]; [reflexivity|]). destruct He.
Defined.

End PlanAbsent.

(** * Further properties of the supervisor and the watcher *)

Module SupervisorMore.
Import Obs SupervisorFacts StartFacts.

Lemma stop_registered {W} (sys : Sys W) (taskId : string) (s : Server W) task :
  runningTasks s !! taskId = Some task ->
  exists s',
    stop sys taskId s = (ok_response, s')
    /\ runningTasks s' !! taskId = None
    /\ logWatchers s' !! taskId = None
    /\ trace s'
       = trace s ++ Kill (child_id (rt_process task))
           :: clear_effects s taskId ++ [Broadcast (TaskStatusChange taskId "stopped")].
Proof.
  intros E. unfold stop. rewrite E.
  set (s1 := emit _ _).
  set (s2 := set_runningTasks (delete taskId (runningTasks s1)) s1).
  destruct (stopLogWatching_spec taskId s2) as (_ & Hr & _ & Hl & Ht).
  eexists. split; [reflexivity|]. rewrite trace_broadcast. simpl.
  rewrite Hr, Hl, Ht. subst s2 s1. simpl. unfold clear_effects. simpl.
  rewrite !lookup_delete_eq, <- !app_assoc. repeat split.
Qed.

(** Stopping a task: success in every case; with a handle the process is
    killed, the handle and the watcher are removed and [stopped] is
    published; without a handle nothing at all happens (a watcher started on
    its own stays); and a second stop changes nothing. *)
Theorem stop_is_idempotent {W} (sys : Sys W) (taskId : string) (s : Server W) :
  let r := stop sys taskId s in
  fst r = ok_response
  /\ runningTasks (snd r) !! taskId = None
  /\ (runningTasks s !! taskId = None -> snd r = s)
  /\ (forall task, runningTasks s !! taskId = Some task ->
        logWatchers (snd r) !! taskId = None
        /\ since s (snd r)
           = Kill (child_id (rt_process task))
               :: clear_effects s taskId ++ [Broadcast (TaskStatusChange taskId "stopped")])
  /\ stop sys taskId (snd r) = (ok_response, snd r).
Proof.
  intros r. subst r.
  destruct (runningTasks s !! taskId) as [task|] eqn:E.
  - destruct (stop_registered sys taskId s task E) as (s' & -> & Hr & Hl & Ht).
    cbn [fst snd].
    split; [reflexivity|]. split; [exact Hr|]. split; [discriminate|]. split.
    + intros task' [= <-]. split; [exact Hl | now apply since_app].
    + unfold stop. now rewrite Hr.
  - assert (Hs : stop sys taskId s = (ok_response, s)) by (unfold stop; now rewrite E).
    rewrite Hs. cbn [fst snd]. repeat split; try assumption; discriminate.
Qed.

Lemma tickLogs_settled {W} (sys : Sys W) specId projectPath (w : W) last lastW :
  let '(lc, lwc, _) := tickLogs sys specId projectPath w last lastW in
  tickLogs sys specId projectPath w lc lwc = (lc, lwc, None).
Proof.
  unfold tickLogs, checkLogFile.
  destruct (readFile sys (logFileOf (specDirOf projectPath specId)) w) as [cm|];
    destruct (readFile sys (logFileOf (worktreeSpecDirOf projectPath specId)) w) as [cw|].
  - destruct (String.eqb cm last) eqn:E1; destruct (String.eqb cw lastW) eqn:E2;
      rewrite ?E1, ?E2, ?String.eqb_refl; reflexivity.
  - destruct (String.eqb cm last) eqn:E1; rewrite ?E1, ?String.eqb_refl; reflexivity.
  - destruct (String.eqb cw lastW) eqn:E2; rewrite ?E2, ?String.eqb_refl; reflexivity.
  - reflexivity.
Qed.

Lemma tickStatus_settled {W} (sys : Sys W) specId projectPath (w : W) last :
  tickStatus sys specId projectPath w (fst (tickStatus sys specId projectPath w last))
  = (fst (tickStatus sys specId projectPath w last), None).
Proof.
  unfold tickStatus. destruct (watchedPlan sys specId projectPath w) as [| |plan];
    try reflexivity.
  set (cur := Js.or_else (plan_status plan) "").
  destruct (Js.truthy_s cur && negb (String.eqb cur last)) eqn:E; cbn [fst].
  - now rewrite String.eqb_refl, andb_false_r.
  - now rewrite E.
Qed.

(** A poll that finds nothing new publishes nothing: running the timer
    callback again on an unchanged disk leaves the server exactly as the first
    run left it. *)
Theorem tick_settles {W} (sys : Sys W) (specId : string) (timer : nat) (s : Server W) :
  tick sys specId timer (tick sys specId timer s) = tick sys specId timer s.
Proof.
  unfold tick at 2 3.
  destruct (logWatchers s !! specId) as [watcher|] eqn:E;
    [|unfold tick; now rewrite E].
  destruct (lw_interval watcher =? timer) eqn:Et; [|unfold tick; now rewrite E, Et].
  pose proof (tickLogs_settled sys specId (lw_projectPath watcher) (world s)
                (var_lastContent watcher) (var_lastWorktreeContent watcher)) as HL.
  pose proof (tickStatus_settled sys specId (lw_projectPath watcher) (world s)
                (var_lastPlanStatus watcher)) as HS.
  destruct (tickLogs sys specId (lw_projectPath watcher) (world s)
              (var_lastContent watcher) (var_lastWorktreeContent watcher))
    as [[lc lwc] logsEvent].
  destruct (tickStatus sys specId (lw_projectPath watcher) (world s)
              (var_lastPlanStatus watcher)) as [lps statusEvent].
  simpl in HS.
  set (s1 := publish statusEvent (publish logsEvent s)).
  assert (Hw1 : world s1 = world s).
  { subst s1. now destruct statusEvent, logsEvent. }
  unfold tick. cbn [logWatchers set_logWatchers]. rewrite lookup_insert_eq.
  cbn [lw_interval lw_projectPath var_lastContent var_lastWorktreeContent var_lastPlanStatus
       world set_world].
  rewrite Et. cbn [world set_logWatchers]. rewrite Hw1, HL, HS.
  cbn [publish]. unfold set_logWatchers. cbn [world runningTasks logWatchers trace fresh].
  now rewrite insert_insert_eq.
Qed.

(** Watching a task that is already watched replaces the watcher: the old
    timer is cleared before the new one is set, the entry holds the new timer,
    no second entry appears, and the callback of the old timer no longer does
    anything. *)
Theorem watcher_is_replaced {W} (sys : Sys W) (specId projectPath : string)
    (s : Server W) (old : LogWatcher) :
  logWatchers s !! specId = Some old ->
  lw_interval old < fresh s ->
  let s' := startLogWatching sys specId projectPath s in
  (exists watcher, logWatchers s' !! specId = Some watcher
                   /\ lw_interval watcher = fresh s
                   /\ lw_projectPath watcher = projectPath)
  /\ since s s' = [ClearInterval (lw_interval old); SetInterval (fresh s)]
  /\ (forall k, is_Some (logWatchers s' !! k) <-> is_Some (logWatchers s !! k))
  /\ tick sys specId (lw_interval old) s' = s'.
Proof.
  intros Hold Hlt s'.
  destruct (startLogWatching_spec sys specId projectPath s) as (_ & _ & _ & Ht).
  fold s' in Ht.
  assert (Hl : exists watcher,
             logWatchers s' = <[specId := watcher]> (delete specId (logWatchers s))
             /\ lw_interval watcher = fresh s /\ lw_projectPath watcher = projectPath).
  { subst s'. unfold startLogWatching.
    destruct (stopLogWatching_spec specId s) as (_ & _ & Hf & Hl & _).
    eexists. split; [simpl; rewrite Hl; reflexivity|]. simpl. now rewrite Hf. }
  destruct Hl as (watcher & Hl & Hi & Hp). clearbody s'.
  split; [|split; [|split]].
  - exists watcher. rewrite Hl, lookup_insert_eq. auto.
  - apply since_app. rewrite Ht. unfold clear_effects. now rewrite Hold.
  - intros k. rewrite Hl. destruct (decide (specId = k)) as [<-|Hne].
    + rewrite lookup_insert_eq, Hold. split; eauto.
    + now rewrite lookup_insert_ne, lookup_delete_ne.
  - unfold tick. rewrite Hl, lookup_insert_eq, Hi.
    destruct (fresh s =? lw_interval old) eqn:E; [|reflexivity].
    apply Nat.eqb_eq in E. lia.
Qed.

Lemma watcher_is_replaced_witness :
  let sys := Sample.sys Sample.base_config in
  let s := startLogWatching sys "001" "/repo" (initialServer Sample.empty_world) in
  since s (startLogWatching sys "001" "/repo" s) = [ClearInterval 0; SetInterval 1].
Proof.
  intros sys s.
  destruct (watcher_is_replaced sys "001" "/repo" s
              {| lw_specId := "001"; lw_projectPath := "/repo"; lw_lastContent := "";
                 lw_lastWorktreeContent := ""; lw_interval := 0; var_lastContent := "";
                 var_lastWorktreeContent := ""; var_lastPlanStatus := "" |}
              eq_refl (le_n 1)) as (_ & H & _).
  exact H.
Defined.

(** Once a watcher is stopped its timer callback does nothing, whichever
    timer fires, and stopping it again is a no-op. *)
Theorem stopped_watcher_is_silent {W} (sys : Sys W) (specId : string) (s : Server W) :
  let s' := stopLogWatching specId s in
  logWatchers s' !! specId = None
  /\ (forall timer, tick sys specId timer s' = s')
  /\ stopLogWatching specId s' = s'
  /\ (forall k, k <> specId -> logWatchers s' !! k = logWatchers s !! k).
Proof.
  intros s'.
  destruct (stopLogWatching_spec specId s) as (_ & _ & _ & Hl & _). fold s' in Hl.
  assert (Hnone : logWatchers s' !! specId = None) by (rewrite Hl; apply lookup_delete_eq).
  split; [exact Hnone|]. split; [|split].
  - intros timer. unfold tick. now rewrite Hnone.
  - unfold stopLogWatching at 1. now rewrite Hnone.
  - intros k Hk. rewrite Hl. now apply lookup_delete_ne.
Qed.

(** An accepted start publishes exactly one event, the change to
    in_progress. *)
Theorem start_publishes_once {W} (sys : Sys W) (taskId projectId : string) (force : bool)
    (s : Server W) :
  is_Some (findProject sys projectId (world s)) ->
  is_Some (getAutoBuildPath sys (world s)) ->
  List.filter ObsMore.is_broadcast (since s (snd (start sys taskId projectId force s)))
  = [Broadcast (TaskStatusChange taskId "in_progress")].
Proof.
  intros [project Hproj] [abp Habp].
  destruct (start_accepted sys taskId projectId force s project abp Hproj Habp)
    as (_ & _ & _ & err & persisted & Ht & Herr & Hp).
  apply since_app in Ht. rewrite Ht.
  assert (Hk : List.filter ObsMore.is_broadcast (kill_effects s taskId) = []).
  { unfold kill_effects. now destruct (runningTasks s !! taskId). }
  assert (Hc : List.filter ObsMore.is_broadcast (clear_effects s taskId) = []).
  { unfold clear_effects. now destruct (logWatchers s !! taskId). }
  assert (He : List.filter ObsMore.is_broadcast err = []).
  { clear -Herr. induction Herr as [|e l [msg ->] _ IH]; [reflexivity | exact IH]. }
  assert (Hpe : List.filter ObsMore.is_broadcast persisted = []).
  { destruct (readPlan sys _ _).
    - now destruct Hp as [-> _].
    - now destruct Hp as [[msg ->] _].
    - now destruct Hp as (written & -> & _). }
  rewrite !List.filter_app, Hk, He, Hpe, Hc. reflexivity.
Qed.

Lemma start_publishes_once_witness :
  List.filter ObsMore.is_broadcast
    (since (initialServer Sample.with_plan)
       (snd (start (Sample.sys Sample.base_config) "001" "p1" false
               (initialServer Sample.with_plan))))
  = [Broadcast (TaskStatusChange "001" "in_progress")].
Proof.
  apply (start_publishes_once (Sample.sys Sample.base_config) "001" "p1" false
           (initialServer Sample.with_plan)); eexists; reflexivity.
Defined.

Lemma started_child_live {W} (sys : Sys W) taskId projectId force (s : Server W)
    project autoBuildPath :
  ids_below s ->
  findProject sys projectId (world s) = Some project ->
  getAutoBuildPath sys (world s) = Some autoBuildPath ->
  live (fresh s) taskId (trace (snd (start sys taskId projectId force s))).
Proof.
  intros (Hk & _ & Hr) Hproj Habp.
  destruct (AtMostOne.start_shape sys taskId projectId force s project autoBuildPath
              Hproj Habp) as (rest & Ht & Hquiet & _).
  rewrite List.Forall_forall in Hquiet. rewrite Ht. split.
  - exists (pythonPathOf autoBuildPath), (workerArgs autoBuildPath taskId force),
      (project_path project).
    split; [|reflexivity]. apply in_or_app. right. apply in_or_app. right. now left.
  - rewrite !in_app_iff. intros [Hin|[Hin|[Hin|Hin]]].
    + apply Hk in Hin. lia.
    + apply AtMostOne.in_kill_effects in Hin as (old & Hold & [= Heq]).
      apply Hr in Hold. lia.
    + discriminate Hin.
    + apply Hquiet in Hin. discriminate Hin.
Qed.

(** The exit callback does not look at which process exited.  When it runs
    for a task that has just been (re)started, as the callback of a replaced
    process does, it removes the handle and the watcher of the new process,
    which it does not kill: that process stays alive without a handle. *)
Theorem stale_exit_unregisters_successor {W} (sys : Sys W) (w : W)
    (reqs : list StartRequest) (taskId projectId : string) (force : bool)
    (code : option Z) (project : Project) :
  let s := startAll sys reqs (initialServer w) in
  findProject sys projectId (world s) = Some project ->
  is_Some (getAutoBuildPath sys (world s)) ->
  let s1 := snd (start sys taskId projectId force s) in
  let s2 := onExit sys taskId (project_path project) code s1 in
  (exists rt, runningTasks s1 !! taskId = Some rt /\ child_id (rt_process rt) = fresh s)
  /\ runningTasks s2 !! taskId = None
  /\ logWatchers s2 !! taskId = None
  /\ Forall (fun e => ObsMore.is_kill e = false) (since s1 s2)
  /\ live (fresh s) taskId (trace s2).
Proof.
  intros s Hproj [abp Habp] s1 s2.
  destruct (AtMostOne.startAll_preserves sys reqs _ (AtMostOne.initial_invariant w))
    as [_ Hids]. fold s in Hids.
  pose proof (started_child_live sys taskId projectId force s project abp Hids Hproj Habp)
    as Hlive. fold s1 in Hlive.
  destruct (start_accepted sys taskId projectId force s project abp Hproj Habp)
    as (_ & (pid & Hreg) & _). fold s1 in Hreg.
  destruct (ExitHandling.onExit_registries sys taskId (project_path project) code s1)
    as [Hr Hl]. fold s2 in Hr, Hl.
  destruct (onExit_trace sys taskId (project_path project) code s1)
    as (persisted & Ht & Hp). fold s2 in Ht.
  assert (Hquiet : Forall (fun e => ObsMore.is_kill e = false)
                     (clear_effects s1 taskId
                        ++ Broadcast (TaskExit taskId code)
                        :: persisted
                        ++ [Broadcast (TaskStatusChange taskId (finalStatusOf code))])).
  { apply Forall_app. split.
    { unfold clear_effects. destruct (logWatchers s1 !! taskId); now repeat constructor. }
    constructor; [reflexivity|]. apply Forall_app. split; [|now repeat constructor].
    destruct (readPlan sys _ (world s1)).
    - destruct Hp as [-> _]. constructor.
    - destruct Hp as [[msg ->] _]. now repeat constructor.
    - destruct Hp as [-> _]. now repeat constructor. }
  clearbody s2 s1 s.
  split; [|split; [|split; [|split]]].
  - eexists. rewrite Hreg, lookup_insert_eq. split; reflexivity.
  - rewrite Hr. apply lookup_delete_eq.
  - rewrite Hl. apply lookup_delete_eq.
  - rewrite (since_app s1 s2 _ Ht). exact Hquiet.
  - destruct Hlive as [(cmd & args & cwd & Hin & Harg) Hnk]. split.
    + exists cmd, args, cwd. split; [|exact Harg]. rewrite Ht. apply in_or_app. now left.
    + rewrite Ht. intros Hin'. apply in_app_or in Hin' as [Hin'|Hin']; [now apply Hnk|].
      rewrite List.Forall_forall in Hquiet. apply Hquiet in Hin'. discriminate Hin'.
Qed.

Lemma stale_exit_unregisters_successor_witness :
  let sys := Sample.sys Sample.base_config in
  let s := startAll sys [mkStartRequest "001" "p1" false] (initialServer Sample.empty_world) in
  let s1 := snd (start sys "001" "p1" false s) in
  runningTasks (onExit sys "001" "/repo" None s1) !! "001" = None
  /\ live 2 "001" (trace (onExit sys "001" "/repo" None s1)).
Proof.
  intros sys s s1.
  destruct (stale_exit_unregisters_successor sys Sample.empty_world
              [mkStartRequest "001" "p1" false] "001" "p1" false None Sample.demo
              eq_refl (ex_intro _ "/opt/auto-claude" eq_refl))
    as (_ & Hnone & _ & _ & Hlive).
  split; [exact Hnone | exact Hlive].
Defined.

(** First start wins: the plan written by a start keeps a parent branch
    that is already recorded, records the detected branch otherwise, and a
    later start does not overwrite what an earlier one recorded; the phases,
    the QA sign-off and [merged_at] are carried over. *)
Theorem parent_branch_first_start_wins {W} (sys : Sys W) (taskId projectPath : string)
    (b1 b2 : string) (s : Server W) (plan : Plan) :
  let file := planPathOf projectPath taskId in
  (forall p w, readPlan sys file (writePlan sys file p w) = Parsed p) ->
  readPlan sys file (world s) = Parsed plan ->
  let s1 := persistInProgress sys taskId projectPath b1 s in
  let s2 := persistInProgress sys taskId projectPath b2 s1 in
  exists p1 p2,
    readPlan sys file (world s1) = Parsed p1
    /\ readPlan sys file (world s2) = Parsed p2
    /\ plan_parent_branch p1 = ObsMore.parent_after (plan_parent_branch plan) b1
    /\ (Js.truthy (plan_parent_branch p1) = true ->
        plan_parent_branch p2 = plan_parent_branch p1)
    /\ plan_status p2 = Some "in_progress"
    /\ plan_phases p2 = plan_phases plan
    /\ plan_qa_signoff p2 = plan_qa_signoff plan
    /\ plan_merged_at p2 = plan_merged_at plan.
Proof.
  intros file Hrw Hplan s1 s2.
  destruct (persistInProgress_spec sys taskId projectPath b1 s) as (_ & _ & _ & H1).
  fold file s1 in H1. rewrite Hplan in H1. cbv zeta in H1. destruct H1 as [Hw1 _].
  assert (Hr1 : readPlan sys file (world s1)
                = Parsed (recordParentBranch b1
                            (set_plan_status "in_progress" "in_progress"
                               (now sys (world s)) plan))).
  { rewrite Hw1. apply Hrw. }
  destruct (persistInProgress_spec sys taskId projectPath b2 s1) as (_ & _ & _ & H2).
  fold file s2 in H2. rewrite Hr1 in H2. cbv zeta in H2. destruct H2 as [Hw2 _].
  assert (Hparent : forall b p,
             plan_parent_branch (recordParentBranch b p)
             = ObsMore.parent_after (plan_parent_branch p) b).
  { intros b p. unfold recordParentBranch, ObsMore.parent_after.
    destruct (Js.truthy (plan_parent_branch p)); simpl; [reflexivity|].
    now destruct (Js.truthy_s b). }
  assert (Hother : forall b p,
             plan_status (recordParentBranch b p) = plan_status p
             /\ plan_phases (recordParentBranch b p) = plan_phases p
             /\ plan_qa_signoff (recordParentBranch b p) = plan_qa_signoff p
             /\ plan_merged_at (recordParentBranch b p) = plan_merged_at p).
  { intros b p. unfold recordParentBranch. now destruct (_ && _). }
  eexists _, _. split; [exact Hr1|]. split; [rewrite Hw2; apply Hrw|].
  split; [rewrite Hparent; reflexivity|]. split.
  - intros Ht. rewrite (Hparent b2). cbn [plan_parent_branch set_plan_status].
    unfold ObsMore.parent_after at 1. now rewrite Ht.
  - destruct (Hother b2 (set_plan_status "in_progress" "in_progress" (now sys (world s1))
                           (recordParentBranch b1
                              (set_plan_status "in_progress" "in_progress"
                                 (now sys (world s)) plan)))) as (-> & -> & -> & ->).
    cbn [plan_status plan_phases plan_qa_signoff plan_merged_at set_plan_status].
    destruct (Hother b1 (set_plan_status "in_progress" "in_progress"
                           (now sys (world s)) plan)) as (_ & -> & -> & ->).
    repeat split.
Qed.

Lemma parent_branch_first_start_wins_witness :
  let sys := Sample.sys Sample.base_config in
  let file := planPathOf "/repo" "001" in
  let s1 := persistInProgress sys "001" "/repo" "develop" (initialServer Sample.with_plan) in
  let s2 := persistInProgress sys "001" "/repo" "main" s1 in
  exists p2, readPlan sys file (world s2) = Parsed p2
             /\ plan_parent_branch p2 = Some "develop".
Proof.
  intros sys file s1 s2.
  destruct (parent_branch_first_start_wins sys "001" "/repo" "develop" "main"
              (initialServer Sample.with_plan) _ (fun _ _ => eq_refl) eq_refl)
    as (p1 & p2 & _ & H2 & Hp1 & Hkeep & _).
  exists p2. split; [exact H2|]. rewrite Hkeep; rewrite Hp1; reflexivity.
Defined.

End SupervisorMore.

(** * Further properties of the merge engine *)

Module MergeMore.
Import Merge MergeObs MergeFacts ObsMore.

Section Paths.
Context {W : Type} (sys : Sys W).
Variable projectPath : string.
Variable taskId : string.

Local Abbreviation file := (planPath projectPath taskId).

Lemma bind_inv {A B} (m : M W A) (k : A -> M W B) f b f' :
  bind m k f = (Normal b, f') ->
  exists a f1, m f = (Normal a, f1) /\ k a f1 = (Normal b, f').
Proof.
  unfold bind. destruct (m f) as [[a|e] f1]; [eauto | discriminate].
Qed.

End Paths.

(** A merge that git completes without conflict: the request answers
    success; after the merge command it pops the stash when housekeeping had
    made one, dropping it when the pop fails, and runs no stash command
    otherwise; then it marks a readable plan done with the current time as
    [merged_at], replacing an earlier one. *)
Theorem clean_merge_restores_and_persists {W} (sys : Sys W) (projectPath taskId : string)
    (target : option string) (f0 f1 f : Frame W) (out : string) (w1 : W) :
  prepare sys projectPath taskId target f0 = (Normal false, f1) ->
  housekeeping sys projectPath taskId f1 = (Normal tt, f) ->
  execSync sys projectPath (GitMerge (branchName taskId)) (fr_world f) = (ExecOk out, w1) ->
  let r := mergeIn sys projectPath taskId target f0 in
  fst r = Normal (merged_response "Merge completed successfully")
  /\ exists w2,
       drop (List.length (fr_trace f)) (fr_trace (snd r))
       = Exec projectPath (GitMerge (branchName taskId))
           :: restore_effects sys projectPath (hasStash f) w1
           ++ done_effects sys (planPath projectPath taskId) w2
       /\ match readPlan sys (planPath projectPath taskId) w2 with
          | Parsed plan =>
              fr_world (snd r)
              = writePlan sys (planPath projectPath taskId) (set_done (now sys w2) plan) w2
          | _ => fr_world (snd r) = w2
          end.
Proof.
  intros Hprep Hhk Hmerge r. subst r.
  rewrite (Conflicts.mergeIn_at_merge sys projectPath taskId target f0 f1 f Hprep Hhk).
  set (fa := mkFrame w1 (fr_trace f ++ [Exec projectPath (GitMerge (branchName taskId))])
               (hasStash f)).
  assert (Hpm : performMerge sys projectPath taskId f = (Normal tt, fa)).
  { unfold performMerge. apply try_catch_normal. eapply exec__ok; exact Hmerge. }
  destruct (Conflicts.finish_spec sys projectPath taskId fa) as (f2 & f' & E & Ht2 & Ht' & Hw').
  erewrite try_catch_normal
    by (unfold conclude; rewrite (bind_normal _ _ _ _ _ Hpm); exact E).
  cbn [fst snd]. split; [reflexivity|]. exists (fr_world f2). split; [|exact Hw'].
  rewrite Ht', Ht2. subst fa. cbn [fr_trace fr_world hasStash].
  rewrite <- !app_assoc. now rewrite drop_app_length.
Qed.

(** The two outcomes of restoring the snapshot, on a repository whose
    stash cannot be popped. *)
Lemma clean_merge_restores_and_persists_witness :
  let r := mergeIn (Sample.sys SampleMore.clean_merge) "/repo" "001" None
             (mkFrame Sample.with_plan [] false) in
  fst r = Normal (merged_response "Merge completed successfully")
  /\ In (Exec "/repo" StashDrop) (fr_trace (snd r)).
Proof.
  edestruct (clean_merge_restores_and_persists (Sample.sys SampleMore.clean_merge)
               "/repo" "001" None (mkFrame Sample.with_plan [] false)) as [Hanswer _].
  - cbv. reflexivity.
  - cbv. reflexivity.
  - cbv. reflexivity.
  - split; [exact Hanswer|]. vm_compute. tauto.
Defined.

Section Continue.
Context {W : Type} (sys : Sys W).
Variable projectPath : string.
Variable taskId : string.

(** No conflicting path and no submodule in the error: the merge is
    continued, and the failure of that rethrows the merge's own error. *)
Lemma onMergeError_continues f e status w2 :
  execSync sys projectPath StatusPorcelain (fr_world f) = (ExecOk status, w2) ->
  hasSubmoduleConflict e = false ->
  conflictLinesOf status = [] ->
  let f1 := mkFrame w2 (fr_trace f ++ [Exec projectPath StatusPorcelain]) (hasStash f) in
  onMergeError sys projectPath taskId e f
  = match execSync sys projectPath MergeContinue w2 with
    | (ExecOk _, w3) =>
        (Normal tt, mkFrame w3 (fr_trace f1 ++ [Exec projectPath MergeContinue]) (hasStash f))
    | (ExecErr _, w3) =>
        (Thrown e, mkFrame w3 (fr_trace f1 ++ [Exec projectPath MergeContinue]) (hasStash f))
    end.
Proof.
  intros E Hsub Hnone f1. unfold onMergeError.
  rewrite (bind_normal _ _ _ _ _ (exec_ok sys projectPath _ _ _ _ E)).
  rewrite Hnone, Hsub. cbn [map canAutoResolve List.length Nat.ltb Nat.leb andb orb Nat.eqb].
  fold f1.
  destruct (execSync sys projectPath MergeContinue w2) as [[out|e'] w3] eqn:E3.
  - apply try_catch_normal. exact (exec__ok sys projectPath MergeContinue f1 out w3 E3).
  - now rewrite (try_catch_thrown _ _ _ _ _
                   (exec__err sys projectPath MergeContinue f1 e' w3 E3)).
Qed.

Lemma attempts_quiet {A} (body : A -> M W unit) :
  (forall x f, exists f' l, body x f = (Normal tt, f')
                            /\ fr_trace f' = fr_trace f ++ l
                            /\ hasStash f' = hasStash f) ->
  forall xs f, exists f' l, forEach xs body f = (Normal tt, f')
                            /\ fr_trace f' = fr_trace f ++ l
                            /\ hasStash f' = hasStash f.
Proof.
  intros Hbody xs. induction xs as [|x xs IH]; intros f.
  - exists f, []. simpl. now rewrite app_nil_r.
  - destruct (Hbody x f) as (f1 & l1 & E1 & Ht1 & Hs1).
    destruct (IH f1) as (f2 & l2 & E2 & Ht2 & Hs2).
    exists f2, (l1 ++ l2). simpl. rewrite (bind_normal _ _ _ _ _ E1).
    split; [exact E2|]. split; [now rewrite Ht2, Ht1, <- app_assoc | congruence].
Qed.

Lemma keep_reference_quiet submodule f :
  exists f' l,
    attempt (exec_ sys projectPath (CheckoutHead submodule) ;;
             exec_ sys projectPath (GitAdd submodule)) f = (Normal tt, f')
    /\ fr_trace f' = fr_trace f ++ l
    /\ hasStash f' = hasStash f.
Proof.
  unfold attempt, try_catch.
  destruct (execSync sys projectPath (CheckoutHead submodule) (fr_world f))
    as [[out|e] w'] eqn:E.
  - rewrite (bind_normal _ _ _ _ _ (exec__ok sys projectPath _ _ _ _ E)).
    destruct (execSync sys projectPath (GitAdd submodule) w') as [[out2|e2] w2] eqn:E2.
    + erewrite exec__ok by exact E2. simpl. eexists _, [_; _]. rewrite <- app_assoc.
      now repeat split.
    + erewrite exec__err by exact E2. simpl. eexists _, [_; _]. rewrite <- app_assoc.
      now repeat split.
  - rewrite (bind_thrown _ _ _ _ _ (exec__err sys projectPath _ _ _ _ E)).
    eexists _, [_]. now repeat split.
Qed.

(** Keeping the base branch's submodule references never throws and
    starts by listing the submodule paths. *)
Lemma resolveSubmodules_spec f :
  exists f' l,
    resolveSubmodules sys projectPath f = (Normal tt, f')
    /\ fr_trace f' = fr_trace f ++ Exec projectPath SubmodulePaths :: l
    /\ hasStash f' = hasStash f.
Proof.
  unfold resolveSubmodules, try_catch.
  destruct (execSync sys projectPath SubmodulePaths (fr_world f)) as [[out|e] w'] eqn:E.
  - rewrite (bind_normal _ _ _ _ _ (exec_ok sys projectPath _ _ _ _ E)).
    destruct (attempts_quiet
                (fun submodule => attempt (exec_ sys projectPath (CheckoutHead submodule) ;;
                                           exec_ sys projectPath (GitAdd submodule)))
                keep_reference_quiet (nonEmptyLines out)
                (mkFrame w' (fr_trace f ++ [Exec projectPath SubmodulePaths]) (hasStash f)))
      as (f' & l & E' & Ht & Hs).
    rewrite E'. exists f', l. split; [reflexivity|]. split; [|exact Hs].
    rewrite Ht. simpl. now rewrite <- app_assoc.
  - rewrite (bind_thrown _ _ _ _ _ (exec_err sys projectPath _ _ _ _ E)).
    destruct (Conflicts.attempt_exec sys projectPath GitAddAll
                (mkFrame w' (fr_trace f ++ [Exec projectPath SubmodulePaths]) (hasStash f)))
      as (f' & E' & Ht & Hs).
    rewrite E'. exists f', [Exec projectPath GitAddAll]. split; [reflexivity|].
    split; [|exact Hs]. rewrite Ht. simpl. now rewrite <- app_assoc.
Qed.

(** A merge error that mentions a submodule: every conflict line is
    resolved, whatever its path, the submodule references are kept, the
    commit is attempted, and the block completes. *)
Lemma onMergeError_submodule f e status w2 :
  execSync sys projectPath StatusPorcelain (fr_world f) = (ExecOk status, w2) ->
  hasSubmoduleConflict e = true ->
  exists f' l l',
    onMergeError sys projectPath taskId e f = (Normal tt, f')
    /\ fr_trace f'
       = fr_trace f ++ Exec projectPath StatusPorcelain
           :: l ++ Exec projectPath SubmodulePaths
           :: l' ++ [Exec projectPath (Commit ("Merge " +:+ branchName taskId))]
    /\ (forall line, In line (conflictLinesOf status) ->
                     In (Exec projectPath (resolution_of line)) l)
    /\ hasStash f' = hasStash f.
Proof.
  intros E Hsub. unfold onMergeError.
  rewrite (bind_normal _ _ _ _ _ (exec_ok sys projectPath _ _ _ _ E)).
  rewrite Hsub, orb_true_r.
  destruct (Conflicts.forEach_resolve sys projectPath (conflictLinesOf status)
              (mkFrame w2 (fr_trace f ++ [Exec projectPath StatusPorcelain]) (hasStash f)))
    as (f1 & l & E1 & Ht1 & _ & Hin & Hs1).
  cbn [fr_trace hasStash] in Ht1, Hs1.
  rewrite (bind_normal _ _ _ _ _ E1). cbn [when_].
  destruct (resolveSubmodules_spec f1) as (f2 & l' & E2 & Ht2 & Hs2).
  rewrite (bind_normal _ _ _ _ _ E2).
  destruct (Conflicts.attempt_exec sys projectPath (Commit ("Merge " +:+ branchName taskId)) f2)
    as (f3 & E3 & Ht3 & Hs3).
  exists f3, l, l'. split; [exact E3|]. split; [|split; [exact Hin | congruence]].
  rewrite Ht3, Ht2, Ht1. repeat (rewrite <- ?app_assoc; simpl). reflexivity.
Qed.

End Continue.

(** A merge that fails without any conflicting path, its error not
    mentioning a submodule: [git merge --continue] is run.  When that
    succeeds the request restores the snapshot, persists and answers
    success; when it fails the request answers the error of the merge, not
    that of the continuation, after the catch's log line and stash pop. *)
Theorem stalled_merge_is_continued {W} (sys : Sys W) (projectPath taskId : string)
    (target : option string) (f0 f1 f : Frame W) (e status : string) (w1 w2 : W) :
  prepare sys projectPath taskId target f0 = (Normal false, f1) ->
  housekeeping sys projectPath taskId f1 = (Normal tt, f) ->
  execSync sys projectPath (GitMerge (branchName taskId)) (fr_world f) = (ExecErr e, w1) ->
  execSync sys projectPath StatusPorcelain w1 = (ExecOk status, w2) ->
  hasSubmoduleConflict e = false ->
  conflictLinesOf status = [] ->
  let r := mergeIn sys projectPath taskId target f0 in
  let new := drop (List.length (fr_trace f)) (fr_trace (snd r)) in
  let attempted := [Exec projectPath (GitMerge (branchName taskId));
                    Exec projectPath StatusPorcelain;
                    Exec projectPath MergeContinue] in
  match execSync sys projectPath MergeContinue w2 with
  | (ExecOk _, w3) =>
      fst r = Normal (merged_response "Merge completed successfully")
      /\ exists w4,
           new = attempted ++ restore_effects sys projectPath (hasStash f) w3
                   ++ done_effects sys (planPath projectPath taskId) w4
  | (ExecErr _, _) =>
      fst r = Normal (failed_response e)
      /\ new = attempted ++ ConsoleError "[Merge] Error:"
                 :: (if hasStash f then [Exec projectPath StashPop] else [])
  end.
Proof.
  intros Hprep Hhk Hmerge Hstatus Hsub Hnone r new attempted. subst r new attempted.
  rewrite (Conflicts.mergeIn_at_merge sys projectPath taskId target f0 f1 f Hprep Hhk).
  pose proof (Conflicts.performMerge_failed sys projectPath taskId f e w1 Hmerge) as Hpm.
  set (fa := mkFrame w1 (fr_trace f ++ [Exec projectPath (GitMerge (branchName taskId))])
               (hasStash f)) in Hpm.
  pose proof (onMergeError_continues sys projectPath taskId fa e status w2
                Hstatus Hsub Hnone) as Hc.
  cbv zeta in Hc. cbn [fr_trace hasStash fa] in Hc.
  destruct (execSync sys projectPath MergeContinue w2) as [[out|e'] w3].
  - set (fb := mkFrame w3 _ _) in Hc.
    destruct (Conflicts.finish_spec sys projectPath taskId fb) as (f2 & f' & E & Ht2 & Ht' & _).
    erewrite try_catch_normal
      by (unfold conclude; rewrite (bind_normal _ _ _ _ _ (eq_trans Hpm Hc)); exact E).
    cbn [fst snd]. split; [reflexivity|]. exists (fr_world f2).
    rewrite Ht', Ht2. subst fb. cbn [fr_trace fr_world hasStash].
    rewrite <- !app_assoc. now rewrite drop_app_length.
  - set (fb := mkFrame w3 _ _) in Hc.
    destruct (Conflicts.mergeCatch_spec sys projectPath e fb) as (fc & Ec & Htc).
    erewrite try_catch_thrown
      by (unfold conclude; apply bind_thrown; exact (eq_trans Hpm Hc)).
    rewrite Ec. cbn [fst snd]. split; [reflexivity|].
    rewrite Htc. subst fb. cbn [fr_trace hasStash].
    rewrite <- !app_assoc. now rewrite drop_app_length.
Qed.

(** A stalled merge on a clean repository is continued and answered as a
    success. *)
Lemma stalled_merge_is_continued_witness :
  fst (mergeIn (Sample.sys SampleMore.stalled_merge) "/repo" "001" None
         (mkFrame Sample.with_plan [] false))
  = Normal (merged_response "Merge completed successfully").
Proof.
  edestruct (stalled_merge_is_continued (Sample.sys SampleMore.stalled_merge)
               "/repo" "001" None (mkFrame Sample.with_plan [] false)) as [Hanswer _].
  - cbv. reflexivity.
  - cbv. reflexivity.
  - cbv. reflexivity.
  - cbv. reflexivity.
  - vm_compute. reflexivity.
  - vm_compute. reflexivity.
  - exact Hanswer.
Defined.

(** A merge whose error mentions a submodule is resolved whatever the
    conflicting paths are: every conflict line gets its resolving command,
    also outside the allow-list, the submodule paths are listed, the commit
    is attempted and the request answers success. *)
Theorem submodule_conflict_resolves_every_path {W} (sys : Sys W)
    (projectPath taskId : string) (target : option string) (f0 f1 f : Frame W)
    (e status : string) (w1 w2 : W) :
  prepare sys projectPath taskId target f0 = (Normal false, f1) ->
  housekeeping sys projectPath taskId f1 = (Normal tt, f) ->
  execSync sys projectPath (GitMerge (branchName taskId)) (fr_world f) = (ExecErr e, w1) ->
  execSync sys projectPath StatusPorcelain w1 = (ExecOk status, w2) ->
  hasSubmoduleConflict e = true ->
  let r := mergeIn sys projectPath taskId target f0 in
  let new := drop (List.length (fr_trace f)) (fr_trace (snd r)) in
  fst r = Normal (merged_response "Merge completed successfully")
  /\ (forall line, In line (conflictLinesOf status) ->
                   In (Exec projectPath (resolution_of line)) new)
  /\ In (Exec projectPath SubmodulePaths) new
  /\ In (Exec projectPath (Commit ("Merge " +:+ branchName taskId))) new.
Proof.
  intros Hprep Hhk Hmerge Hstatus Hsub r new. subst r new.
  rewrite (Conflicts.mergeIn_at_merge sys projectPath taskId target f0 f1 f Hprep Hhk).
  pose proof (Conflicts.performMerge_failed sys projectPath taskId f e w1 Hmerge) as Hpm.
  set (fa := mkFrame w1 (fr_trace f ++ [Exec projectPath (GitMerge (branchName taskId))])
               (hasStash f)) in Hpm.
  destruct (onMergeError_submodule sys projectPath taskId fa e status w2 Hstatus Hsub)
    as (fb & l & l' & Eb & Htb & Hin & _).
  destruct (Conflicts.finish_spec sys projectPath taskId fb) as (f2 & fc & Ec & Ht2 & Htc & _).
  erewrite try_catch_normal
    by (unfold conclude; rewrite (bind_normal _ _ _ _ _ (eq_trans Hpm Eb)); exact Ec).
  cbn [fst snd].
  assert (Hnew : exists rest,
             drop (List.length (fr_trace f)) (fr_trace fc)
             = Exec projectPath (GitMerge (branchName taskId))
                 :: Exec projectPath StatusPorcelain
                 :: l ++ Exec projectPath SubmodulePaths
                 :: l' ++ Exec projectPath (Commit ("Merge " +:+ branchName taskId)) :: rest).
  { eexists. rewrite Htc, Ht2, Htb. subst fa. cbn [fr_trace].
    rewrite <- !app_assoc. rewrite drop_app_length.
    repeat (rewrite <- ?app_assoc; simpl). reflexivity. }
  destruct Hnew as (rest & ->). split; [reflexivity|]. split; [|split].
  - intros line Hline. right. right. apply in_or_app. left. now apply Hin.
  - right. right. apply in_or_app. right. now left.
  - right. right. apply in_or_app. right. right. apply in_or_app. right. now left.
Qed.

(** A submodule conflict together with a conflict on a source file. *)
Lemma submodule_conflict_resolves_every_path_witness :
  let r := mergeIn (Sample.sys SampleMore.submodule_conflict) "/repo" "001" None
             (mkFrame Sample.empty_world [] false) in
  fst r = Normal (merged_response "Merge completed successfully")
  /\ In (Exec "/repo" (CheckoutTheirs "src/app.ts")) (fr_trace (snd r)).
Proof.
  edestruct (submodule_conflict_resolves_every_path
               (Sample.sys SampleMore.submodule_conflict)
               "/repo" "001" None (mkFrame Sample.empty_world [] false)) as [Hanswer _].
  - cbv. reflexivity.
  - cbv. reflexivity.
  - cbv. reflexivity.
  - cbv. reflexivity.
  - vm_compute. reflexivity.
  - split; [exact Hanswer|]. vm_compute. tauto.
Defined.

Section Stash.
Context {W : Type} (sys : Sys W).
Variable projectPath : string.
Variable taskId : string.
Variable t0 : list Effect.
Variable pushed : Prop.

Local Abbreviation owned := (stash_owned (W := W) pushed t0).

Lemma owned_step (f : Frame W) w' e :
  owned f -> is_unstash e = false -> owned (mkFrame w' (fr_trace f ++ [e]) (hasStash f)).
Proof.
  intros [Hp|(Hs & l & Hl & Hq)] He; [now left | right].
  split; [exact Hs|]. exists (l ++ [e]). simpl. rewrite Hl, <- app_assoc.
  split; [reflexivity|]. apply Forall_app. split; [exact Hq | now repeat constructor].
Qed.

Lemma owned_exec c : is_unstash (Exec projectPath c) = false ->
  preserves owned (exec sys projectPath c).
Proof.
  intros Hc f Hf. unfold exec.
  destruct (execSync sys projectPath c (fr_world f)) as [[out|e] w']; simpl;
    now apply owned_step.
Qed.

Lemma owned_exec_ c : is_unstash (Exec projectPath c) = false ->
  preserves owned (exec_ sys projectPath c).
Proof.
  intros Hc. unfold exec_.
  apply preserves_bind; [now apply owned_exec | intros; apply preserves_ret].
Qed.

Lemma owned_record e : is_unstash e = false -> preserves owned (record e).
Proof. intros He f Hf. unfold record. simpl. now apply owned_step. Qed.

Lemma owned_changeWorld g : preserves owned (changeWorld g).
Proof. intros f Hf. exact Hf. Qed.

Lemma owned_getWorld : preserves owned (getWorld : M W W).
Proof. intros f Hf. exact Hf. Qed.

(** The snapshot: the flag is set only behind a push that succeeded on a
    dirty tree, in the world in which the step ran. *)
Lemma owned_stashChanges f :
  (stash_pushed_at sys projectPath (fr_world f) -> pushed) ->
  owned f -> owned (snd (stashChanges sys projectPath f)).
Proof.
  intros Hpushed Hf. unfold stashChanges, attempt, try_catch.
  destruct (execSync sys projectPath StatusNoWorktrees (fr_world f)) as [[status|e] w1] eqn:E1.
  - rewrite (bind_normal _ _ _ _ _ (exec_ok sys projectPath _ _ _ _ E1)).
    pose proof (owned_step f w1 (Exec projectPath StatusNoWorktrees) Hf eq_refl) as H1.
    destruct (0 <? String.length (Js.trim status)) eqn:Hdirty; cbn [when_]; [|exact H1].
    destruct (execSync sys projectPath StashPush w1) as [[out|e] w2] eqn:E2.
    + left. apply Hpushed. exists status, w1, out, w2. now repeat split.
    + set (fa := mkFrame w1 _ _) in *.
      rewrite (bind_thrown _ _ _ _ _ (exec__err sys projectPath StashPush fa e w2 E2)).
      simpl. now apply (owned_step fa w2 (Exec projectPath StashPush)).
  - rewrite (bind_thrown _ _ _ _ _ (exec_err sys projectPath _ _ _ _ E1)). simpl.
    now apply owned_step.
Qed.

(** Restoring the snapshot and the catch touch the stash only when the
    flag is set. *)
Lemma owned_restoreStash : preserves owned (restoreStash sys projectPath).
Proof.
  intros f [Hp|(Hs & Hl)]; [now left|].
  unfold restoreStash. rewrite bind_getHasStash, Hs. simpl. right. now split.
Qed.

Lemma owned_mergeCatch e : preserves owned (mergeCatch sys projectPath e).
Proof.
  intros f [Hp|(Hs & Hl)]; [now left|].
  destruct f as [w t b]. cbn [hasStash] in Hs. subst b.
  unfold mergeCatch. rewrite bind_record, bind_getHasStash. cbn [hasStash when_].
  rewrite bind_ret. simpl.
  apply (owned_step (mkFrame w t false) w (ConsoleError "[Merge] Error:")); [|reflexivity].
  right. now split.
Qed.

Create HintDb stash_blocks.

Hint Unfold prepare finishAlreadyMerged conclude
  resolveBaseBranch checkoutBase checkAlreadyMerged ensureGitignore
  cleanTransient removeUntrackedSpecDir performMerge onMergeError resolveLine
  resolveSubmodules persistMerged persistAlreadyMerged storePlan attempt : stash_blocks.

Ltac owned_step_tac :=
  first
    [ apply preserves_ret
    | apply preserves_throw
    | apply owned_restoreStash
    | apply owned_mergeCatch
    | apply owned_exec; reflexivity
    | apply owned_exec_; reflexivity
    | apply owned_getWorld
    | apply owned_record; reflexivity
    | apply owned_changeWorld
    | apply preserves_when
    | apply preserves_forEach; intros ?
    | apply preserves_bind; [|intros ?]
    | apply preserves_try_catch; [|intros ?]
    | match goal with
      | |- preserves _ (if ?b then _ else _) => destruct b
      | |- preserves _ (match ?x with _ => _ end) => destruct x
      end ].

Lemma owned_prepare target : preserves owned (prepare sys projectPath taskId target).
Proof. autounfold with stash_blocks. repeat owned_step_tac. Qed.

Lemma owned_finishAlreadyMerged :
  preserves owned (finishAlreadyMerged sys projectPath taskId).
Proof. autounfold with stash_blocks. repeat owned_step_tac. Qed.

(** The housekeeping after the snapshot. *)
Lemma owned_tidying :
  preserves owned (ensureGitignore sys projectPath ;; cleanTransient sys projectPath ;;
                   removeUntrackedSpecDir sys projectPath taskId).
Proof. autounfold with stash_blocks. repeat owned_step_tac. Qed.

Lemma owned_merging :
  preserves owned (try_catch (conclude sys projectPath taskId) (mergeCatch sys projectPath)).
Proof.
  apply preserves_try_catch; [|intros e; apply owned_mergeCatch].
  autounfold with stash_blocks. repeat owned_step_tac.
Qed.

(** The housekeeping from frame [f]: the snapshot is taken in the world
    that the attempted [git merge --abort] leaves. *)
Lemma owned_housekeeping f :
  (stash_pushed_at sys projectPath (snd (execSync sys projectPath MergeAbort (fr_world f)))
   -> pushed) ->
  owned f -> owned (snd (housekeeping sys projectPath taskId f)).
Proof.
  intros Hpushed Hf. unfold housekeeping.
  set (fa := mkFrame (snd (execSync sys projectPath MergeAbort (fr_world f)))
               (fr_trace f ++ [Exec projectPath MergeAbort]) (hasStash f)).
  assert (Ha : attempt (exec_ sys projectPath MergeAbort) f = (Normal tt, fa)).
  { unfold attempt, try_catch, exec_, bind, exec. subst fa.
    now destruct (execSync sys projectPath MergeAbort (fr_world f)) as [[out|e] w']. }
  rewrite (bind_normal _ _ _ _ _ Ha).
  assert (Hfa : owned fa) by (now apply owned_step).
  pose proof (owned_stashChanges fa Hpushed Hfa) as Hb.
  destruct (total_attempt
              (let* status := exec sys projectPath StatusNoWorktrees in
               when_ (0 <? String.length (Js.trim status))
                 (exec_ sys projectPath StashPush ;; setHasStash true)) fa)
    as ([] & fb & Eb).
  change (stashChanges sys projectPath fa = (Normal tt, fb)) in Eb.
  rewrite Eb in Hb. cbn [snd] in Hb. rewrite (bind_normal _ _ _ _ _ Eb).
  now apply owned_tidying.
Qed.

End Stash.

(** The request pops or drops a stash only behind a push of its own:
    started with no stash held, it runs [git stash pop] or [git stash drop]
    only if it reached its housekeeping and there, in the world left by the
    attempted [git merge --abort], [git status] reported changes outside the
    worktrees and [git stash push] returned without error.  Whether that push
    saved anything is not looked at, so the stash popped need not be the
    request's. *)
Theorem unstash_only_after_own_push {W} (sys : Sys W) (projectPath taskId : string)
    (target : option string) (f0 : Frame W) :
  hasStash f0 = false ->
  let r := mergeIn sys projectPath taskId target f0 in
  let new := drop (List.length (fr_trace f0)) (fr_trace (snd r)) in
  In (Exec projectPath StashPop) new \/ In (Exec projectPath StashDrop) new ->
  exists f1,
    prepare sys projectPath taskId target f0 = (Normal false, f1)
    /\ stash_pushed_at sys projectPath
         (snd (execSync sys projectPath MergeAbort (fr_world f1))).
Proof.
  intros Hs r new Hin. subst r new.
  assert (H0 : forall P, stash_owned P (fr_trace f0) f0).
  { intros P. right. split; [exact Hs|]. exists []. now rewrite app_nil_r. }
  assert (Hquiet : forall (P : Prop) (f : Frame W), stash_owned P (fr_trace f0) f ->
                     In (Exec projectPath StashPop)
                       (drop (List.length (fr_trace f0)) (fr_trace f))
                     \/ In (Exec projectPath StashDrop)
                          (drop (List.length (fr_trace f0)) (fr_trace f)) ->
                     P).
  { intros P f [Hp|(_ & l & Hl & Hq)] Hin'; [exact Hp | exfalso].
    rewrite Hl, drop_app_length in Hin'. rewrite List.Forall_forall in Hq.
    destruct Hin' as [Hin'|Hin']; apply Hq in Hin'; discriminate Hin'. }
  destruct (prepare sys projectPath taskId target f0) as [[[|]|e] f1] eqn:E1.
  - exfalso. apply (Hquiet False (snd (mergeIn sys projectPath taskId target f0))); [|exact Hin].
    pose proof (owned_prepare sys projectPath taskId (fr_trace f0) False target f0 (H0 _))
      as H1.
    rewrite E1 in H1. cbn [snd] in H1.
    pose proof (owned_finishAlreadyMerged sys projectPath taskId (fr_trace f0) False f1 H1)
      as H2.
    assert (Hrun : mergeIn sys projectPath taskId target f0
                   = finishAlreadyMerged sys projectPath taskId f1).
    { unfold mergeIn, mergeBody. rewrite AlreadyMerged.finishAlreadyMerged_exact.
      apply try_catch_normal. rewrite (bind_normal _ _ _ _ _ E1).
      apply AlreadyMerged.finishAlreadyMerged_exact. }
    now rewrite Hrun.
  - exists f1. split; [reflexivity|].
    set (P := stash_pushed_at sys projectPath
                (snd (execSync sys projectPath MergeAbort (fr_world f1)))).
    apply (Hquiet P (snd (mergeIn sys projectPath taskId target f0))); [|exact Hin].
    pose proof (owned_prepare sys projectPath taskId (fr_trace f0) P target f0 (H0 _)) as H1.
    rewrite E1 in H1. cbn [snd] in H1.
    pose proof (owned_housekeeping sys projectPath taskId (fr_trace f0) P f1 (fun H => H) H1)
      as H2.
    destruct (housekeeping_completes sys projectPath taskId f1) as (f2 & E2).
    rewrite E2 in H2. cbn [snd] in H2.
    rewrite (Conflicts.mergeIn_at_merge sys projectPath taskId target f0 f1 f2 E1 E2).
    now apply owned_merging.
  - exfalso. apply (Hquiet False (snd (mergeIn sys projectPath taskId target f0))); [|exact Hin].
    pose proof (owned_prepare sys projectPath taskId (fr_trace f0) False target f0 (H0 _))
      as H1.
    rewrite E1 in H1. cbn [snd] in H1.
    assert (Hthrown : mergeBody sys projectPath taskId target f0 = (Thrown e, f1)).
    { unfold mergeBody. now apply bind_thrown. }
    unfold mergeIn. rewrite (try_catch_thrown _ _ _ _ _ Hthrown).
    now apply owned_mergeCatch.
Qed.

(** On the repository whose stash cannot be popped, the drop that the
    request runs follows a push in its own housekeeping. *)
Lemma unstash_only_after_own_push_witness :
  stash_pushed_at (Sample.sys SampleMore.clean_merge) "/repo" Sample.with_plan.
Proof.
  destruct (unstash_only_after_own_push (Sample.sys SampleMore.clean_merge) "/repo" "001"
              None (mkFrame Sample.with_plan [] false)) as (f1 & E1 & Hpushed).
  - reflexivity.
  - right. vm_compute. tauto.
  - vm_compute in E1. injection E1 as <-. exact Hpushed.
Defined.

(** A base branch that cannot be checked out ends the request at once: the
    checkout's error is answered as a failure, and after the two commands
    only the catch's log line is recorded; nothing is stashed, merged or
    written. *)
Theorem failed_checkout_aborts {W} (sys : Sys W) (projectPath taskId : string)
    (target : option string) (f0 f1 : Frame W) (base out e : string) (w1 w2 : W) :
  hasStash f0 = false ->
  resolveBaseBranch sys projectPath taskId target f0 = (Normal base, f1) ->
  execSync sys projectPath RevParseHead (fr_world f1) = (ExecOk out, w1) ->
  Js.trim out <> base ->
  execSync sys projectPath (Checkout base) w1 = (ExecErr e, w2) ->
  mergeIn sys projectPath taskId target f0
  = (Normal (failed_response e),
     mkFrame w2
       (fr_trace f1 ++ [Exec projectPath RevParseHead; Exec projectPath (Checkout base);
                        ConsoleError "[Merge] Error:"])
       false).
Proof.
  intros Hs Hbase Hhead Hother Hco.
  pose proof (resolveBaseBranch_spec sys projectPath taskId target f0) as (_ & Hs1 & _).
  rewrite Hbase in Hs1. cbn [snd] in Hs1. rewrite Hs in Hs1.
  unfold mergeIn, mergeBody, prepare.
  assert (Hthrow : checkoutBase sys projectPath base f1
                   = (Thrown e,
                      mkFrame w2 (fr_trace f1 ++ [Exec projectPath RevParseHead;
                                                  Exec projectPath (Checkout base)]) false)).
  { unfold checkoutBase.
    rewrite (bind_normal _ _ _ _ _ (exec_ok sys projectPath _ _ _ _ Hhead)).
    apply String.eqb_neq in Hother. rewrite Hother. cbn [negb when_].
    set (fa := mkFrame w1 _ _).
    rewrite (exec__err sys projectPath (Checkout base) fa e w2 Hco).
    subst fa. cbn [fr_trace hasStash]. now rewrite Hs1, <- app_assoc. }
  erewrite try_catch_thrown; cycle 1.
  { apply bind_thrown. rewrite (bind_normal _ _ _ _ _ Hbase).
    apply bind_thrown. exact Hthrow. }
  unfold mergeCatch. rewrite bind_record, bind_getHasStash. cbn [hasStash when_].
  rewrite bind_ret. unfold ret. cbn [fr_world fr_trace]. now rewrite <- app_assoc.
Qed.

(** The request on a repository that refuses the checkout. *)
Lemma failed_checkout_aborts_witness :
  mergeIn (Sample.sys SampleMore.checkout_refused) "/repo" "001" None
    (mkFrame Sample.with_plan [] false)
  = (Normal (failed_response "error: local changes would be overwritten"),
     mkFrame Sample.with_plan
       [Exec "/repo" RevParseVerifyMain; Exec "/repo" RevParseHead;
        Exec "/repo" (Checkout "main"); ConsoleError "[Merge] Error:"]
       false).
Proof.
  refine (failed_checkout_aborts (Sample.sys SampleMore.checkout_refused) "/repo" "001" None
            (mkFrame Sample.with_plan [] false)
            (mkFrame Sample.with_plan [Exec "/repo" RevParseVerifyMain] false)
            "main" "develop" "error: local changes would be overwritten"
            Sample.with_plan Sample.with_plan _ _ _ _ _).
  - reflexivity.
  - vm_compute. reflexivity.
  - vm_compute. reflexivity.
  - vm_compute. discriminate.
  - vm_compute. reflexivity.
Defined.

(** A merge request always answers, with HTTP 200 and one of three
    bodies: already merged, merge completed, or a failure carrying the error
    message; an unknown project is the only 404, and leaves the server as it
    was.  The registries of running tasks and of log watchers are not
    touched. *)
Theorem merge_answers_one_of_three {W} (sys : Sys W) (taskId projectId : string)
    (target : option string) (s : Server W) :
  let r := merge sys taskId projectId target s in
  match findProject sys projectId (world s) with
  | None => r = (error_response 404 "Project not found", s)
  | Some _ => is_merge_answer (fst r) /\ http_status (fst r) = 200
  end
  /\ runningTasks (snd r) = runningTasks s
  /\ logWatchers (snd r) = logWatchers s.
Proof.
  intros r. subst r. unfold merge.
  destruct (findProject sys projectId (world s)) as [project|]; [|now repeat split].
  set (f := mkFrame (world s) (trace s) false).
  assert (H : exists a f', mergeIn sys (project_path project) taskId target f = (Normal a, f')
                           /\ is_merge_answer a).
  { unfold mergeIn, try_catch.
    destruct (mergeBody sys (project_path project) taskId target f) as [[a|e] f1] eqn:E.
    - exists a, f1. split; [reflexivity|]. unfold mergeBody in E.
      apply bind_inv in E as (am & fp & _ & E). destruct am.
      + unfold finishAlreadyMerged in E. apply bind_inv in E as (? & ? & _ & E).
        injection E as <- _. now left.
      + apply bind_inv in E as (? & ? & _ & E). unfold conclude in E.
        apply bind_inv in E as (? & ? & _ & E). apply bind_inv in E as (? & ? & _ & E).
        apply bind_inv in E as (? & ? & _ & E). injection E as <- _. right. now left.
    - destruct (Conflicts.mergeCatch_spec sys (project_path project) e f1) as (f' & E' & _).
      exists (failed_response e), f'. split; [exact E'|]. right. right. now exists e. }
  destruct H as (a & f' & -> & Ha). cbn [fst snd responseOf runningTasks logWatchers].
  repeat split; [exact Ha|].
  destruct Ha as [->|[->|(e & ->)]]; reflexivity.
Qed.

Lemma includes_app_r (a b needle : string) :
  Js.includes b needle = true -> Js.includes (a +:+ b) needle = true.
Proof.
  intros Hb. induction a as [|c a IH]; [exact Hb|].
  change (Js.includes (String c (a +:+ b)) needle = true).
  unfold Js.includes; fold Js.includes.
  destruct (String.prefix needle (String c (a +:+ b))); [reflexivity | exact IH].
Qed.

(** The ignore entry is added once: after the step the ignore file holds
    [.worktrees], what was written is the old content (nothing for a missing
    file) followed by the entry, and running the step again changes nothing.
    An ignore file that exists and cannot be read is left alone.  The file
    system is assumed to hold and read back what was written. *)
Theorem gitignore_entry_added_once {W} (sys : Sys W) (projectPath : string) (f : Frame W) :
  let gitignorePath := Js.path_join [projectPath; ".gitignore"] in
  (forall content w,
      readFile sys gitignorePath (writeFile sys gitignorePath content w) = Some content
      /\ existsSync sys gitignorePath (writeFile sys gitignorePath content w) = true) ->
  let r := ensureGitignore sys projectPath f in
  fst r = Normal tt
  /\ ensureGitignore sys projectPath (snd r) = (Normal tt, snd r)
  /\ match (if existsSync sys gitignorePath (fr_world f)
            then readFile sys gitignorePath (fr_world f) else Some EmptyString) with
     | None => snd r = f
     | Some old =>
         (exists content, readFile sys gitignorePath (fr_world (snd r)) = Some content
                          /\ Js.includes content ".worktrees" = true)
         /\ (Js.includes old ".worktrees" = true -> snd r = f)
         /\ (forall content, In (WriteFile gitignorePath content)
                               (drop (List.length (fr_trace f)) (fr_trace (snd r))) ->
               content = old +:+ String (ascii_of_nat 10) ".worktrees/"
                           +:+ String (ascii_of_nat 10) EmptyString)
     end.
Proof.
  intros gitignorePath Hfs r. subst r.
  assert (Hadd : forall old,
             (if existsSync sys gitignorePath (fr_world f)
              then readFile sys gitignorePath (fr_world f) else Some EmptyString) = Some old ->
             let r := when_ (negb (Js.includes old ".worktrees"))
                        (let content := old +:+ String (ascii_of_nat 10) ".worktrees/"
                                          +:+ String (ascii_of_nat 10) EmptyString in
                         changeWorld (writeFile sys gitignorePath content) ;;
                         record (WriteFile gitignorePath content)) f in
             fst r = Normal tt
             /\ ensureGitignore sys projectPath (snd r) = (Normal tt, snd r)
             /\ (exists content, readFile sys gitignorePath (fr_world (snd r)) = Some content
                                 /\ Js.includes content ".worktrees" = true)
             /\ (Js.includes old ".worktrees" = true -> snd r = f)
             /\ (forall content, In (WriteFile gitignorePath content)
                                   (drop (List.length (fr_trace f)) (fr_trace (snd r))) ->
                   content = old +:+ String (ascii_of_nat 10) ".worktrees/"
                               +:+ String (ascii_of_nat 10) EmptyString)).
  { intros old Hold. cbv zeta.
    destruct (Js.includes old ".worktrees") eqn:Hinc; cbn [negb when_].
    - assert (Hread : existsSync sys gitignorePath (fr_world f) = true
                      /\ readFile sys gitignorePath (fr_world f) = Some old).
      { destruct (existsSync sys gitignorePath (fr_world f)); [now split|].
        injection Hold as <-. discriminate Hinc. }
      destruct Hread as [Hex Hread].
      unfold ret. cbn [fst snd]. split; [reflexivity|]. split; [|split; [|split]].
      + unfold ensureGitignore. fold gitignorePath. rewrite bind_getWorld.
        rewrite Hex, Hread. now rewrite Hinc.
      + now exists old.
      + reflexivity.
      + rewrite drop_all. intros ? [].
    - set (content := old +:+ _).
      assert (Hnew : Js.includes content ".worktrees" = true).
      { subst content. apply includes_app_r. vm_compute. reflexivity. }
      destruct (Hfs content (fr_world f)) as [Hread Hexists].
      unfold bind, changeWorld, record. cbn [fst snd fr_world fr_trace hasStash].
      split; [reflexivity|]. split; [|split; [|split]].
      + unfold ensureGitignore. fold gitignorePath. rewrite bind_getWorld.
        cbn [fr_world]. rewrite Hexists, Hread. now rewrite Hnew.
      + now exists content.
      + discriminate.
      + rewrite drop_app_length. intros c [Hc|[]]. now injection Hc as <-. }
  assert (Hrun : ensureGitignore sys projectPath f
                 = match (if existsSync sys gitignorePath (fr_world f)
                          then readFile sys gitignorePath (fr_world f)
                          else Some EmptyString) with
                   | Some old =>
                       when_ (negb (Js.includes old ".worktrees"))
                         (let content := old +:+ String (ascii_of_nat 10) ".worktrees/"
                                           +:+ String (ascii_of_nat 10) EmptyString in
                          changeWorld (writeFile sys gitignorePath content) ;;
                          record (WriteFile gitignorePath content)) f
                   | None => (Normal tt, f)
                   end).
  { unfold ensureGitignore. fold gitignorePath. rewrite bind_getWorld.
    destruct (existsSync sys gitignorePath (fr_world f)); [|reflexivity].
    now destruct (readFile sys gitignorePath (fr_world f)). }
  rewrite Hrun.
  destruct (if existsSync sys gitignorePath (fr_world f)
            then readFile sys gitignorePath (fr_world f) else Some EmptyString)
    as [old|] eqn:Hold.
  - exact (Hadd old eq_refl).
  - cbn [fst snd]. split; [reflexivity|]. split; [|reflexivity].
    first [exact Hrun | rewrite Hrun, Hold; reflexivity].
Qed.

(** A repository without an ignore file gets one holding the entry. *)
Lemma gitignore_entry_added_once_witness :
  let r := ensureGitignore (Sample.sys Sample.base_config) "/repo"
             (mkFrame Sample.empty_world [] false) in
  fr_trace (snd r)
  = [WriteFile "/repo/.gitignore"
       (String (ascii_of_nat 10) ".worktrees/" +:+ String (ascii_of_nat 10) EmptyString)]
  /\ ensureGitignore (Sample.sys Sample.base_config) "/repo" (snd r) = (Normal tt, snd r).
Proof.
  destruct (gitignore_entry_added_once (Sample.sys Sample.base_config) "/repo"
              (mkFrame Sample.empty_world [] false)) as (_ & Hagain & _).
  - intros content w. split; vm_compute; reflexivity.
  - split; [vm_compute; reflexivity | exact Hagain].
Defined.

End MergeMore.

(** * Further properties of the task listing *)

Module ListingMore.
Import Listing ObsMore.

Lemma from_subtasks_range plan l v :
  In (fst v) listing_statuses -> In (snd v) review_reasons ->
  In (fst (from_subtasks plan l v)) listing_statuses
  /\ In (snd (from_subtasks plan l v)) review_reasons.
Proof.
  intros H1 H2. unfold from_subtasks.
  repeat match goal with
         | |- context [if ?b then _ else _] => destruct b
         end; cbn [fst snd]; (split; [first [exact H1 | simpl; tauto]
                                     | first [exact H2 | simpl; tauto]]).
Qed.

Lemma from_qa_report_range qa l v :
  In (fst v) listing_statuses -> In (snd v) review_reasons ->
  In (fst (from_qa_report qa l v)) listing_statuses
  /\ In (snd (from_qa_report qa l v)) review_reasons.
Proof.
  intros H1 H2. unfold from_qa_report. destruct qa as [c|]; [|now split].
  repeat match goal with
         | |- context [if ?b then _ else _] => destruct b
         end; cbn [fst snd]; (split; [first [exact H1 | simpl; tauto]
                                     | first [exact H2 | simpl; tauto]]).
Qed.

Lemma from_plan_status_range plan v :
  In (fst v) listing_statuses -> In (snd v) review_reasons ->
  In (fst (from_plan_status plan v)) listing_statuses
  /\ snd (from_plan_status plan v) = snd v.
Proof.
  intros H1 H2. unfold from_plan_status.
  repeat match goal with
         | |- context [if ?b then _ else _] => destruct b
         end; cbn [fst snd]; (split; [first [exact H1 | simpl; tauto] | reflexivity]).
Qed.

(** The stored status is not one of those the listing honours. *)
Lemma from_plan_status_silent plan v :
  (forall s, plan_status plan = Some s -> ~ In s honoured_statuses) ->
  from_plan_status plan v = v.
Proof.
  intros H. unfold from_plan_status, Js.is_str.
  destruct (plan_status plan) as [s|]; [|reflexivity].
  specialize (H s eq_refl).
  repeat match goal with
         | |- context [String.eqb s ?lit] =>
             destruct (String.eqb_spec s lit) as [->|_]; [exfalso; apply H; simpl; tauto|]
         end.
  reflexivity.
Qed.

(** Whatever the plan, the QA report and the registry hold, a listed task
    carries one of five statuses and one of four review reasons (none,
    completed, errors, qa_rejected). *)
Theorem listed_values_in_range (running : gmap string RunningTask) (specName : string)
    (pr : PlanRead) (qaReport : option string) :
  In (fst (listed running specName pr qaReport)) listing_statuses
  /\ In (snd (listed running specName pr qaReport)) review_reasons.
Proof.
  unfold listed, effectiveStatus. cbn [fst snd].
  assert (H : In (fst (derive pr qaReport)) listing_statuses
              /\ In (snd (derive pr qaReport)) review_reasons).
  { unfold derive. destruct pr as [| |plan]; [simpl; tauto | simpl; tauto |].
    cbv zeta.
    destruct (from_subtasks_range plan (extract_subtasks plan) ("pending", None))
      as [A1 A2]; [simpl; tauto | simpl; tauto |].
    destruct (from_qa_report_range qaReport (extract_subtasks plan) _ A1 A2) as [B1 B2].
    destruct (from_plan_status_range plan _ B1 B2) as [C1 C2].
    split; [exact C1 | now rewrite C2]. }
  destruct H as [H1 H2]. split; [|exact H2].
  destruct (running !! specName); [simpl; tauto | exact H1].
Qed.

(** For a task without a registered process, a stored plan status of done
    or completed is listed as done, planning or coding as in_progress, and
    human_review and ai_review as themselves, whatever the subtasks and the
    QA report say; the review reason is the one the subtasks and the QA
    report gave. *)
Theorem stored_status_wins (running : gmap string RunningTask) (specName : string)
    (plan : Plan) (qaReport : option string) (stored : string) :
  running !! specName = None ->
  plan_status plan = Some stored ->
  In stored honoured_statuses ->
  let subtasks := extract_subtasks plan in
  listed running specName (Parsed plan) qaReport
  = (if String.eqb stored "done" || String.eqb stored "completed" then "done"
     else if String.eqb stored "planning" || String.eqb stored "coding" then "in_progress"
     else stored,
     snd (from_qa_report qaReport subtasks (from_subtasks plan subtasks ("pending", None)))).
Proof.
  intros Hrun Hstored Hin subtasks.
  unfold listed, effectiveStatus, derive. rewrite Hrun. fold subtasks.
  unfold from_plan_status, Js.is_str. rewrite Hstored. cbn [fst snd].
  simpl in Hin.
  destruct Hin as [<-|[<-|[<-|[<-|[<-|[<-|[]]]]]]]; reflexivity.
Qed.

(** A merged task whose subtasks include a failure is listed as done and
    keeps the review reason errors. *)
Lemma stored_status_wins_witness :
  listed (∅ : gmap string RunningTask) "001"
    (Parsed (Sample.plan_of (Some "done") None ["completed"; "failed"])) None
  = ("done", Some "errors").
Proof.
  exact (stored_status_wins ∅ "001"
           (Sample.plan_of (Some "done") None ["completed"; "failed"]) None "done"
           (lookup_empty _) eq_refl (or_introl eq_refl)).
Defined.

(** A QA report that contains REJECTED or FAILED sends a task back to
    human review with reason qa_rejected, also when it contains PASSED or
    APPROVED as well and whatever the subtasks are, provided no process is
    registered and the stored plan status is not one the listing honours. *)
Theorem rejected_report_wins (running : gmap string RunningTask) (specName : string)
    (plan : Plan) (qaContent : string) :
  running !! specName = None ->
  (forall s, plan_status plan = Some s -> ~ In s honoured_statuses) ->
  Js.includes qaContent "REJECTED" = true \/ Js.includes qaContent "FAILED" = true ->
  listed running specName (Parsed plan) (Some qaContent)
  = ("human_review", Some "qa_rejected").
Proof.
  intros Hrun Hsilent Hrej.
  unfold listed, effectiveStatus, derive. rewrite Hrun.
  rewrite (from_plan_status_silent plan _ Hsilent).
  unfold from_qa_report.
  assert (Hor : Js.includes qaContent "REJECTED" || Js.includes qaContent "FAILED" = true).
  { destruct Hrej as [->| ->]; [reflexivity | apply orb_true_r]. }
  rewrite Hor. reflexivity.
Qed.

(** A report with both verdicts on a task whose subtasks are all
    completed. *)
Lemma rejected_report_wins_witness :
  listed (∅ : gmap string RunningTask) "001"
    (Parsed (Sample.plan_of None (Some "approved") ["completed"; "completed"]))
    (Some "QA PASSED, then REJECTED by the reviewer")
  = ("human_review", Some "qa_rejected").
Proof.
  apply rejected_report_wins.
  - apply lookup_empty.
  - intros s Hs. discriminate Hs.
  - left. vm_compute. reflexivity.
Defined.

End ListingMore.

(** * Properties of the further request handlers *)

Module EndpointsFacts.
Import Obs ObsMore Endpoints SupervisorFacts StartFacts.

Section Recovering.
Context {W : Type} (sys : Sys W) (codec : SpecsCodec).

Lemma files_only_refl (s : Server W) : files_only s s.
Proof. repeat split. exists []. now rewrite app_nil_r. Qed.

Lemma files_only_trans (s1 s2 s3 : Server W) :
  files_only s1 s2 -> files_only s2 s3 -> files_only s1 s3.
Proof.
  intros (R1 & L1 & F1 & l1 & T1 & Q1) (R2 & L2 & F2 & l2 & T2 & Q2).
  repeat split; try congruence.
  exists (l1 ++ l2). split; [now rewrite T2, T1, app_assoc | now apply Forall_app].
Qed.

Lemma files_only_emit (s : Server W) w e :
  is_file_effect e = true -> files_only s (emit e (set_world w s)).
Proof. intros He. repeat split. exists [e]. now repeat constructor. Qed.

Lemma resetPlanStatus_files planPath newStatus (s : Server W) :
  files_only s (resetPlanStatus sys planPath newStatus s).
Proof.
  unfold resetPlanStatus.
  destruct (readPlan sys planPath (world s)); try apply files_only_refl.
  now apply files_only_emit.
Qed.

Lemma clearReviewFiles_files specDir clear (s : Server W) :
  files_only s (clearReviewFiles sys specDir clear s).
Proof.
  unfold clearReviewFiles. cbv zeta.
  match goal with
  | |- files_only s (if existsSync sys _ (world ?x) then _ else _) => set (s1 := x)
  end.
  assert (H1 : files_only s s1).
  { subst s1. destruct (_ && _); [now apply files_only_emit | apply files_only_refl]. }
  destruct (existsSync sys _ (world s1)); [|exact H1].
  eapply files_only_trans; [exact H1 | now apply files_only_emit].
Qed.

Lemma resetSpecsStatus_files specsPath taskId newStatus (s : Server W) :
  files_only s (resetSpecsStatus sys codec specsPath taskId newStatus s).
Proof.
  unfold resetSpecsStatus.
  destruct (readFile sys specsPath (world s)) as [content|]; [|apply files_only_refl].
  destruct (parseSpecs codec content) as [specs|]; [|apply files_only_refl].
  destruct (findIndex taskId specs); [now apply files_only_emit | apply files_only_refl].
Qed.

(** A recovery of a known project, step by step. *)
Lemma recover_known taskId projectId options (s : Server W) project :
  findProject sys projectId (world s) = Some project ->
  let newStatus := Js.or_else (options ≫= targetStatus) "backlog" in
  let s1 := resetPlanStatus sys (planPathOf (project_path project) taskId) newStatus s in
  exists s3,
    files_only s1 s3
    /\ recover sys codec taskId projectId options s
       = (Recovered taskId newStatus ("Task recovered and set to " +:+ newStatus)
            (match options with Some o => autoRestart o | None => false end),
          set_runningTasks (delete taskId (runningTasks s3)) s3).
Proof.
  intros Hproj newStatus s1. unfold recover. rewrite Hproj. cbv zeta.
  fold newStatus. fold s1. eexists. split; [|reflexivity].
  eapply files_only_trans; [apply clearReviewFiles_files | apply resetSpecsStatus_files].
Qed.

Lemma live_extended c tid (tr l : list Effect) :
  live c tid tr -> Forall (fun e => is_process_effect e = false) l -> live c tid (tr ++ l).
Proof.
  intros [(cmd & args & cwd & Hin & Harg) Hk] Hq. split.
  - exists cmd, args, cwd. split; [apply in_or_app; now left | exact Harg].
  - intros Hin'. apply in_app_or in Hin' as [Hin'|Hin']; [now apply Hk|].
    rewrite List.Forall_forall in Hq. apply Hq in Hin'. discriminate Hin'.
Qed.

Lemma file_effects_quiet (l : list Effect) :
  Forall (fun e => is_file_effect e = true) l ->
  Forall (fun e => is_process_effect e = false) l.
Proof. intros H. eapply Forall_impl; [exact H|]. now intros []. Qed.

(** The frame of a recovery: what it leaves alone. *)
Lemma recover_frame taskId projectId options (s : Server W) project :
  findProject sys projectId (world s) = Some project ->
  let s' := snd (recover sys codec taskId projectId options s) in
  runningTasks s' = delete taskId (runningTasks s)
  /\ logWatchers s' = logWatchers s
  /\ fresh s' = fresh s
  /\ exists l, trace s' = trace s ++ l /\ Forall (fun e => is_file_effect e = true) l.
Proof.
  intros Hproj s'. subst s'.
  destruct (recover_known taskId projectId options s project Hproj) as (s3 & H13 & ->).
  pose proof (files_only_trans _ _ _
                (resetPlanStatus_files (planPathOf (project_path project) taskId)
                   (Js.or_else (options ≫= targetStatus) "backlog") s) H13)
    as (R & L & F & l & T & Q).
  cbn. rewrite R. repeat split; try assumption. now exists l.
Qed.

(** The handle an accepted start registers holds the pid the launch
    returned. *)
Lemma start_registers_pid taskId projectId force (s : Server W) project autoBuildPath :
  findProject sys projectId (world s) = Some project ->
  getAutoBuildPath sys (world s) = Some autoBuildPath ->
  runningTasks (snd (start sys taskId projectId force s))
  = <[taskId := {| rt_taskId := taskId;
                   rt_process :=
                     {| child_id := fresh s;
                        child_pid := fst (spawn sys (pythonPathOf autoBuildPath)
                                            (workerArgs autoBuildPath taskId force)
                                            (project_path project)
                                            (world (killExisting sys taskId s))) |};
                   rt_projectPath := project_path project |}]> (runningTasks s).
Proof.
  intros Hproj Habp. unfold start. rewrite Hproj, Habp. cbv zeta.
  destruct (killExisting_spec sys taskId s) as (Hr1 & _ & Hf1 & _).
  set (s1 := killExisting sys taskId s) in *.
  set (s2 := spawnAndRegister sys taskId (project_path project) autoBuildPath force s1).
  assert (Hr2 : runningTasks s2
                = <[taskId := {| rt_taskId := taskId;
                                 rt_process :=
                                   {| child_id := fresh s1;
                                      child_pid := fst (spawn sys (pythonPathOf autoBuildPath)
                                                          (workerArgs autoBuildPath taskId force)
                                                          (project_path project) (world s1)) |};
                                 rt_projectPath := project_path project |}]>
                    (runningTasks s1)).
  { subst s2. unfold spawnAndRegister.
    now destruct (spawn sys _ _ (project_path project) (world s1)). }
  clearbody s2.
  destruct (detectParentBranch_spec sys (project_path project) s2) as (Hr3 & _).
  destruct (detectParentBranch sys (project_path project) s2) as [parentBranch s3].
  cbn [snd] in Hr3.
  destruct (persistInProgress_spec sys taskId (project_path project) parentBranch s3)
    as (Hr4 & _).
  destruct (startLogWatching_spec sys taskId (project_path project)
              (broadcast (TaskStatusChange taskId "in_progress")
                 (persistInProgress sys taskId (project_path project) parentBranch s3)))
    as (_ & Hr6 & _).
  cbn [snd]. rewrite Hr6. cbn [broadcast emit runningTasks].
  rewrite Hr4, Hr3, Hr2, Hr1, Hf1. apply insert_delete_eq.
Qed.

End Recovering.


(** Recovery forgets a task without stopping it: the answer names the new
    status (the requested one, backlog by default); only files are touched,
    so no process is signalled, no timer cleared and nothing published; the
    handle of the task is removed while every process that was alive for it
    stays alive, and its log watcher stays registered; the status endpoint
    then reports the task as not running. *)
Theorem recover_forgets_without_killing {W} (sys : Sys W) (codec : SpecsCodec)
    (taskId projectId : string) (options : option RecoverOptions) (s : Server W) :
  is_Some (findProject sys projectId (world s)) ->
  let r := recover sys codec taskId projectId options s in
  let newStatus := Js.or_else (options ≫= targetStatus) "backlog" in
  (exists autoRestarted,
      fst r = Recovered taskId newStatus ("Task recovered and set to " +:+ newStatus)
                autoRestarted)
  /\ runningTasks (snd r) = delete taskId (runningTasks s)
  /\ logWatchers (snd r) = logWatchers s
  /\ fresh (snd r) = fresh s
  /\ Forall (fun e => is_file_effect e = true) (since s (snd r))
  /\ (forall c, live c taskId (trace s) -> live c taskId (trace (snd r)))
  /\ taskStatus taskId (snd r) = {| isRunning := false; pid := PidNull |}.
Proof.
  intros [project Hproj] r newStatus. subst r.
  destruct (recover_known sys codec taskId projectId options s project Hproj)
    as (s3 & H13 & ->).
  pose proof (files_only_trans _ _ _
                (resetPlanStatus_files sys (planPathOf (project_path project) taskId)
                   (Js.or_else (options ≫= targetStatus) "backlog") s) H13)
    as (R & L & F & l & T & Q).
  cbn [fst snd]. split; [eauto|].
  split; [cbn; now rewrite R|]. split; [exact L|]. split; [exact F|].
  split; [|split].
  - erewrite since_app by (cbn; exact T). exact Q.
  - intros c Hc. cbn. rewrite T. apply live_extended; [exact Hc|].
    now apply file_effects_quiet.
  - unfold taskStatus. cbn. now rewrite lookup_delete_eq.
Qed.

(** Task 001 is started and then recovered: its worker is still alive and
    no longer registered. *)
Lemma recover_forgets_without_killing_witness :
  let sys := Sample.sys Sample.base_config in
  let s := snd (start sys "001" "p1" false (initialServer SampleMore.recoverable)) in
  let r := recover sys SampleMore.specs_codec "001" "p1" None s in
  runningTasks (snd r) !! "001" = None
  /\ since s (snd r)
     = [WritePlan "/repo/.auto-claude/specs/001/implementation_plan.json"
          (with_status "backlog"
             (set_plan_status "in_progress" "in_progress" "2025-01-02T00:00:00Z"
                (Sample.plan_of (Some "in_progress") None ["completed"; "completed"])));
        Unlink "/repo/.auto-claude/specs/001/QA_FIX_REQUEST.md";
        WriteFile "/repo/.auto-claude/specs/specs.json" "000=done;001=backlog"].
Proof.
  intros sys s r.
  assert (Hproj : is_Some (findProject sys "p1" (world s))) by (vm_compute; eauto).
  destruct (recover_forgets_without_killing sys SampleMore.specs_codec "001" "p1" None s
              Hproj) as (_ & Hreg & _).
  split.
  - fold r in Hreg. rewrite Hreg. apply lookup_delete_eq.
  - vm_compute. reflexivity.
Defined.

(** After a recovery a start does not find the old handle, so it kills
    nothing: the process that was alive for the task stays alive next to the
    newly spawned one, and the task has two live processes. *)
Theorem start_after_recover_runs_two {W} (sys : Sys W) (codec : SpecsCodec)
    (taskId projectId : string) (options : option RecoverOptions) (force : bool)
    (s : Server W) (c : nat) :
  ids_below s ->
  live c taskId (trace s) ->
  is_Some (findProject sys projectId (world s)) ->
  let s1 := snd (recover sys codec taskId projectId options s) in
  is_Some (findProject sys projectId (world s1)) ->
  is_Some (getAutoBuildPath sys (world s1)) ->
  let s2 := snd (start sys taskId projectId force s1) in
  live c taskId (trace s2)
  /\ live (fresh s) taskId (trace s2)
  /\ c <> fresh s
  /\ Forall (fun e => is_kill e = false) (since s s2).
Proof.
  intros Hids Hlive [project Hproj] s1 [project1 Hproj1] [abp Habp] s2.
  assert (Hframe : runningTasks s1 = delete taskId (runningTasks s)
                   /\ logWatchers s1 = logWatchers s
                   /\ fresh s1 = fresh s
                   /\ exists l, trace s1 = trace s ++ l
                                /\ Forall (fun e => is_file_effect e = true) l)
    by exact (recover_frame sys codec taskId projectId options s project Hproj).
  destruct Hframe as (R & L & F & l & T & Q).
  pose proof (file_effects_quiet l Q) as Qp. rewrite List.Forall_forall in Q, Qp.
  assert (Hids1 : ids_below s1).
  { destruct Hids as (Hk & Hs & Hr). unfold ids_below. rewrite F. repeat split.
    - intros k Hin. rewrite T in Hin. apply in_app_or in Hin as [Hin|Hin]; [now apply Hk|].
      apply Qp in Hin. discriminate Hin.
    - intros k cmd args cwd Hin. rewrite T in Hin.
      apply in_app_or in Hin as [Hin|Hin]; [now apply Hs in Hin|].
      apply Qp in Hin. discriminate Hin.
    - intros tid rt Hrt. rewrite R in Hrt. apply lookup_delete_Some in Hrt as [_ Hrt].
      now apply Hr in Hrt. }
  assert (Hnew : live (fresh s1) taskId (trace s2))
    by exact (SupervisorMore.started_child_live sys taskId projectId force s1 project1 abp
                Hids1 Hproj1 Habp).
  rewrite F in Hnew.
  assert (Hshape : exists rest,
             trace s2 = trace s1 ++ kill_effects s1 taskId
                          ++ Spawn (fresh s1) (pythonPathOf abp)
                               (workerArgs abp taskId force) (project_path project1) :: rest
             /\ Forall (fun e => is_process_effect e = false) rest
             /\ In (Broadcast (TaskStatusChange taskId "in_progress")) rest)
    by exact (AtMostOne.start_shape sys taskId projectId force s1 project1 abp Hproj1 Habp).
  destruct Hshape as (rest & Ht & Hquiet & _).
  clearbody s2. clearbody s1.
  assert (Hnone : kill_effects s1 taskId = []).
  { unfold kill_effects. now rewrite R, lookup_delete_eq. }
  rewrite Hnone, T, <- app_assoc in Ht. cbn [app] in Ht.
  assert (Hadded : Forall (fun e => is_process_effect e = false \/ is_spawn e = true)
                     (l ++ Spawn (fresh s1) (pythonPathOf abp)
                             (workerArgs abp taskId force) (project_path project1) :: rest)).
  { apply Forall_app. split; [|constructor].
    - apply List.Forall_forall. intros e He. left. now apply Qp.
    - now right.
    - eapply Forall_impl; [exact Hquiet|]. intros e He. now left. }
  rewrite List.Forall_forall in Hadded.
  split; [|split; [exact Hnew|split]].
  - destruct Hlive as [(cmd & args & cwd & Hin & Harg) Hk]. split.
    + exists cmd, args, cwd. split; [|exact Harg]. rewrite Ht. apply in_or_app. now left.
    + rewrite Ht. intros Hin'. apply in_app_or in Hin' as [Hin'|Hin']; [now apply Hk|].
      apply Hadded in Hin' as [Hin'|Hin']; discriminate Hin'.
  - destruct Hlive as [(cmd & args & cwd & Hin & _) _].
    destruct Hids as (_ & Hs & _). apply Hs in Hin. lia.
  - erewrite since_app by exact Ht. apply List.Forall_forall. intros e He.
    apply Hadded in He as [He|He]; now destruct e.
Qed.

(** Task 001 started, recovered and started again: children 0 and 2 are
    both alive. *)
Lemma start_after_recover_runs_two_witness :
  let sys := Sample.sys Sample.base_config in
  let s := snd (start sys "001" "p1" false (initialServer SampleMore.recoverable)) in
  let s1 := snd (recover sys SampleMore.specs_codec "001" "p1" None s) in
  let s2 := snd (start sys "001" "p1" false s1) in
  live 0 "001" (trace s2) /\ live 2 "001" (trace s2).
Proof.
  intros sys s s1 s2.
  assert (Hids : ids_below s).
  { apply (AtMostOne.start_preserves sys "001" "p1" false
             (initialServer SampleMore.recoverable)).
    apply AtMostOne.initial_invariant. }
  assert (Hlive : live 0 "001" (trace s)).
  { split.
    - exists (pythonPathOf "/opt/auto-claude"), (workerArgs "/opt/auto-claude" "001" false),
        "/repo".
      split; [|reflexivity]. vm_compute. left. reflexivity.
    - vm_compute. intros H. repeat (destruct H as [H|H]; [discriminate H|]). exact H. }
  assert (Hproj : is_Some (findProject sys "p1" (world s))) by (vm_compute; eauto).
  assert (Hproj1 : is_Some (findProject sys "p1" (world s1))) by (vm_compute; eauto).
  assert (Habp : is_Some (getAutoBuildPath sys (world s1))) by (vm_compute; eauto).
  destruct (start_after_recover_runs_two sys SampleMore.specs_codec "001" "p1" None false
              s 0 Hids Hlive Hproj Hproj1 Habp) as (Hold & Hnew & _).
  split; [exact Hold | exact Hnew].
Defined.

(** Recovering to a status the listing does not honour (backlog, the
    default, is one) writes that status into the plan, and the listing then
    shows the task by the progress of its subtasks and its QA report, as if
    no status were stored. *)
Theorem recovered_status_is_not_listed {W} (sys : Sys W) (codec : SpecsCodec)
    (taskId projectId : string) (options : option RecoverOptions) (s : Server W)
    (project : Project) (plan : Plan) :
  findProject sys projectId (world s) = Some project ->
  readPlan sys (planPathOf (project_path project) taskId) (world s) = Parsed plan ->
  let newStatus := Js.or_else (options ≫= targetStatus) "backlog" in
  ~ In newStatus honoured_statuses ->
  let written := with_status newStatus plan in
  In (WritePlan (planPathOf (project_path project) taskId) written)
    (since s (snd (recover sys codec taskId projectId options s)))
  /\ forall (running : gmap string RunningTask) specName qaReport,
       let subtasks := Listing.extract_subtasks plan in
       let v := Listing.from_qa_report qaReport subtasks
                  (Listing.from_subtasks plan subtasks ("pending", None)) in
       Listing.listed running specName (Parsed written) qaReport
       = (Listing.effectiveStatus running specName (fst v), snd v).
Proof.
  intros Hproj Hplan newStatus Hnot written. split.
  - destruct (recover_known sys codec taskId projectId options s project Hproj)
      as (s3 & (_ & _ & _ & l & T & _) & ->).
    cbn [snd]. unfold resetPlanStatus in T. rewrite Hplan in T. cbn in T.
    erewrite since_app; cycle 1.
    { cbn. rewrite T. rewrite <- app_assoc. reflexivity. }
    now left.
  - intros running specName qaReport subtasks v.
    unfold Listing.listed, Listing.derive.
    rewrite ListingMore.from_plan_status_silent.
    + reflexivity.
    + intros st Hst. injection Hst as <-. exact Hnot.
Qed.

(** A task with all subtasks completed, recovered with the default
    options, is listed for AI review. *)
Lemma recovered_status_is_not_listed_witness :
  Listing.listed (∅ : gmap string RunningTask) "001"
    (Parsed (with_status "backlog"
               (Sample.plan_of (Some "in_progress") None ["completed"; "completed"]))) None
  = ("ai_review", None).
Proof.
  destruct (recovered_status_is_not_listed (Sample.sys Sample.base_config)
              SampleMore.specs_codec "001" "p1" None (initialServer SampleMore.recoverable)
              Sample.demo
              (Sample.plan_of (Some "in_progress") None ["completed"; "completed"]))
    as [_ Hlisted].
  - reflexivity.
  - reflexivity.
  - vm_compute. intros H. repeat (destruct H as [H|H]; [discriminate H|]). exact H.
  - rewrite Hlisted. reflexivity.
Defined.

(** The status endpoint follows the supervisor: after an accepted start
    the task is reported running with the pid the launch returned (absent
    when the launch failed), after a stop or after the exit callback it is
    reported not running with a null pid, and the answer for any other task
    is not affected by the start. *)
Theorem status_tracks_supervisor {W} (sys : Sys W) (taskId projectId : string)
    (force : bool) (code : option Z) (s : Server W) (project : Project)
    (autoBuildPath : string) :
  findProject sys projectId (world s) = Some project ->
  getAutoBuildPath sys (world s) = Some autoBuildPath ->
  let started := snd (start sys taskId projectId force s) in
  let launched := fst (spawn sys (pythonPathOf autoBuildPath)
                         (workerArgs autoBuildPath taskId force) (project_path project)
                         (world (killExisting sys taskId s))) in
  taskStatus taskId started = {| isRunning := true; pid := PidOf launched |}
  /\ taskStatus taskId (snd (stop sys taskId started))
     = {| isRunning := false; pid := PidNull |}
  /\ taskStatus taskId (onExit sys taskId (project_path project) code started)
     = {| isRunning := false; pid := PidNull |}
  /\ forall other, other <> taskId -> taskStatus other started = taskStatus other s.
Proof.
  intros Hproj Habp started launched.
  pose proof (start_registers_pid sys taskId projectId force s project autoBuildPath
                Hproj Habp) as Hreg.
  fold started in Hreg. fold launched in Hreg.
  split; [|split; [|split]].
  - unfold taskStatus. now rewrite Hreg, lookup_insert_eq.
  - unfold taskStatus.
    destruct (SupervisorMore.stop_registered sys taskId started _
                (eq_trans (f_equal (fun m => m !! taskId) Hreg) (lookup_insert_eq _ _ _)))
      as (s' & -> & Hnone & _).
    cbn [snd]. now rewrite Hnone.
  - unfold taskStatus.
    destruct (ExitHandling.onExit_registries sys taskId (project_path project) code started)
      as [-> _].
    now rewrite lookup_delete_eq.
  - intros other Hother. unfold taskStatus.
    now rewrite Hreg, lookup_insert_ne by (intros ->; now apply Hother).
Qed.

(** With an interpreter that cannot be launched the task is still reported
    as running, without a pid. *)
Lemma status_tracks_supervisor_witness :
  taskStatus "001"
    (snd (start (Sample.sys Sample.failing_launch) "001" "p1" false
            (initialServer Sample.empty_world)))
  = {| isRunning := true; pid := PidOf None |}.
Proof.
  destruct (status_tracks_supervisor (Sample.sys Sample.failing_launch) "001" "p1" false
              None (initialServer Sample.empty_world) Sample.demo "/opt/auto-claude")
    as [Hstarted _].
  - reflexivity.
  - reflexivity.
  - exact Hstarted.
Defined.

(** Watching and then unwatching a task of a known project: both answer
    success, the task ends without a watcher, the timer that was set is the
    one cleared, an earlier watcher's timer is cleared first, and neither the
    world nor the running tasks change.  A watch for an unknown project is a
    404 and changes nothing. *)
Theorem watch_then_unwatch {W} (sys : Sys W) (taskId projectId : string) (s : Server W) :
  let watched := watch sys taskId projectId s in
  let r := unwatch taskId (snd watched) in
  match findProject sys projectId (world s) with
  | None => watched = (error_response 404 "Project not found", s)
  | Some _ =>
      fst watched = ok_response
      /\ fst r = ok_response
      /\ logWatchers (snd r) = delete taskId (logWatchers s)
      /\ runningTasks (snd r) = runningTasks s
      /\ world (snd r) = world s
      /\ since s (snd r)
         = clear_effects s taskId ++ [SetInterval (fresh s); ClearInterval (fresh s)]
  end.
Proof.
  intros watched r. subst r watched. unfold watch, unwatch.
  destruct (findProject sys projectId (world s)) as [project|]; [|reflexivity].
  cbn [fst snd].
  destruct (stopLogWatching_spec taskId s) as (Hw0 & Hr0 & Hf0 & Hl0 & Ht0).
  destruct (startLogWatching_spec sys taskId (project_path project) s)
    as (Hw1 & Hr1 & Hf1 & Ht1).
  set (s1 := startLogWatching sys taskId (project_path project) s) in *.
  assert (Hentry : exists watcher, logWatchers s1 !! taskId = Some watcher
                                   /\ lw_interval watcher = fresh s
                                   /\ logWatchers s1
                                      = <[taskId := watcher]> (delete taskId (logWatchers s))).
  { subst s1. unfold startLogWatching. cbv zeta. cbn [logWatchers set_logWatchers].
    eexists. rewrite lookup_insert_eq. split; [reflexivity|].
    cbn [lw_interval]. rewrite Hf0, Hl0. split; reflexivity. }
  destruct Hentry as (watcher & Hlook & Hint & Hmap).
  destruct (stopLogWatching_spec taskId s1) as (Hw2 & Hr2 & _ & Hl2 & Ht2).
  split; [reflexivity|]. split; [reflexivity|].
  split; [|split; [congruence|split; [congruence|]]].
  - rewrite Hl2, Hmap. rewrite delete_insert_eq. apply delete_delete_eq.
  - apply since_app. rewrite Ht2, Ht1. unfold clear_effects at 2. rewrite Hlook, Hint.
    now rewrite <- !app_assoc.
Qed.

End EndpointsFacts.

(** * Properties of the merge preview *)

Module PreviewFacts.
Import Worktree PreviewObs MergeObs.



End PreviewFacts.
